(** * SuperChis production programmer

    A shallow embedding of the host-side programmer for the SuperChis
    cartridge: the serial command driver ([device_adapter.py],
    class [SuperChisDevice]) and the four worker plans of
    [chismaker.py] (quality check, reset-NOR, Flash backup, production).

    The serial link is modelled by the bytes the cartridge is going to
    send ([rx]) and by the trace of everything the host does: frames
    written, reads performed, sleeps, polls of the cancel flag and the
    three Qt signals.  Python exceptions, [return] and the [while True]
    polling loops are explicit in the result type. *)

From Stdlib Require Import ZArith List Bool Lia String.
From Stdlib Require Import PrimFloat FloatOps SpecFloat Uint63.
Import ListNotations.
Local Open Scope Z_scope.

(* ================================================================= *)
(** ** Python values, exceptions and signals *)

(** The texts of [raise Exception(f"...")], by template and arguments. *)
Inductive failure : Type :=
| FSramBasic                          (* SRAM基础测试失败 *)
| FSramFull (addr : Z)                (* SRAM全量测试失败于地址 0x.. *)
| FEraseVerify (addr : Z)             (* Flash擦除验证失败于地址 0x.. *)
| FBackupFlash                        (* Backup Flash检测失败 *)
| FProgram (written seg off : Z)      (* 写入失败于地址 0x.. (段.., 偏移0x..) *)
| FVerify (addr : Z)                  (* 校验失败于地址 0x.. *)
| FMetaErase.                         (* Flash元数据区域擦除验证失败 *)

Inductive exn : Type :=
| StructError                         (* struct.error *)
| ValueError                          (* ValueError *)
| ZeroDivisionError                   (* ZeroDivisionError *)
| PlanException (why : failure).      (* Exception(...) raised by a plan *)

(** The texts handed to [log_signal], by template and arguments. *)
Inductive msg : Type :=
| MQaStart | MNoTests
| MSramBasic (cur n : Z) | MSramBasicOk
| MSramFull (cur n : Z) | MSramBank (bank : Z) | MSramFullOk
| MPpb (cur n : Z) | MPpbOk
| MFastFlash (cur n : Z) | MErasedSectors (done total : Z) | MFastFlashOk
| MEraseBlank (cur n : Z) | MFlashNotEmpty | MFlashErased | MFlashEmpty
| MRamFlash (cur n : Z) | MRamFlashOk (mfr id : list Z)
| MQaDone | MQaFailed (e : exn)
| MResetStart | MMappingSet | MUnlockingPpb | MErasingMeta
| MVerifyingErase | MResetDone | MResetFailed (e : exn)
| MBackupStart | MFlashSize (mb : Z) | MBackupSize (mb : Z)
| MSwitchSegment (seg : Z) | MBackedUp (mb total pct : Z)
| MBackupCancelled | MBackupDone | MBackupFailed (e : exn)
| MProdStart | MRomSize (n : Z) | MProdWriting | MGeometry (sector buf : Z)
| MErasing (n : Z) | MEraseCancelled | MSwitchSegmentOff (seg off : Z)
| MErased (i n : Z) | MEraseDoneWriting
| MWritten (w n pct : Z) | MProdCancelled | MWriteDoneVerifying
| MVerified (mb total : Z) | MProdDone | MProdFailed (e : exn).

(** What a worker does to the outside world, in program order. *)
Inductive event : Type :=
| Tx (frame : list Z)                 (* self.ser.write(cmd) *)
| Rx (n : Z) (data : list Z)          (* self.ser.read(n) returned data *)
| Sleep (ms : Z)                      (* time.sleep, in milliseconds *)
| Poll (running : bool)               (* a read of self.running *)
| FileWrite (data : list Z)           (* f.write(data) of the backup *)
| Log (port : string) (m : msg)       (* log_signal.emit *)
| Progress (port : string) (pct : Z)  (* progress_signal.emit *)
| Finished (port : string) (ok : bool). (* finished_signal.emit *)

Definition trace := list event.

(** How a Python computation ends: with a value, by [return] out of the
    enclosing [run], by an exception, or never ([Diverge] is what a
    polling loop would give if the cartridge could answer forever). *)
Inductive res (A : Type) : Type :=
| Val (a : A)
| Return
| Raise (e : exn)
| Diverge.
Arguments Val {A} a.
Arguments Return {A}.
Arguments Raise {A} e.
Arguments Diverge {A}.

(** An argument that is either an [int] or a [bytes] object. *)
Inductive pydata : Type :=
| PInt (v : Z)
| PBytes (bs : list Z).

(* ================================================================= *)
(** ** The world a worker runs in *)

(** [rx]: the bytes the cartridge sends, in order; a read past the end
    is a read that timed out.  [stop_in]: [None] when [stop()] is never
    called, [Some n] when it is called after [n] more polls of
    [self.running].  [rand]/[rand_ix]: the stream behind
    [random.randint] once seeded. *)
Record world : Type := World {
  rx : list Z;
  stop_in : option nat;
  rand : nat -> Z;
  rand_ix : nat
}.

Definition set_rx (w : world) (l : list Z) : world :=
  World l (stop_in w) (rand w) (rand_ix w).

Record outcome (A : Type) : Type := Out {
  result : res A;
  events : trace;
  final : world
}.
Arguments Out {A} result events final.
Arguments result {A} o.
Arguments events {A} o.
Arguments final {A} o.

Definition M (A : Type) : Type := world -> outcome A.

Definition ret {A} (a : A) : M A := fun w => Out (Val a) [] w.

Definition bind {A B} (m : M A) (k : A -> M B) : M B := fun w =>
  let o := m w in
  match result o with
  | Val a => let o' := k a (final o) in
             Out (result o') (events o ++ events o') (final o')
  | Return => Out Return (events o) (final o)
  | Raise e => Out (Raise e) (events o) (final o)
  | Diverge => Out Diverge (events o) (final o)
  end.

Declare Scope py_scope.
Delimit Scope py_scope with py.
Notation "x <- m ;; k" := (bind m (fun x => k))
  (at level 61, m at next level, right associativity) : py_scope.
Notation "m ;; k" := (bind m (fun _ => k))
  (at level 61, right associativity) : py_scope.
Local Open Scope py_scope.

Definition raise {A} (e : exn) : M A := fun w => Out (Raise e) [] w.
Definition py_return {A} : M A := fun w => Out Return [] w.
Definition diverge {A} : M A := fun w => Out Diverge [] w.
Definition emit (e : event) : M unit := fun w => Out (Val tt) [e] w.
Definition get_world : M world := fun w => Out (Val w) [] w.

(** [try: body  except Exception as e: handler e] around the body of a
    worker's [run]; a [return] inside the body leaves [run]. *)
Definition try_except (body : M unit) (handler : exn -> M unit) : M unit :=
  fun w =>
    let o := body w in
    match result o with
    | Raise e => let o' := handler e (final o) in
                 Out (result o') (events o ++ events o') (final o')
    | Return => Out (Val tt) (events o) (final o)
    | _ => o
    end.

(** [for x in l: body x] *)
Fixpoint for_each {A} (l : list A) (body : A -> M unit) : M unit :=
  match l with
  | [] => ret tt
  | x :: l' => body x ;; for_each l' body
  end.

(** [range(start, start + n*step, step)] *)
Fixpoint range_from (start step : Z) (n : nat) : list Z :=
  match n with
  | O => []
  | S n' => start :: range_from (start + step) step n'
  end.

(** [range(start, stop, step)] for a positive [step]. *)
Definition py_range (start stop step : Z) : list Z :=
  range_from start step (Z.to_nat ((stop - start + step - 1) / step)).

Definition len (l : list Z) : Z := Z.of_nat (List.length l).

(** [l[i:j]] for [0 <= i <= j]. *)
Definition slice (l : list Z) (i j : Z) : list Z :=
  firstn (Z.to_nat (j - i)) (skipn (Z.to_nat i) l).

(** [all(b == 0xff for b in data)] *)
Definition all_ff (data : list Z) : bool := forallb (Z.eqb 0xff) data.

(** [a == b] on [bytes]. *)
Fixpoint bytes_eqb (a b : list Z) : bool :=
  match a, b with
  | [], [] => true
  | x :: a', y :: b' => (x =? y) && bytes_eqb a' b'
  | _, _ => false
  end.

(** A loop that threads its variables: [for x in l: s = body s x]. *)
Fixpoint fold_m {A S} (l : list A) (body : S -> A -> M S) (s : S) : M S :=
  match l with
  | [] => ret s
  | x :: l' => s' <- body s x ;; fold_m l' body s'
  end.

(** [while cond s: s = body s], cut off by [fuel]. *)
Fixpoint while_loop {S} (fuel : nat) (cond : S -> M bool) (body : S -> M S)
  (s : S) : M S :=
  match fuel with
  | O => diverge
  | S fuel' =>
      c <- cond s ;;
      if c then s' <- body s ;; while_loop fuel' cond body s' else ret s
  end.

(* ----------------------------------------------------------------- *)
(** *** [struct.pack] and [struct.unpack] *)

Definition pack_B (v : Z) : M (list Z) :=
  if (0 <=? v) && (v <? 256) then ret [v] else raise StructError.

Definition pack_H (v : Z) : M (list Z) :=
  if (0 <=? v) && (v <? 65536) then ret [v mod 256; v / 256]
  else raise StructError.

Definition pack_I (v : Z) : M (list Z) :=
  if (0 <=? v) && (v <? 4294967296)
  then ret [v mod 256; (v / 256) mod 256; (v / 65536) mod 256; v / 16777216]
  else raise StructError.

Definition unpack_H (data : list Z) : M Z :=
  match data with
  | [b0; b1] => ret (b0 + 256 * b1)
  | _ => raise StructError
  end.

(* ----------------------------------------------------------------- *)
(** *** Floats: [a / b], [int(x)]

    Python floats are IEEE binary64, as Rocq's primitive floats.  The
    conversion of an [int] is exact below [2^53], which covers every
    size and counter of the plans. *)

Definition float_of_Z (z : Z) : float := PrimFloat.of_uint63 (Uint63.of_Z z).

Definition truediv (a b : Z) : float :=
  PrimFloat.div (float_of_Z a) (float_of_Z b).

Definition py_int (f : float) : Z :=
  match Prim2SF f with
  | S754_finite s m e =>
      let mag := if 0 <=? e then Z.shiftl (Z.pos m) e
                 else Z.shiftr (Z.pos m) (- e) in
      if s then - mag else mag
  | _ => 0
  end.

(** [a // b] and [a % b] with a divisor that may be zero. *)
Definition floordiv (a b : Z) : M Z :=
  if b =? 0 then raise ZeroDivisionError else ret (a / b).

(* ----------------------------------------------------------------- *)
(** *** The serial port, the clock, the cancel flag, the generator *)

Definition ser_write (cmd : list Z) : M unit := emit (Tx cmd).

Definition ser_read (n : Z) : M (list Z) := fun w =>
  let data := firstn (Z.to_nat n) (rx w) in
  Out (Val data) [Rx n data] (set_rx w (skipn (Z.to_nat n) (rx w))).

Definition sleep_ms (ms : Z) : M unit := emit (Sleep ms).

(** A read of [self.running]. *)
Definition running : M bool := fun w =>
  match stop_in w with
  | None => Out (Val true) [Poll true] w
  | Some O => Out (Val false) [Poll false] w
  | Some (S n) => Out (Val true) [Poll true]
                      (World (rx w) (Some n) (rand w) (rand_ix w))
  end.

(** [random.randint(a, b)] *)
Definition randint (a b : Z) : M Z := fun w =>
  if b <? a then Out (Raise ValueError) [] w
  else Out (Val (a + (rand w (rand_ix w)) mod (b - a + 1))) []
           (World (rx w) (stop_in w) (rand w) (S (rand_ix w))).

(* ================================================================= *)
(** ** [device_adapter.py]: class [SuperChisDevice] *)

Definition MAGIC_ADDRESS : Z := 0x01FFFFFE.
Definition MAGIC_VALUE : Z := 0xA55A.
Definition MAGIC_FLASH_MAP_VALUE : Z := 0xA558.
Definition ROM_OFF_FLASHMETA : Z := 0x00200000.
Definition FLASH_METADATA_SIZE : Z := 0x00200000.

Definition writeRom (addr_word : Z) (dat : pydata) : M (list Z) :=
  dat <- match dat with
         | PInt v => pack_H v
         | PBytes bs => ret bs
         end ;;
  size <- pack_H (2 + 1 + 4 + len dat + 2) ;;
  addr <- pack_I addr_word ;;
  ser_write (size ++ [0xf5] ++ addr ++ dat ++ [0; 0]) ;;
  ack <- ser_read 1 ;;
  ret ack.

Definition readRom (addr_word length_byte : Z) : M (list Z) :=
  size <- pack_H (2 + 1 + 4 + 2 + 2) ;;
  addr <- pack_I (Z.shiftl addr_word 1) ;;
  n <- pack_H length_byte ;;
  ser_write (size ++ [0xf6] ++ addr ++ n ++ [0; 0]) ;;
  respon <- ser_read (length_byte + 2) ;;
  ret (skipn 2 respon).

Definition writeRam (addr : Z) (dat : pydata) : M (list Z) :=
  dat <- match dat with
         | PInt v => pack_B v
         | PBytes bs => ret bs
         end ;;
  size <- pack_H (2 + 1 + 4 + len dat + 2) ;;
  a <- pack_I addr ;;
  ser_write (size ++ [0xf7] ++ a ++ dat ++ [0; 0]) ;;
  ack <- ser_read 1 ;;
  ret ack.

Definition readRam (addr length_byte : Z) : M (list Z) :=
  size <- pack_H (2 + 1 + 4 + 2 + 2) ;;
  a <- pack_I addr ;;
  n <- pack_H length_byte ;;
  ser_write (size ++ [0xf8] ++ a ++ n ++ [0; 0]) ;;
  respon <- ser_read (length_byte + 2) ;;
  ret (skipn 2 respon).

Definition sc_config (sdram sd_enable write_enable sram_bank ctrl : Z) : Z :=
  Z.lor (Z.shiftl ctrl 4)
        (Z.lor (Z.lor (Z.lor sdram (Z.shiftl sd_enable 1))
                      (Z.shiftl write_enable 2))
               (Z.shiftl sram_bank 3)).

Definition set_sc_mode (sdram sd_enable write_enable sram_bank ctrl : Z)
  : M bool :=
  let magic_addr_word := Z.shiftr MAGIC_ADDRESS 1 in
  let config1 := sc_config sdram sd_enable write_enable sram_bank ctrl in
  writeRom magic_addr_word (PInt MAGIC_VALUE) ;;
  writeRom magic_addr_word (PInt MAGIC_VALUE) ;;
  writeRom magic_addr_word (PInt config1) ;;
  writeRom magic_addr_word (PInt config1) ;;
  ret true.

Definition sram_bank_select (bank : Z) : M bool :=
  writeRom 0x800000 (PInt bank) ;;
  set_sc_mode 0 0 0 bank (Z.lxor 0xF (Z.shiftl 1 3)).

Definition set_flashmapping (mapping : list Z) : M bool :=
  if negb (len mapping =? 8) then raise ValueError
  else
    let magic_addr_word := Z.shiftr MAGIC_ADDRESS 1 in
    for_each (range_from 0 1 8) (fun i =>
      let entry := nth (Z.to_nat i) mapping 0 in
      writeRom magic_addr_word (PInt MAGIC_FLASH_MAP_VALUE) ;;
      writeRom magic_addr_word (PInt MAGIC_FLASH_MAP_VALUE) ;;
      writeRom magic_addr_word (PInt entry) ;;
      writeRom magic_addr_word (PInt entry) ;;
      ret tt) ;;
    ret true.

(** The dictionary [readRomID] returns, by key. *)
Record rom_id : Type := RomID {
  id_manufacturer : Z;
  id_device_id1 : Z;
  id_device_id2 : Z;
  id_device_id3 : Z
}.

Definition readRomID : M rom_id :=
  writeRom 0x000555 (PInt 0xaa) ;;
  writeRom 0x0002aa (PInt 0x55) ;;
  writeRom 0x000555 (PInt 0x90) ;;
  data <- readRom 0x00 2 ;;
  manufacturer <- unpack_H data ;;
  data <- readRom 0x01 2 ;;
  device_id1 <- unpack_H data ;;
  data <- readRom 0x0e 2 ;;
  device_id2 <- unpack_H data ;;
  data <- readRom 0x0f 2 ;;
  device_id3 <- unpack_H data ;;
  writeRom 0x000000 (PInt 0xf0) ;;
  ret (RomID manufacturer device_id1 device_id2 device_id3).

(** The dictionary [getRomCFI] returns, by key. *)
Record cfi_info : Type := CFI {
  cfi_device_size : Z;
  cfi_sector_count : Z;
  cfi_sector_size : Z;
  cfi_buffer_write_bytes : Z
}.

Definition getRomCFI : M cfi_info :=
  writeRom 0x55 (PInt 0x98) ;;
  cfi <- readRom 0x27 20 ;;
  writeRom 0x00 (PInt 0xf0) ;;
  temp <- unpack_H (slice cfi 0 2) ;;
  let device_size := 2 ^ temp in
  temp <- unpack_H (slice cfi 6 8) ;;
  let buffer_write_bytes := if negb (temp =? 0) then 2 ^ temp else 0 in
  temp <- unpack_H (slice cfi 12 14) ;;
  temp1 <- unpack_H (slice cfi 14 16) ;;
  let sector_count :=
    Z.lor (Z.shiftl (Z.land temp1 0xff) 8) (Z.land temp 0xff) + 1 in
  temp <- unpack_H (slice cfi 16 18) ;;
  temp1 <- unpack_H (slice cfi 18 20) ;;
  let sector_size :=
    Z.lor (Z.shiftl (Z.land temp1 0xff) 8) (Z.land temp 0xff) * 256 in
  ret (CFI device_size sector_count sector_size buffer_write_bytes).

(** The erase time, in milliseconds. *)
Definition getRomEraseTime : M Z :=
  cfi_info <- getRomCFI ;;
  writeRom 0x55 (PInt 0x98) ;;
  cfi <- readRom 0x1f 20 ;;
  writeRom 0x00 (PInt 0xf0) ;;
  temp <- unpack_H (slice cfi 4 6) ;;
  let timeout_block := 2 ^ temp in
  temp <- unpack_H (slice cfi 6 8) ;;
  let timeout_chip := 2 ^ temp in
  if timeout_chip =? 1
  then ret (timeout_block * cfi_sector_count cfi_info)
  else ret timeout_chip.

(** Every round of a polling loop reads from the port, and a round that
    reads too little raises: the bytes still to come bound the rounds. *)
Definition poll_fuel : M nat :=
  w <- get_world ;; ret (S (List.length (rx w))).

Fixpoint eraseChip_poll (fuel : nat) : M unit :=
  match fuel with
  | O => diverge
  | S fuel' =>
      data <- readRom 0x000000 2 ;;
      v <- unpack_H data ;;
      if v =? 0xffff then ret tt
      else sleep_ms 500 ;; eraseChip_poll fuel'
  end.

Definition eraseChip : M bool :=
  writeRom 0x000555 (PInt 0xaa) ;;
  writeRom 0x0002aa (PInt 0x55) ;;
  writeRom 0x000555 (PInt 0x80) ;;
  writeRom 0x000555 (PInt 0xaa) ;;
  writeRom 0x0002aa (PInt 0x55) ;;
  writeRom 0x000555 (PInt 0x10) ;;
  sleep_ms 100 ;;
  fuel <- poll_fuel ;;
  eraseChip_poll fuel ;;
  ret true.

Fixpoint eraseSector_poll (fuel : nat) (addr_word : Z) : M unit :=
  match fuel with
  | O => diverge
  | S fuel' =>
      data <- readRom addr_word 2 ;;
      v <- unpack_H data ;;
      if v =? 0xffff then ret tt
      else sleep_ms 100 ;; eraseSector_poll fuel' addr_word
  end.

Definition eraseSector (addr_word sector_size_words : Z) : M bool :=
  writeRom 0x000555 (PInt 0xaa) ;;
  writeRom 0x0002aa (PInt 0x55) ;;
  writeRom 0x000555 (PInt 0x80) ;;
  writeRom 0x000555 (PInt 0xaa) ;;
  writeRom 0x0002aa (PInt 0x55) ;;
  writeRom addr_word (PInt 0x30) ;;
  sleep_ms 10 ;;
  fuel <- poll_fuel ;;
  eraseSector_poll fuel addr_word ;;
  ret true.

Definition programRom (addr_byte : Z) (data : pydata)
  (buffer_write_bytes : option Z) : M bool :=
  data <- match data with
          | PInt v => pack_H v
          | PBytes bs => ret bs
          end ;;
  buffer_write_bytes <- match buffer_write_bytes with
                        | None => cfi_info <- getRomCFI ;;
                                  ret (cfi_buffer_write_bytes cfi_info)
                        | Some b => ret b
                        end ;;
  size <- pack_H (2 + 1 + 4 + 2 + len data + 2) ;;
  addr <- pack_I addr_byte ;;
  buf <- pack_H buffer_write_bytes ;;
  ser_write (size ++ [0xf4] ++ addr ++ buf ++ data ++ [0; 0]) ;;
  ack <- ser_read 1 ;;
  ret (bytes_eqb ack [0xaa]).

Definition identity_mapping : list Z := [0; 1; 2; 3; 4; 5; 6; 7].

Fixpoint unlockPPB_poll (fuel : nat) : M unit :=
  match fuel with
  | O => diverge
  | S fuel' =>
      writeRom 0x000555 (PInt 0x70) ;;
      status <- readRom 0 2 ;;
      v <- unpack_H status ;;
      if negb (Z.land v 0x80 =? 0) then ret tt
      else sleep_ms 100 ;; unlockPPB_poll fuel'
  end.

Definition unlockPPB : M bool :=
  set_flashmapping identity_mapping ;;
  writeRom 0x000555 (PInt 0xaa) ;;
  writeRom 0x0002aa (PInt 0x55) ;;
  writeRom 0x000555 (PInt 0xc0) ;;
  writeRom 0 (PInt 0x80) ;;
  writeRom 0 (PInt 0x30) ;;
  sleep_ms 100 ;;
  fuel <- poll_fuel ;;
  unlockPPB_poll fuel ;;
  writeRom 0 (PInt 0x90) ;;
  writeRom 0 (PInt 0x00) ;;
  writeRom 0x000000 (PInt 0xf0) ;;
  ret true.

Definition checkPPBLocked : M bool :=
  writeRom 0x000555 (PInt 0xaa) ;;
  writeRom 0x0002aa (PInt 0x55) ;;
  writeRom 0x000555 (PInt 0x50) ;;
  status <- readRom 0 2 ;;
  lock_status <- unpack_H status ;;
  writeRom 0 (PInt 0x90) ;;
  writeRom 0 (PInt 0x00) ;;
  writeRom 0 (PInt 0xf0) ;;
  ret (negb (lock_status =? 0)).

Definition verifyRom (addr_word : Z) (expected_data : list Z) : M bool :=
  actual_data <- readRom addr_word (len expected_data) ;;
  ret (bytes_eqb actual_data expected_data).

Definition eraseFlashMetadata : M bool :=
  set_flashmapping identity_mapping ;;
  let meta_start := ROM_OFF_FLASHMETA in
  let meta_size := FLASH_METADATA_SIZE in
  cfi_info <- getRomCFI ;;
  let sector_size := cfi_sector_size cfi_info in
  sector_count <- floordiv meta_size sector_size ;;
  for_each (range_from 0 1 (Z.to_nat sector_count)) (fun i =>
    let addr_byte := meta_start + i * sector_size in
    let addr_word := Z.shiftr addr_byte 1 in
    eraseSector addr_word (Z.shiftr sector_size 1) ;;
    ret tt) ;;
  ret true.

(* ================================================================= *)
(** ** [chismaker.py]: the worker plans *)

Definition log (port : string) (m : msg) : M unit := emit (Log port m).
Definition progress (port : string) (pct : Z) : M unit :=
  emit (Progress port pct).
Definition finished (port : string) (ok : bool) : M unit :=
  emit (Finished port ok).

(** [flag and self.running]: the cancel flag is read only when [flag]
    holds. *)
Definition and_running (flag : bool) : M bool :=
  if flag then running else ret false.

Definition MiB : Z := 1024 * 1024.
Definition segment_size : Z := 32 * 1024 * 1024.

(** [[0 + off, 1 + off, ..., 7 + off]] *)
Definition mapping_at (mapping_offset : Z) : list Z :=
  [0 + mapping_offset; 1 + mapping_offset; 2 + mapping_offset;
   3 + mapping_offset; 4 + mapping_offset; 5 + mapping_offset;
   6 + mapping_offset; 7 + mapping_offset].

(** The mapping switch that opens an iteration of the segmented loops:
    [new_segment = pos // segment_size; if new_segment != current_segment:
    ...]; the text logged differs from loop to loop. *)
Definition switch_segment (pos current_segment : Z)
  (note : Z -> Z -> M unit) : M Z :=
  let new_segment := pos / segment_size in
  if negb (new_segment =? current_segment) then
    let current_segment := new_segment in
    let mapping_offset := current_segment * 8 in
    set_flashmapping (mapping_at mapping_offset) ;;
    note current_segment mapping_offset ;;
    ret current_segment
  else ret current_segment.

(* ----------------------------------------------------------------- *)
(** *** [QualityCheckWorker] *)

Record QualityCheckConfig : Type := Config {
  enable_sram_test : bool;
  enable_flash_erase : bool;
  enable_ppb_unlock : bool;
  enable_fast_flash : bool;
  enable_full_sram : bool;
  enable_ram_flash : bool
}.

(** [QualityCheckConfig.__init__] *)
Definition default_config : QualityCheckConfig :=
  Config false false true false true false.

Definition b2z (b : bool) : Z := if b then 1 else 0.

Definition test_count_of (config : QualityCheckConfig) : Z :=
  b2z (enable_sram_test config)
  + b2z (enable_flash_erase config || enable_fast_flash config)
  + b2z (enable_ppb_unlock config)
  + b2z (enable_full_sram config)
  + b2z (enable_ram_flash config).

(** [int((current_test - 0.5) * progress_per_test)] *)
Definition progress_entering (current_test : Z) (progress_per_test : float)
  : Z :=
  py_int (PrimFloat.mul (PrimFloat.sub (float_of_Z current_test) 0.5%float)
                        progress_per_test).

(** [int(current_test * progress_per_test)] *)
Definition progress_leaving (current_test : Z) (progress_per_test : float)
  : Z :=
  py_int (PrimFloat.mul (float_of_Z current_test) progress_per_test).

Section QualityCheck.
Variable port : string.
Variable config : QualityCheckConfig.
Variable test_count : Z.
Variable progress_per_test : float.

  (** 1. SRAM basic test *)
Definition qa_sram_basic (current_test : Z) : M Z :=
    go <- and_running (enable_sram_test config) ;;
    if go then
      let current_test := current_test + 1 in
      log port (MSramBasic current_test test_count) ;;
      progress port (progress_entering current_test progress_per_test) ;;
      sram_bank_select 0 ;;
      sleep_ms 10 ;;
      let test_data := [0xAA; 0x55; 0x12; 0x34] in
      writeRam 0x0000 (PBytes test_data) ;;
      sleep_ms 10 ;;
      read_data <- readRam 0x0000 (len test_data) ;;
      (if negb (bytes_eqb read_data test_data)
       then raise (PlanException FSramBasic) else ret tt) ;;
      log port MSramBasicOk ;;
      progress port (progress_leaving current_test progress_per_test) ;;
      ret current_test
    else ret current_test.

  (** 2. full SRAM test, 128 KiB *)
Definition qa_sram_full (current_test : Z) : M Z :=
    go <- and_running (enable_full_sram config) ;;
    if go then
      let current_test := current_test + 1 in
      log port (MSramFull current_test test_count) ;;
      progress port (progress_entering current_test progress_per_test) ;;
      sram_bank_select 0 ;;
      sleep_ms 10 ;;
      let chunk_size := 1024 in
      for_each (py_range 0 (65536 * 2) chunk_size) (fun addr =>
        (if addr mod 65536 =? 0 then
           sram_bank_select (addr / 65536) ;;
           log port (MSramBank (addr / 65536))
         else ret tt) ;;
        let test_data :=
          map (fun i => Z.land (addr + i) 0xFF)
              (py_range 0 chunk_size 1) in
        writeRam addr (PBytes test_data) ;;
        read_data <- readRam addr chunk_size ;;
        if negb (bytes_eqb read_data test_data)
        then raise (PlanException (FSramFull addr)) else ret tt) ;;
      log port MSramFullOk ;;
      progress port (progress_leaving current_test progress_per_test) ;;
      ret current_test
    else ret current_test.

  (** 3. PPB unlock *)
Definition qa_ppb_unlock (current_test : Z) : M Z :=
    go <- and_running (enable_ppb_unlock config) ;;
    if go then
      let current_test := current_test + 1 in
      log port (MPpb current_test test_count) ;;
      progress port (progress_entering current_test progress_per_test) ;;
      set_sc_mode 0 0 1 0 0x8 ;;
      set_flashmapping identity_mapping ;;
      unlockPPB ;;
      log port MPpbOk ;;
      progress port (progress_leaving current_test progress_per_test) ;;
      ret current_test
    else ret current_test.

  (** The fast Flash check: first and last 4 MiB and four random 2 MiB
      windows are erased and read back. *)
Definition qa_fast_flash (current_test : Z) : M unit :=
    log port (MFastFlash current_test test_count) ;;
    progress port (progress_entering current_test progress_per_test) ;;
    cfi_info <- getRomCFI ;;
    let sector_size := cfi_sector_size cfi_info in
    let device_size := cfi_device_size cfi_info in
    let test_regions := [(0, 4 * 1024 * 1024)] in
    let end_start := device_size - 4 * 1024 * 1024 in
    let test_regions := test_regions ++ [(end_start, device_size)] in
    test_regions <-
      fold_m (py_range 0 4 1) (fun test_regions _ =>
        random_start <- randint (4 * 1024 * 1024)
                                (device_size - 6 * 1024 * 1024) ;;
        q <- floordiv random_start sector_size ;;
        let random_start := q * sector_size in
        ret (test_regions
             ++ [(random_start, random_start + 2 * 1024 * 1024)]))
        test_regions ;;
    total_sectors <-
      fold_m test_regions (fun total_sectors region =>
        let '(start, end_) := region in
        sector_count <- floordiv (end_ - start) sector_size ;;
        ret (total_sectors + sector_count)) 0 ;;
    fold_m test_regions (fun erased_sectors region =>
      let '(start, end_) := region in
      sector_count <- floordiv (end_ - start) sector_size ;;
      fold_m (py_range 0 sector_count 1) (fun erased_sectors i =>
        let addr := start + i * sector_size in
        eraseSector (Z.shiftr addr 1) (Z.shiftr sector_size 1) ;;
        let erased_sectors := erased_sectors + 1 in
        (if erased_sectors mod 10 =? 0
         then log port (MErasedSectors erased_sectors total_sectors)
         else ret tt) ;;
        ret erased_sectors) erased_sectors) 0 ;;
    for_each test_regions (fun region =>
      let '(start, end_) := region in
      for_each (py_range start end_ 4096) (fun addr =>
        data <- readRom (Z.shiftr addr 1) (Z.min 4096 (end_ - addr)) ;;
        if negb (all_ff data)
        then raise (PlanException (FEraseVerify addr)) else ret tt)) ;;
    log port MFastFlashOk.

  (** The whole-chip check: erase unless the first 512 bytes are blank. *)
Definition qa_erase_blank (current_test : Z) : M unit :=
    log port (MEraseBlank current_test test_count) ;;
    progress port (progress_entering current_test progress_per_test) ;;
    first_sector <- readRom 0x000000 512 ;;
    let is_empty := all_ff first_sector in
    if negb is_empty then
      log port MFlashNotEmpty ;;
      eraseChip ;;
      log port MFlashErased
    else log port MFlashEmpty.

  (** 4. Flash erase-and-blank check, or the fast Flash check *)
Definition qa_flash (current_test : Z) : M Z :=
    go <- and_running (enable_flash_erase config || enable_fast_flash config) ;;
    if go then
      let current_test := current_test + 1 in
      set_sc_mode 0 0 1 0 0x8 ;;
      set_flashmapping identity_mapping ;;
      (if enable_fast_flash config then qa_fast_flash current_test
       else qa_erase_blank current_test) ;;
      progress port (progress_leaving current_test progress_per_test) ;;
      ret current_test
    else ret current_test.

  (** 5. Backup Flash probe through the RAM window *)
Definition qa_ram_flash (current_test : Z) : M Z :=
    go <- and_running (enable_ram_flash config) ;;
    if go then
      let current_test := current_test + 1 in
      log port (MRamFlash current_test test_count) ;;
      progress port (progress_entering current_test progress_per_test) ;;
      let test_patterns := [(0x5555, 0xAA); (0x2AAA, 0x55); (0x0000, 0x90)] in
      for_each test_patterns (fun p =>
        let '(addr, value) := p in
        writeRam addr (PInt value) ;;
        sleep_ms 1) ;;
      manufacturer <- readRam 0x0000 2 ;;
      device_id <- readRam 0x0002 2 ;;
      writeRam 0x0000 (PInt 0xF0) ;;
      (if negb (bytes_eqb manufacturer [0xff; 0xff])
          && negb (bytes_eqb device_id [0xff; 0xff])
       then log port (MRamFlashOk manufacturer device_id)
       else raise (PlanException FBackupFlash)) ;;
      progress port (progress_leaving current_test progress_per_test) ;;
      ret current_test
    else ret current_test.
End QualityCheck.

(** [QualityCheckWorker.run] *)
Definition QualityCheckWorker_run (port : string)
  (config : QualityCheckConfig) : M unit :=
  try_except
    (log port MQaStart ;;
     let test_count := test_count_of config in
     if test_count =? 0 then
       log port MNoTests ;;
       finished port false ;;
       py_return
     else
       let current_test := 0 in
       let progress_per_test := truediv 100 test_count in
       current_test <-
         qa_sram_basic port config test_count progress_per_test current_test ;;
       current_test <-
         qa_sram_full port config test_count progress_per_test current_test ;;
       current_test <-
         qa_ppb_unlock port config test_count progress_per_test current_test ;;
       current_test <-
         qa_flash port config test_count progress_per_test current_test ;;
       current_test <-
         qa_ram_flash port config test_count progress_per_test current_test ;;
       progress port 100 ;;
       log port MQaDone ;;
       finished port true)
    (fun e =>
       log port (MQaFailed e) ;;
       finished port false).

(* ----------------------------------------------------------------- *)
(** *** [ResetNorWorker] *)

(** [ResetNorWorker.run]; it never reads [self.running]. *)
Definition ResetNorWorker_run (port : string) : M unit :=
  try_except
    (log port MResetStart ;;
     progress port 10 ;;
     set_sc_mode 0 0 1 0 0x8 ;;
     set_flashmapping identity_mapping ;;
     log port MMappingSet ;;
     progress port 20 ;;
     log port MUnlockingPpb ;;
     unlockPPB ;;
     progress port 30 ;;
     log port MErasingMeta ;;
     eraseFlashMetadata ;;
     progress port 80 ;;
     log port MVerifyingErase ;;
     let meta_start_word := Z.shiftr 0x00200000 1 in
     verify_data <- readRom meta_start_word 512 ;;
     (if negb (all_ff verify_data)
      then raise (PlanException FMetaErase) else ret tt) ;;
     log port MResetDone ;;
     progress port 100 ;;
     finished port true)
    (fun e =>
       log port (MResetFailed e) ;;
       finished port false).

(* ----------------------------------------------------------------- *)
(** *** [BackupFlashWorker] *)

Section Backup.
Variable port : string.
Variable total_size : Z.

  (** [while read_bytes < total_size and self.running] *)
Definition backup_cond (st : Z * Z) : M bool :=
    let '(read_bytes, current_segment) := st in
    and_running (read_bytes <? total_size).

Definition backup_body (st : Z * Z) : M (Z * Z) :=
    let '(read_bytes, current_segment) := st in
    let read_chunk_size := 4096 in
    current_segment <-
      switch_segment read_bytes current_segment
        (fun seg _ => log port (MSwitchSegment seg)) ;;
    let offset_in_segment := read_bytes mod segment_size in
    let addr_word := Z.shiftr offset_in_segment 1 in
    let remaining := total_size - read_bytes in
    let chunk_size := Z.min read_chunk_size remaining in
    data <- readRom addr_word chunk_size ;;
    emit (FileWrite data) ;;
    let read_bytes := read_bytes + chunk_size in
    (if (read_bytes mod (1024 * 1024) =? 0) || (total_size <=? read_bytes)
     then
       let pct := py_int (PrimFloat.mul (truediv read_bytes total_size)
                                        (float_of_Z 100)) in
       progress port pct ;;
       log port (MBackedUp (read_bytes / (1024 * 1024))
                           (total_size / (1024 * 1024)) pct)
     else ret tt) ;;
    ret (read_bytes, current_segment).
End Backup.

(** [BackupFlashWorker.run]; [backup_size] defaults to 128 MiB.  The
    file is the sink of the [FileWrite] events. *)
Definition BackupFlashWorker_run (port : string) (backup_size : Z)
  : M unit :=
  try_except
    (log port MBackupStart ;;
     progress port 0 ;;
     set_sc_mode 0 0 0 0 0x8 ;;
     set_flashmapping identity_mapping ;;
     sleep_ms 10 ;;
     log port MMappingSet ;;
     cfi_info <- getRomCFI ;;
     let device_size := cfi_device_size cfi_info in
     log port (MFlashSize (device_size / (1024 * 1024))) ;;
     let total_size := Z.min backup_size device_size in
     log port (MBackupSize (total_size / (1024 * 1024))) ;;
     while_loop (S (S (Z.to_nat (total_size / 4096))))
       (backup_cond total_size) (backup_body port total_size) (0, 0) ;;
     still <- running ;;
     if negb still then
       log port MBackupCancelled ;;
       finished port false ;;
       py_return
     else
       log port MBackupDone ;;
       progress port 100 ;;
       finished port true)
    (fun e =>
       log port (MBackupFailed e) ;;
       finished port false).

(* ----------------------------------------------------------------- *)
(** *** [ProductionWorker] *)

Section Production.
Variable port : string.
Variable rom_data : list Z.
Variable file_size : Z.
Variable sector_size : Z.
Variable buffer_size : Z.
Variable sector_count : Z.

  (** One round of [for i in range(sector_count)]. *)
Definition erase_body (current_segment i : Z) : M Z :=
    still <- running ;;
    (if negb still then
       log port MEraseCancelled ;;
       finished port false ;;
       py_return
     else ret tt) ;;
    let addr := i * sector_size in
    current_segment <-
      switch_segment addr current_segment
        (fun seg off => log port (MSwitchSegmentOff seg off)) ;;
    let offset_in_segment := addr mod segment_size in
    eraseSector (Z.shiftr offset_in_segment 1) (Z.shiftr sector_size 1) ;;
    let pct := py_int (PrimFloat.mul (truediv (i + 1) sector_count)
                                     (float_of_Z 50)) in
    progress port pct ;;
    (if ((i + 1) mod 10 =? 0) || (i + 1 =? sector_count)
     then log port (MErased (i + 1) sector_count) else ret tt) ;;
    ret current_segment.

  (** [while written < file_size and self.running] *)
Definition program_cond (st : Z * Z) : M bool :=
    let '(written, current_segment) := st in
    and_running (written <? file_size).

Definition program_body (st : Z * Z) : M (Z * Z) :=
    let '(written, current_segment) := st in
    let write_chunk_size := 2048 in
    current_segment <-
      switch_segment written current_segment
        (fun seg _ => log port (MSwitchSegment seg)) ;;
    let offset_in_segment := written mod segment_size in
    let chunk := slice rom_data written (written + write_chunk_size) in
    let chunk :=
      if len chunk <? write_chunk_size
      then chunk ++ repeat 0xff (Z.to_nat (write_chunk_size - len chunk))
      else chunk in
    result <- programRom offset_in_segment (PBytes chunk) (Some buffer_size) ;;
    (if negb result
     then raise (PlanException
                   (FProgram written current_segment offset_in_segment))
     else ret tt) ;;
    let written := written + write_chunk_size in
    (if (written mod (64 * 1024) =? 0) || (file_size <=? written)
     then log port (MWritten written file_size (written * 100 / file_size))
     else ret tt) ;;
    let pct := 50 + py_int (PrimFloat.mul (truediv written file_size)
                                          (float_of_Z 50)) in
    progress port pct ;;
    ret (written, current_segment).

  (** [while verified < file_size and self.running] *)
Definition verify_cond (st : Z * Z) : M bool :=
    let '(verified, current_segment) := st in
    and_running (verified <? file_size).

Definition verify_body (st : Z * Z) : M (Z * Z) :=
    let '(verified, current_segment) := st in
    let verify_chunk_size := 4096 in
    current_segment <-
      switch_segment verified current_segment (fun _ _ => ret tt) ;;
    let offset_in_segment := verified mod segment_size in
    let addr_word := Z.shiftr offset_in_segment 1 in
    let length := Z.min verify_chunk_size (file_size - verified) in
    let expected := slice rom_data verified (verified + length) in
    actual <- readRom addr_word length ;;
    (if negb (bytes_eqb actual expected)
     then raise (PlanException (FVerify verified)) else ret tt) ;;
    let verified := verified + length in
    (if (verified mod (1024 * 1024) =? 0) || (file_size <=? verified)
     then log port (MVerified (verified / (1024 * 1024))
                              (file_size / (1024 * 1024)))
     else ret tt) ;;
    ret (verified, current_segment).

  (** Erasing and programming: from the mode set to the check of the
      cancel flag that follows the programming loop. *)
Definition production_write : M unit :=
    log port (MErasing sector_count) ;;
    fold_m (py_range 0 sector_count 1) erase_body 0 ;;
    log port MEraseDoneWriting ;;
    set_sc_mode 0 0 1 0 0x8 ;;
    set_flashmapping identity_mapping ;;
    sleep_ms 10 ;;
    while_loop (S (S (Z.to_nat (file_size / 2048))))
      program_cond program_body (0, 0) ;;
    still <- running ;;
    if negb still then
      log port MProdCancelled ;;
      finished port false ;;
      py_return
    else ret tt.

  (** Reading back and the report of success. *)
Definition production_verify : M unit :=
    log port MWriteDoneVerifying ;;
    set_flashmapping identity_mapping ;;
    while_loop (S (S (Z.to_nat (file_size / 4096))))
      verify_cond verify_body (0, 0) ;;
    log port MProdDone ;;
    progress port 100 ;;
    finished port true.
End Production.

(** [ProductionWorker.run]; [rom_data] is the content of the ROM file. *)
Definition ProductionWorker_run (port : string) (rom_data : list Z)
  : M unit :=
  try_except
    (log port MProdStart ;;
     let file_size := len rom_data in
     log port (MRomSize file_size) ;;
     let rom_data :=
       if negb (file_size mod 2 =? 0) then rom_data ++ [0x00] else rom_data in
     let file_size := len rom_data in
     set_sc_mode 0 0 1 0 0x8 ;;
     set_flashmapping identity_mapping ;;
     sleep_ms 10 ;;
     log port MProdWriting ;;
     cfi_info <- getRomCFI ;;
     let sector_size := cfi_sector_size cfi_info in
     let buffer_size := cfi_buffer_write_bytes cfi_info in
     log port (MGeometry sector_size buffer_size) ;;
     let addr_end := file_size - 1 in
     q <- floordiv addr_end sector_size ;;
     let sector_count := q + 1 in
     production_write port rom_data file_size sector_size buffer_size
                      sector_count ;;
     production_verify port rom_data file_size)
    (fun e =>
       log port (MProdFailed e) ;;
       finished port false).

(* ================================================================= *)
(** ** Reading a trace *)

(** A frame as the cartridge decodes it: two bytes of size, the opcode,
    four bytes of address, the body, two bytes of CRC placeholder. *)
Inductive command : Type :=
| CmdProgramRom (addr_byte buf : Z) (data : list Z)   (* 0xF4 *)
| CmdWriteRom (addr_word : Z) (data : list Z)         (* 0xF5 *)
| CmdReadRom (addr_byte n : Z)                        (* 0xF6 *)
| CmdWriteRam (addr : Z) (data : list Z)              (* 0xF7 *)
| CmdReadRam (addr n : Z)                             (* 0xF8 *)
| CmdOther (frame : list Z).

(** The little-endian value of a byte string. *)
Fixpoint le_value (bs : list Z) : Z :=
  match bs with
  | [] => 0
  | b :: bs' => b + 256 * le_value bs'
  end.

(** The little-endian 16-bit image of [v]. *)
Definition le16 (v : Z) : list Z := [v mod 256; v / 256].

Definition drop_crc (rest : list Z) : list Z :=
  firstn (List.length rest - 2) rest.

Definition decode (frame : list Z) : command :=
  match frame with
  | _ :: _ :: op :: a0 :: a1 :: a2 :: a3 :: rest =>
      let addr := le_value [a0; a1; a2; a3] in
      let body := drop_crc rest in
      if op =? 0xf5 then CmdWriteRom addr body
      else if op =? 0xf7 then CmdWriteRam addr body
      else if op =? 0xf6 then CmdReadRom addr (le_value body)
      else if op =? 0xf8 then CmdReadRam addr (le_value body)
      else if op =? 0xf4
           then CmdProgramRom addr (le_value (firstn 2 body)) (skipn 2 body)
      else CmdOther frame
  | _ => CmdOther frame
  end.

(** The frames written, in order, and the commands they carry. *)
Definition sent (t : trace) : list (list Z) :=
  flat_map (fun e => match e with Tx f => [f] | _ => [] end) t.

Definition commands (t : trace) : list command := map decode (sent t).

(** Everything but the traffic on the port and the sleeps. *)
Definition is_io (e : event) : bool :=
  match e with
  | Tx _ | Rx _ _ | Sleep _ => true
  | _ => false
  end.

Definition signals (t : trace) : trace := filter (fun e => negb (is_io e)) t.

(** A frame announces its own length and ends with the zero CRC. *)
Definition well_framed (f : list Z) : Prop :=
  exists lo hi opcode body,
    f = lo :: hi :: opcode :: body ++ [0; 0] /\
    0 <= lo < 256 /\ 0 <= hi < 256 /\
    le_value [lo; hi] = len f.

(** The write of the 16-bit [value] to the word address [addr_word]. *)
Definition word_write (addr_word value : Z) : command :=
  CmdWriteRom addr_word (le16 value).

(** The four writes of one entry of the Flash mapping. *)
Definition mapping_entry_writes (entry : Z) : list command :=
  let magic := Z.shiftr MAGIC_ADDRESS 1 in
  [word_write magic 0xA558; word_write magic 0xA558;
   word_write magic entry; word_write magic entry].

(** The outcome [o] after the events [t]. *)
Definition prepend {A} (t : trace) (o : outcome A) : outcome A :=
  Out (result o) (t ++ events o) (final o).

(** [Q] holds of how [m] ends when started in [w]. *)
Definition ensures {A} (m : M A) (w : world)
  (Q : res A -> trace -> world -> Prop) : Prop :=
  Q (result (m w)) (events (m w)) (final (m w)).

(* ================================================================= *)
(** ** The monad and the primitives *)

Lemma sent_app (t1 t2 : trace) : sent (t1 ++ t2) = sent t1 ++ sent t2.
Proof. unfold sent. now rewrite flat_map_app. Qed.


Lemma signals_app (t1 t2 : trace) :
  signals (t1 ++ t2) = signals t1 ++ signals t2.
Proof. unfold signals. now rewrite filter_app. Qed.

Lemma ensures_ret {A} (a : A) w Q : Q (Val a) [] w -> ensures (ret a) w Q.
Proof. exact (fun H => H). Qed.

Lemma ensures_raise {A} e w (Q : res A -> trace -> world -> Prop) :
  Q (Raise e) [] w -> ensures (raise e) w Q.
Proof. exact (fun H => H). Qed.

Lemma ensures_emit e w Q : Q (Val tt) [e] w -> ensures (emit e) w Q.
Proof. exact (fun H => H). Qed.

Lemma ensures_bind {A B} (m : M A) (k : A -> M B) w Q :
  ensures m w (fun r t w' =>
    match r with
    | Val a => ensures (k a) w' (fun r' t' w'' => Q r' (t ++ t') w'')
    | Return => Q Return t w'
    | Raise e => Q (Raise e) t w'
    | Diverge => Q Diverge t w'
    end) ->
  ensures (bind m k) w Q.
Proof.
  unfold ensures, bind. destruct (m w) as [[a| |e|] t w']; simpl; auto.
Qed.

Lemma ensures_try body handler w Q :
  ensures body w (fun r t w' =>
    match r with
    | Val a => Q (Val a) t w'
    | Return => Q (Val tt) t w'
    | Raise e => ensures (handler e) w' (fun r' t' w'' => Q r' (t ++ t') w'')
    | Diverge => Q Diverge t w'
    end) ->
  ensures (try_except body handler) w Q.
Proof.
  unfold ensures, try_except.
  destruct (body w) as [[a| |e|] t w']; simpl; auto.
Qed.

Lemma ensures_weaken {A} (m : M A) w (P Q : res A -> trace -> world -> Prop) :
  ensures m w P -> (forall r t w', P r t w' -> Q r t w') -> ensures m w Q.
Proof. unfold ensures. auto. Qed.

Lemma bind_val {A B} (m : M A) (k : A -> M B) w a t w' :
  m w = Out (Val a) t w' -> bind m k w = prepend t (k a w').
Proof. intros H. unfold bind. rewrite H. reflexivity. Qed.

Lemma bind_assoc {A B C} (m : M A) (k1 : A -> M B) (k2 : B -> M C) w :
  bind (bind m k1) k2 w = bind m (fun a => bind (k1 a) k2) w.
Proof.
  unfold bind. destruct (m w) as [[a| |e|] t w']; cbn [result events final];
    try reflexivity.
  destruct (k1 a w') as [[b| |e|] t' w'']; cbn [result events final];
    try reflexivity.
  now rewrite app_assoc.
Qed.

Lemma prepend_out {A} t (r : res A) t' w :
  prepend t (Out r t' w) = Out r (t ++ t') w.
Proof. reflexivity. Qed.

Lemma prepend_prepend {A} t t' (o : outcome A) :
  prepend t (prepend t' o) = prepend (t ++ t') o.
Proof. unfold prepend. cbn [result events final]. now rewrite app_assoc. Qed.

Lemma prepend_nil {A} (o : outcome A) : prepend [] o = o.
Proof. now destruct o. Qed.

Lemma bind_pure {A B} (m : M A) (k : A -> M B) w a :
  m w = Out (Val a) [] w -> bind m k w = k a w.
Proof.
  intros H. unfold bind. rewrite H. cbn [result events final app].
  now destruct (k a w).
Qed.

Lemma bind_ret_l {A B} (a : A) (k : A -> M B) w : bind (ret a) k w = k a w.
Proof. now apply bind_pure. Qed.

Lemma bind_raise {A B} (m : M A) (k : A -> M B) w e t w' :
  m w = Out (Raise e) t w' -> bind m k w = Out (Raise e) t w'.
Proof. intros H. unfold bind. rewrite H. reflexivity. Qed.

Lemma set_rx_set_rx w a b : set_rx (set_rx w a) b = set_rx w b.
Proof. reflexivity. Qed.

Lemma rx_set_rx w a : rx (set_rx w a) = a.
Proof. reflexivity. Qed.

Lemma stop_in_set_rx w a : stop_in (set_rx w a) = stop_in w.
Proof. reflexivity. Qed.

Lemma outcome_eta {A} (o : outcome A) :
  Out (result o) (events o) (final o) = o.
Proof. now destruct o. Qed.

Lemma pack_B_run v w :
  0 <= v < 256 -> pack_B v w = Out (Val [v]) [] w.
Proof.
  intros H. unfold pack_B.
  replace ((0 <=? v) && (v <? 256)) with true; [reflexivity|].
  symmetry. apply andb_true_iff. split; [apply Z.leb_le|apply Z.ltb_lt]; lia.
Qed.

Lemma pack_H_run v w :
  0 <= v < 65536 -> pack_H v w = Out (Val (le16 v)) [] w.
Proof.
  intros H. unfold pack_H.
  replace ((0 <=? v) && (v <? 65536)) with true; [reflexivity|].
  symmetry. apply andb_true_iff. split; [apply Z.leb_le|apply Z.ltb_lt]; lia.
Qed.

Lemma pack_H_fail v w :
  ~ (0 <= v < 65536) -> pack_H v w = Out (Raise StructError) [] w.
Proof.
  intros H. unfold pack_H.
  replace ((0 <=? v) && (v <? 65536)) with false; [reflexivity|].
  symmetry. apply andb_false_iff.
  destruct (Z.leb_spec 0 v); [right; apply Z.ltb_ge; lia | now left].
Qed.

Lemma pack_I_run v w :
  0 <= v < 4294967296 ->
  pack_I v w =
  Out (Val [v mod 256; (v / 256) mod 256; (v / 65536) mod 256; v / 16777216])
      [] w.
Proof.
  intros H. unfold pack_I.
  replace ((0 <=? v) && (v <? 4294967296)) with true; [reflexivity|].
  symmetry. apply andb_true_iff. split; [apply Z.leb_le|apply Z.ltb_lt]; lia.
Qed.

Lemma pack_I_fail v w :
  ~ (0 <= v < 4294967296) -> pack_I v w = Out (Raise StructError) [] w.
Proof.
  intros H. unfold pack_I.
  replace ((0 <=? v) && (v <? 4294967296)) with false; [reflexivity|].
  symmetry. apply andb_false_iff.
  destruct (Z.leb_spec 0 v); [right; apply Z.ltb_ge; lia | now left].
Qed.

Lemma le_value_pack_I v :
  0 <= v < 4294967296 ->
  le_value [v mod 256; (v / 256) mod 256; (v / 65536) mod 256; v / 16777216]
  = v.
Proof.
  intros H. unfold le_value.
  pose proof (Z.div_mod v 256 ltac:(lia)).
  pose proof (Z.div_mod (v / 256) 256 ltac:(lia)).
  pose proof (Z.div_mod (v / 256 / 256) 256 ltac:(lia)).
  replace (v / 65536) with (v / 256 / 256)
    by (rewrite Z.div_div by lia; reflexivity).
  replace (v / 16777216) with (v / 256 / 256 / 256)
    by (rewrite !Z.div_div by lia; reflexivity).
  lia.
Qed.

Lemma le_value_le16 v : le_value (le16 v) = v.
Proof.
  unfold le16, le_value. pose proof (Z.div_mod v 256 ltac:(lia)). lia.
Qed.

Lemma le16_range v :
  0 <= v < 65536 -> 0 <= v mod 256 < 256 /\ 0 <= v / 256 < 256.
Proof.
  intros H. split.
  - apply Z.mod_pos_bound. lia.
  - split; [apply Z.div_pos; lia | apply Z.div_lt_upper_bound; lia].
Qed.

Lemma drop_crc_app (body : list Z) : drop_crc (body ++ [0; 0]) = body.
Proof.
  unfold drop_crc. rewrite length_app. simpl.
  replace (List.length body + 2 - 2)%nat with (List.length body + 0)%nat
    by lia.
  rewrite firstn_app_2. simpl. apply app_nil_r.
Qed.

(* ================================================================= *)
(** ** The driver, operation by operation *)

Definition le32 (v : Z) : list Z :=
  [v mod 256; (v / 256) mod 256; (v / 65536) mod 256; v / 16777216].

(** The frame of opcode [op] for [addr] and [body]. *)
Definition frame (op addr : Z) (body : list Z) : list Z :=
  le16 (9 + len body) ++ [op] ++ le32 addr ++ body ++ [0; 0].

Definition u16 (v : Z) : Prop := 0 <= v < 65536.
Definition u32 (v : Z) : Prop := 0 <= v < 4294967296.

Lemma u16_dec v : {u16 v} + {~ u16 v}.
Proof.
  unfold u16. destruct (Z_le_dec 0 v), (Z_lt_dec v 65536);
    [left | right | right | right]; lia.
Qed.

Lemma u32_dec v : {u32 v} + {~ u32 v}.
Proof.
  unfold u32. destruct (Z_le_dec 0 v), (Z_lt_dec v 4294967296);
    [left | right | right | right]; lia.
Qed.

Lemma len_nonneg l : 0 <= len l.
Proof. unfold len. lia. Qed.

Lemma len_app l1 l2 : len (l1 ++ l2) = len l1 + len l2.
Proof. unfold len. rewrite length_app. lia. Qed.

Lemma len_le16 v : len (le16 v) = 2.
Proof. reflexivity. Qed.

Lemma frame_well_framed op addr body :
  u16 (9 + len body) -> well_framed (frame op addr body).
Proof.
  intros H. unfold well_framed, frame.
  exists ((9 + len body) mod 256), ((9 + len body) / 256), op,
         (le32 addr ++ body).
  destruct (le16_range _ H) as [H1 H2].
  split; [reflexivity|]. split; [exact H1|]. split; [exact H2|].
  change (le_value (le16 (9 + len body)) =
          len (le16 (9 + len body) ++ [op] ++ le32 addr ++ body ++ [0; 0])).
  rewrite le_value_le16, !len_app.
  change (len (le16 (9 + len body))) with 2. change (len [op]) with 1.
  change (len (le32 addr)) with 4. change (len [0; 0]) with 2. lia.
Qed.

Lemma decode_frame op addr body :
  u32 addr ->
  decode (frame op addr body) =
  if op =? 0xf5 then CmdWriteRom addr body
  else if op =? 0xf7 then CmdWriteRam addr body
  else if op =? 0xf6 then CmdReadRom addr (le_value body)
  else if op =? 0xf8 then CmdReadRam addr (le_value body)
  else if op =? 0xf4
       then CmdProgramRom addr (le_value (firstn 2 body)) (skipn 2 body)
  else CmdOther (frame op addr body).
Proof.
  intros H. unfold frame, le16, le32. cbn [app decode].
  rewrite drop_crc_app, le_value_pack_I by exact H. reflexivity.
Qed.

(** What a write-class operation does once its frame is built. *)
Definition wrote (f : list Z) (w : world) : outcome (list Z) :=
  Out (Val (firstn 1 (rx w))) [Tx f; Rx 1 (firstn 1 (rx w))]
      (set_rx w (skipn 1 (rx w))).

(** What a read-class operation does once its frame is built. *)
Definition read_back (f : list Z) (n : Z) (w : world) : outcome (list Z) :=
  Out (Val (skipn 2 (firstn (Z.to_nat (n + 2)) (rx w))))
      [Tx f; Rx (n + 2) (firstn (Z.to_nat (n + 2)) (rx w))]
      (set_rx w (skipn (Z.to_nat (n + 2)) (rx w))).

Definition struct_error {A} (w : world) : outcome A :=
  Out (Raise StructError) [] w.

(** The bytes [writeRom] and [programRom] send for [dat]. *)
Definition as_H (dat : pydata) : option (list Z) :=
  match dat with
  | PInt v => if u16_dec v then Some (le16 v) else None
  | PBytes bs => Some bs
  end.

(** The bytes [writeRam] sends for [dat]. *)
Definition as_B (dat : pydata) : option (list Z) :=
  match dat with
  | PInt v => if Z_le_dec 0 v then if Z_lt_dec v 256 then Some [v] else None
              else None
  | PBytes bs => Some bs
  end.

Lemma u16_11 : u16 11.
Proof. unfold u16. lia. Qed.

Lemma u16_10 : u16 10.
Proof. unfold u16. lia. Qed.

(** One [struct.pack] at the head of the goal, by what the context
    knows of its argument. *)
Ltac pack_step :=
  match goal with
  | H : u16 ?v |- context [bind (pack_H ?v) _ ?w] =>
      rewrite (bind_pure _ _ _ _ (pack_H_run v w H))
  | H : ~ u16 ?v |- context [bind (pack_H ?v) _ ?w] =>
      rewrite (bind_raise _ _ _ _ _ _ (pack_H_fail v w H))
  | H : u32 ?v |- context [bind (pack_I ?v) _ ?w] =>
      rewrite (bind_pure _ _ _ _ (pack_I_run v w H))
  | H : ~ u32 ?v |- context [bind (pack_I ?v) _ ?w] =>
      rewrite (bind_raise _ _ _ _ _ _ (pack_I_fail v w H))
  | |- context [bind (pack_H 11) _ ?w] =>
      rewrite (bind_pure _ _ _ _ (pack_H_run 11 w u16_11))
  | |- context [bind (pack_H 10) _ ?w] =>
      rewrite (bind_pure _ _ _ _ (pack_H_run 10 w u16_10))
  | |- context [bind (ret ?a) _ ?w] => rewrite (bind_ret_l a _ w)
  end.

Ltac pack_steps := repeat pack_step.

Lemma writeRom_bytes addr_word data w :
  writeRom addr_word (PBytes data) w =
  (size <- pack_H (9 + len data) ;;
   addr <- pack_I addr_word ;;
   ser_write (size ++ [0xf5] ++ addr ++ data ++ [0; 0]) ;;
   ack <- ser_read 1 ;;
   ret ack) w.
Proof.
  unfold writeRom. rewrite bind_ret_l.
  replace (2 + 1 + 4 + len data + 2) with (9 + len data) by lia. reflexivity.
Qed.

Lemma writeRom_word addr_word v w :
  u16 v -> writeRom addr_word (PInt v) w = writeRom addr_word (PBytes (le16 v)) w.
Proof.
  intros H. unfold writeRom. pack_steps. reflexivity.
Qed.

Lemma writeRom_bad_word addr_word v w :
  ~ u16 v -> writeRom addr_word (PInt v) w = struct_error w.
Proof.
  intros H. unfold writeRom. pack_steps. reflexivity.
Qed.

Lemma writeRom_ok addr_word dat data w :
  as_H dat = Some data -> u16 (9 + len data) -> u32 addr_word ->
  writeRom addr_word dat w = wrote (frame 0xf5 addr_word data) w.
Proof.
  intros Hd Hs Ha. destruct dat as [v|bs]; simpl in Hd.
  - destruct (u16_dec v); [|discriminate]. injection Hd as <-.
    rewrite writeRom_word, writeRom_bytes by assumption.
    pack_steps. reflexivity.
  - injection Hd as <-. rewrite writeRom_bytes. pack_steps. reflexivity.
Qed.

Lemma writeRom_total addr_word dat w :
  writeRom addr_word dat w = struct_error w \/
  exists data, as_H dat = Some data /\ u16 (9 + len data) /\ u32 addr_word /\
               writeRom addr_word dat w = wrote (frame 0xf5 addr_word data) w.
Proof.
  destruct (as_H dat) as [data|] eqn:Hd.
  - destruct (u16_dec (9 + len data)) as [Hs|Hs];
      [destruct (u32_dec addr_word) as [Ha|Ha]|].
    + right. exists data. auto using writeRom_ok.
    + left. destruct dat as [v|bs]; simpl in Hd.
      * destruct (u16_dec v); [|discriminate]. injection Hd as <-.
        rewrite writeRom_word, writeRom_bytes by assumption.
        pack_steps. reflexivity.
      * injection Hd as <-. rewrite writeRom_bytes. pack_steps. reflexivity.
    + left. destruct dat as [v|bs]; simpl in Hd.
      * destruct (u16_dec v); [|discriminate]. injection Hd as <-.
        rewrite writeRom_word, writeRom_bytes by assumption.
        pack_steps. reflexivity.
      * injection Hd as <-. rewrite writeRom_bytes. pack_steps. reflexivity.
  - left. destruct dat as [v|bs]; simpl in Hd.
    + destruct (u16_dec v); [discriminate|]. now apply writeRom_bad_word.
    + discriminate.
Qed.

Lemma pack_B_fail v w :
  ~ (0 <= v < 256) -> pack_B v w = Out (Raise StructError) [] w.
Proof.
  intros H. unfold pack_B.
  replace ((0 <=? v) && (v <? 256)) with false; [reflexivity|].
  symmetry. apply andb_false_iff.
  destruct (Z.leb_spec 0 v); [right; apply Z.ltb_ge; lia | now left].
Qed.

Lemma as_B_int v :
  as_B (PInt v) = if Z_le_dec 0 v then if Z_lt_dec v 256 then Some [v] else None
                  else None.
Proof. reflexivity. Qed.

Lemma writeRam_bytes addr data w :
  writeRam addr (PBytes data) w =
  (size <- pack_H (9 + len data) ;;
   a <- pack_I addr ;;
   ser_write (size ++ [0xf7] ++ a ++ data ++ [0; 0]) ;;
   ack <- ser_read 1 ;;
   ret ack) w.
Proof.
  unfold writeRam. rewrite bind_ret_l.
  replace (2 + 1 + 4 + len data + 2) with (9 + len data) by lia. reflexivity.
Qed.

Lemma writeRam_byte addr v w :
  0 <= v < 256 -> writeRam addr (PInt v) w = writeRam addr (PBytes [v]) w.
Proof.
  intros H. unfold writeRam.
  rewrite (bind_pure _ _ _ _ (pack_B_run v w H)). pack_steps. reflexivity.
Qed.

Lemma writeRam_bad_byte addr v w :
  ~ (0 <= v < 256) -> writeRam addr (PInt v) w = struct_error w.
Proof.
  intros H. unfold writeRam.
  rewrite (bind_raise _ _ _ _ _ _ (pack_B_fail v w H)). reflexivity.
Qed.

Lemma as_B_some dat data :
  as_B dat = Some data ->
  dat = PBytes data \/ exists v, dat = PInt v /\ data = [v] /\ 0 <= v < 256.
Proof.
  destruct dat as [v|bs]; [rewrite as_B_int|simpl].
  - destruct (Z_le_dec 0 v); [destruct (Z_lt_dec v 256)|]; try discriminate.
    intros [= <-]. right. exists v. auto.
  - intros [= <-]. now left.
Qed.

Lemma writeRam_ok addr dat data w :
  as_B dat = Some data -> u16 (9 + len data) -> u32 addr ->
  writeRam addr dat w = wrote (frame 0xf7 addr data) w.
Proof.
  intros Hd Hs Ha.
  destruct (as_B_some _ _ Hd) as [-> | (v & -> & -> & Hv)].
  - rewrite writeRam_bytes. pack_steps. reflexivity.
  - rewrite writeRam_byte, writeRam_bytes by assumption.
    pack_steps. reflexivity.
Qed.

Lemma writeRam_total addr dat w :
  writeRam addr dat w = struct_error w \/
  exists data, as_B dat = Some data /\ u16 (9 + len data) /\ u32 addr /\
               writeRam addr dat w = wrote (frame 0xf7 addr data) w.
Proof.
  destruct (as_B dat) as [data|] eqn:Hd.
  - destruct (u16_dec (9 + len data)) as [Hs|Hs];
      [destruct (u32_dec addr) as [Ha|Ha]|].
    + right. exists data. auto using writeRam_ok.
    + left. destruct (as_B_some _ _ Hd) as [-> | (v & -> & -> & Hv)].
      * rewrite writeRam_bytes. pack_steps. reflexivity.
      * rewrite writeRam_byte, writeRam_bytes by assumption.
        pack_steps. reflexivity.
    + left. destruct (as_B_some _ _ Hd) as [-> | (v & -> & -> & Hv)].
      * rewrite writeRam_bytes. pack_steps. reflexivity.
      * rewrite writeRam_byte, writeRam_bytes by assumption.
        pack_steps. reflexivity.
  - left. destruct dat as [v|bs]; [|discriminate].
    rewrite as_B_int in Hd. apply writeRam_bad_byte.
    destruct (Z_le_dec 0 v); [destruct (Z_lt_dec v 256)|];
      try discriminate; lia.
Qed.

Lemma readRom_ok addr_word length_byte w :
  u32 (Z.shiftl addr_word 1) -> u16 length_byte ->
  readRom addr_word length_byte w =
  read_back (frame 0xf6 (Z.shiftl addr_word 1) (le16 length_byte))
            length_byte w.
Proof.
  intros Ha Hn. unfold readRom. change (2 + 1 + 4 + 2 + 2) with 11.
  pack_steps. reflexivity.
Qed.

Lemma readRom_total addr_word length_byte w :
  readRom addr_word length_byte w = struct_error w \/
  (u32 (Z.shiftl addr_word 1) /\ u16 length_byte /\
   readRom addr_word length_byte w =
   read_back (frame 0xf6 (Z.shiftl addr_word 1) (le16 length_byte))
             length_byte w).
Proof.
  destruct (u32_dec (Z.shiftl addr_word 1)) as [Ha|Ha];
    [destruct (u16_dec length_byte) as [Hn|Hn]|].
  - right. auto using readRom_ok.
  - left. unfold readRom. change (2 + 1 + 4 + 2 + 2) with 11.
    pack_steps. reflexivity.
  - left. unfold readRom. change (2 + 1 + 4 + 2 + 2) with 11.
    pack_steps. reflexivity.
Qed.

Lemma readRam_ok addr length_byte w :
  u32 addr -> u16 length_byte ->
  readRam addr length_byte w =
  read_back (frame 0xf8 addr (le16 length_byte)) length_byte w.
Proof.
  intros Ha Hn. unfold readRam. change (2 + 1 + 4 + 2 + 2) with 11.
  pack_steps. reflexivity.
Qed.

Lemma readRam_total addr length_byte w :
  readRam addr length_byte w = struct_error w \/
  (u32 addr /\ u16 length_byte /\
   readRam addr length_byte w =
   read_back (frame 0xf8 addr (le16 length_byte)) length_byte w).
Proof.
  destruct (u32_dec addr) as [Ha|Ha];
    [destruct (u16_dec length_byte) as [Hn|Hn]|].
  - right. auto using readRam_ok.
  - left. unfold readRam. change (2 + 1 + 4 + 2 + 2) with 11.
    pack_steps. reflexivity.
  - left. unfold readRam. change (2 + 1 + 4 + 2 + 2) with 11.
    pack_steps. reflexivity.
Qed.

Lemma as_H_int v : u16 v -> as_H (PInt v) = Some (le16 v).
Proof.
  intros H. unfold as_H. destruct (u16_dec v); [reflexivity | contradiction].
Qed.

Lemma writeRom_int addr_word v w :
  u32 addr_word -> u16 v ->
  writeRom addr_word (PInt v) w = wrote (frame 0xf5 addr_word (le16 v)) w.
Proof.
  intros Ha Hv. apply writeRom_ok; auto using as_H_int.
  change (len (le16 v)) with 2. unfold u16. lia.
Qed.

(** What [programRom] does once its frame is built. *)
Definition programmed (f : list Z) (w : world) : outcome bool :=
  Out (Val (bytes_eqb (firstn 1 (rx w)) [0xaa]))
      [Tx f; Rx 1 (firstn 1 (rx w))]
      (set_rx w (skipn 1 (rx w))).

Lemma programRom_bytes addr_byte data buf w :
  programRom addr_byte (PBytes data) (Some buf) w =
  (size <- pack_H (11 + len data) ;;
   addr <- pack_I addr_byte ;;
   b <- pack_H buf ;;
   ser_write (size ++ [0xf4] ++ addr ++ b ++ data ++ [0; 0]) ;;
   ack <- ser_read 1 ;;
   ret (bytes_eqb ack [0xaa])) w.
Proof.
  unfold programRom. rewrite !bind_ret_l.
  replace (2 + 1 + 4 + 2 + len data + 2) with (11 + len data) by lia.
  reflexivity.
Qed.

Lemma programRom_word addr_byte v buf w :
  u16 v ->
  programRom addr_byte (PInt v) buf w =
  programRom addr_byte (PBytes (le16 v)) buf w.
Proof.
  intros H. unfold programRom. pack_steps. reflexivity.
Qed.

Lemma programRom_bad_word addr_byte v buf w :
  ~ u16 v -> programRom addr_byte (PInt v) buf w = struct_error w.
Proof.
  intros H. unfold programRom. pack_steps. reflexivity.
Qed.

Lemma as_H_some dat data :
  as_H dat = Some data ->
  dat = PBytes data \/ exists v, dat = PInt v /\ data = le16 v /\ u16 v.
Proof.
  destruct dat as [v|bs]; simpl.
  - destruct (u16_dec v); [|discriminate]. intros [= <-]. right. eauto.
  - intros [= <-]. now left.
Qed.

Lemma frame_program addr_byte buf data :
  frame 0xf4 addr_byte (le16 buf ++ data) =
  le16 (11 + len data) ++ [0xf4] ++ le32 addr_byte ++ le16 buf ++ data ++ [0; 0].
Proof.
  unfold frame. rewrite len_app. change (len (le16 buf)) with 2.
  replace (9 + (2 + len data)) with (11 + len data) by lia.
  now rewrite <- app_assoc.
Qed.

Lemma programRom_ok addr_byte dat data buf w :
  as_H dat = Some data -> u16 (11 + len data) -> u32 addr_byte -> u16 buf ->
  programRom addr_byte dat (Some buf) w =
  programmed (frame 0xf4 addr_byte (le16 buf ++ data)) w.
Proof.
  intros Hd Hs Ha Hb. rewrite frame_program.
  destruct (as_H_some _ _ Hd) as [-> | (v & -> & -> & Hv)].
  - rewrite programRom_bytes. pack_steps. reflexivity.
  - rewrite programRom_word, programRom_bytes by assumption.
    pack_steps. reflexivity.
Qed.

Lemma programRom_total addr_byte dat buf w :
  programRom addr_byte dat (Some buf) w = struct_error w \/
  exists data,
    as_H dat = Some data /\ u16 (11 + len data) /\ u32 addr_byte /\ u16 buf /\
    programRom addr_byte dat (Some buf) w =
    programmed (frame 0xf4 addr_byte (le16 buf ++ data)) w.
Proof.
  destruct (as_H dat) as [data|] eqn:Hd.
  - destruct (u16_dec (11 + len data)) as [Hs|Hs];
      [destruct (u32_dec addr_byte) as [Ha|Ha];
       [destruct (u16_dec buf) as [Hb|Hb]|]|].
    + right. exists data. split; [reflexivity|]. split; [exact Hs|].
      split; [exact Ha|]. split; [exact Hb|]. now apply programRom_ok.
    + left. destruct (as_H_some _ _ Hd) as [-> | (v & -> & -> & Hv)].
      * rewrite programRom_bytes. pack_steps. reflexivity.
      * rewrite programRom_word, programRom_bytes by assumption.
        pack_steps. reflexivity.
    + left. destruct (as_H_some _ _ Hd) as [-> | (v & -> & -> & Hv)].
      * rewrite programRom_bytes. pack_steps. reflexivity.
      * rewrite programRom_word, programRom_bytes by assumption.
        pack_steps. reflexivity.
    + left. destruct (as_H_some _ _ Hd) as [-> | (v & -> & -> & Hv)].
      * rewrite programRom_bytes. pack_steps. reflexivity.
      * rewrite programRom_word, programRom_bytes by assumption.
        pack_steps. reflexivity.
  - left. destruct dat as [v|bs]; simpl in Hd; [|discriminate].
    destruct (u16_dec v); [discriminate|]. now apply programRom_bad_word.
Qed.

(** The part of [getRomCFI] that follows the three transfers. *)
Definition cfi_parse (cfi : list Z) : M cfi_info :=
  temp <- unpack_H (slice cfi 0 2) ;;
  let device_size := 2 ^ temp in
  temp <- unpack_H (slice cfi 6 8) ;;
  let buffer_write_bytes := if negb (temp =? 0) then 2 ^ temp else 0 in
  temp <- unpack_H (slice cfi 12 14) ;;
  temp1 <- unpack_H (slice cfi 14 16) ;;
  let sector_count :=
    Z.lor (Z.shiftl (Z.land temp1 0xff) 8) (Z.land temp 0xff) + 1 in
  temp <- unpack_H (slice cfi 16 18) ;;
  temp1 <- unpack_H (slice cfi 18 20) ;;
  let sector_size :=
    Z.lor (Z.shiftl (Z.land temp1 0xff) 8) (Z.land temp 0xff) * 256 in
  ret (CFI device_size sector_count sector_size buffer_write_bytes).

(** The traffic of [getRomCFI], whatever the cartridge answers. *)
Definition cfi_traffic (w : world) : trace :=
  [Tx (frame 0xf5 0x55 (le16 0x98)); Rx 1 (firstn 1 (rx w));
   Tx (frame 0xf6 (Z.shiftl 0x27 1) (le16 20));
   Rx 22 (firstn 22 (skipn 1 (rx w)));
   Tx (frame 0xf5 0 (le16 0xf0)); Rx 1 (firstn 1 (skipn 22 (skipn 1 (rx w))))].

Definition cfi_answer (w : world) : list Z :=
  skipn 2 (firstn 22 (skipn 1 (rx w))).

Definition after_cfi (w : world) : world :=
  set_rx w (skipn 1 (skipn 22 (skipn 1 (rx w)))).

(** A computation that only computes: no event, no change of world,
    and nothing worse than [struct.error]. *)
Definition computes {A} (m : M A) : Prop :=
  forall w, exists r, m w = Out r [] w /\
                      (r = Raise StructError \/ exists a, r = Val a).

Lemma computes_ret {A} (a : A) : computes (ret a).
Proof. intros w. exists (Val a). split; [reflexivity|]. right. eauto. Qed.

Lemma computes_unpack_H data : computes (unpack_H data).
Proof.
  intros w. unfold unpack_H.
  destruct data as [|b0 [|b1 [|b2 l]]];
    try (exists (Raise StructError); split; [reflexivity|now left]).
  eexists. split; [reflexivity|]. right. eauto.
Qed.

Lemma computes_bind {A B} (m : M A) (k : A -> M B) :
  computes m -> (forall a, computes (k a)) -> computes (bind m k).
Proof.
  intros Hm Hk w. destruct (Hm w) as (r & Hr & [-> | [a ->]]).
  - exists (Raise StructError). split; [|now left].
    now rewrite (bind_raise _ _ _ _ _ _ Hr).
  - rewrite (bind_pure _ _ _ _ Hr). apply Hk.
Qed.

Lemma cfi_parse_computes cfi : computes (cfi_parse cfi).
Proof.
  unfold cfi_parse.
  repeat (apply computes_bind; [apply computes_unpack_H | intros ?]).
  apply computes_ret.
Qed.

Lemma cfi_parse_pure cfi w :
  events (cfi_parse cfi w) = [] /\ final (cfi_parse cfi w) = w.
Proof.
  destruct (cfi_parse_computes cfi w) as (r & -> & _). auto.
Qed.

Lemma getRomCFI_split w :
  getRomCFI w =
  Out (result (cfi_parse (cfi_answer w) (after_cfi w)))
      (cfi_traffic w) (after_cfi w).
Proof.
  change getRomCFI with
    (writeRom 0x55 (PInt 0x98) ;; cfi <- readRom 0x27 20 ;;
     writeRom 0x00 (PInt 0xf0) ;; cfi_parse cfi).
  erewrite bind_val by (apply writeRom_int; unfold u32, u16; lia).
  erewrite bind_val by (apply readRom_ok; unfold u32, u16; simpl; lia).
  erewrite bind_val by (apply writeRom_int; unfold u32, u16; lia).
  rewrite !set_rx_set_rx, !rx_set_rx. unfold prepend.
  cbn [result events final app].
  change (Z.to_nat (20 + 2)) with 22%nat. change (20 + 2) with 22.
  fold (after_cfi w). fold (cfi_answer w).
  destruct (cfi_parse_pure (cfi_answer w) (after_cfi w)) as [He Hf].
  rewrite He, Hf. reflexivity.
Qed.


Lemma programRom_none addr_byte dat w :
  programRom addr_byte dat None w =
  match as_H dat with
  | None => struct_error w
  | Some data =>
      match result (cfi_parse (cfi_answer w) (after_cfi w)) with
      | Val c =>
          let o := programRom addr_byte (PBytes data)
                     (Some (cfi_buffer_write_bytes c)) (after_cfi w) in
          Out (result o) (cfi_traffic w ++ events o) (final o)
      | Return => Out Return (cfi_traffic w) (after_cfi w)
      | Raise e => Out (Raise e) (cfi_traffic w) (after_cfi w)
      | Diverge => Out Diverge (cfi_traffic w) (after_cfi w)
      end
  end.
Proof.
  assert (Hbytes : forall data,
    programRom addr_byte (PBytes data) None w =
    match result (cfi_parse (cfi_answer w) (after_cfi w)) with
    | Val c =>
        let o := programRom addr_byte (PBytes data)
                   (Some (cfi_buffer_write_bytes c)) (after_cfi w) in
        Out (result o) (cfi_traffic w ++ events o) (final o)
    | Return => Out Return (cfi_traffic w) (after_cfi w)
    | Raise e => Out (Raise e) (cfi_traffic w) (after_cfi w)
    | Diverge => Out Diverge (cfi_traffic w) (after_cfi w)
    end).
  { intros data. unfold programRom at 1. rewrite bind_ret_l.
    unfold bind at 1 2. rewrite getRomCFI_split. cbn [result events final].
    destruct (result (cfi_parse (cfi_answer w) (after_cfi w))) as [c| |e|];
      cbn [ret result events final]; rewrite ?app_nil_r; reflexivity. }
  destruct dat as [v|bs]; cbn [as_H].
  - destruct (u16_dec v) as [Hv|Hv].
    + rewrite programRom_word by assumption. apply Hbytes.
    + now apply programRom_bad_word.
  - apply Hbytes.
Qed.

Lemma cfi_traffic_framed w : Forall well_framed (sent (cfi_traffic w)).
Proof.
  unfold cfi_traffic. cbn [sent flat_map app].
  repeat constructor; apply frame_well_framed; unfold u16;
    change (len (le16 _)) with 2; lia.
Qed.

Lemma programRom_framed addr_byte dat buf w :
  Forall well_framed (sent (events (programRom addr_byte dat (Some buf) w))).
Proof.
  destruct (programRom_total addr_byte dat buf w)
    as [-> | (data & _ & Hs & _ & _ & ->)];
    cbn [struct_error programmed events sent flat_map app].
  - constructor.
  - repeat constructor. apply frame_well_framed.
    rewrite len_app. change (len (le16 buf)) with 2.
    unfold u16 in *. lia.
Qed.

(** C4: every frame a driver operation writes starts with its own
    total length, as a little-endian 16-bit number: the length counts
    the size field, the opcode, the body and the two zero bytes of the
    CRC placeholder that end the frame. *)
Theorem frame_size_counts_every_byte
  (addr length_byte : Z) (dat : pydata) (buf : option Z) (w : world) :
  Forall well_framed (sent (events (writeRom addr dat w))) /\
  Forall well_framed (sent (events (readRom addr length_byte w))) /\
  Forall well_framed (sent (events (writeRam addr dat w))) /\
  Forall well_framed (sent (events (readRam addr length_byte w))) /\
  Forall well_framed (sent (events (programRom addr dat buf w))).
Proof.
  repeat split.
  - destruct (writeRom_total addr dat w) as [-> | (data & _ & Hs & _ & ->)];
      cbn [struct_error wrote events sent flat_map app];
      repeat constructor. now apply frame_well_framed.
  - destruct (readRom_total addr length_byte w) as [-> | (_ & _ & ->)];
      cbn [struct_error read_back events sent flat_map app];
      repeat constructor. apply frame_well_framed.
    change (len (le16 length_byte)) with 2. unfold u16. lia.
  - destruct (writeRam_total addr dat w) as [-> | (data & _ & Hs & _ & ->)];
      cbn [struct_error wrote events sent flat_map app];
      repeat constructor. now apply frame_well_framed.
  - destruct (readRam_total addr length_byte w) as [-> | (_ & _ & ->)];
      cbn [struct_error read_back events sent flat_map app];
      repeat constructor. apply frame_well_framed.
    change (len (le16 length_byte)) with 2. unfold u16. lia.
  - destruct buf as [b|]; [apply programRom_framed|].
    rewrite programRom_none. destruct (as_H dat) as [data|];
      [|cbn [struct_error events sent flat_map]; constructor].
    destruct (result (cfi_parse (cfi_answer w) (after_cfi w)));
      cbn [events]; rewrite ?sent_app; try apply cfi_traffic_framed.
    apply Forall_app. split; [apply cfi_traffic_framed|apply programRom_framed].
Qed.

(* ================================================================= *)
(** ** Mode set and Flash mapping *)

(** The trace of write-class frames sent one after the other, each
    followed by the read of its one-byte acknowledgement from [l]. *)
Fixpoint acked (fs : list (list Z)) (l : list Z) : trace :=
  match fs with
  | [] => []
  | f :: fs' => Tx f :: Rx 1 (firstn 1 l) :: acked fs' (skipn 1 l)
  end.

(** The world once [n] acknowledgements have been read. *)
Definition drop (n : nat) (w : world) : world :=
  set_rx w (skipn n (rx w)).

Lemma sent_acked fs l : sent (acked fs l) = fs.
Proof.
  revert l. induction fs as [|f fs IH]; intros l; [reflexivity|].
  cbn [acked sent flat_map app]. f_equal. apply IH.
Qed.

Lemma signals_acked fs l : signals (acked fs l) = [].
Proof.
  revert l. induction fs as [|f fs IH]; intros l; [reflexivity|].
  cbn [acked signals filter is_io negb]. apply IH.
Qed.

Lemma stop_in_drop n w : stop_in (drop n w) = stop_in w.
Proof. reflexivity. Qed.

Lemma lor_bound a b n :
  0 <= n -> 0 <= a < 2 ^ n -> 0 <= b < 2 ^ n -> 0 <= Z.lor a b < 2 ^ n.
Proof.
  intros Hn Ha Hb. split; [apply Z.lor_nonneg; lia|].
  destruct (Z.eq_dec (Z.lor a b) 0) as [->|Hz]; [lia|].
  assert (Hpos : 0 < Z.lor a b)
    by (pose proof (proj2 (Z.lor_nonneg a b) (conj (proj1 Ha) (proj1 Hb))); lia).
  apply Z.log2_lt_pow2; [exact Hpos|].
  rewrite Z.log2_lor by lia.
  assert (Hlog : forall x, 0 <= x < 2 ^ n -> 0 < Z.lor a b -> 0 < n ->
                           Z.log2 x < n).
  { intros x Hx _ Hn'. destruct (Z.eq_dec x 0) as [->|Hx0];
      [simpl; lia | apply Z.log2_lt_pow2; lia]. }
  assert (0 < n).
  { destruct (Z.eq_dec n 0) as [->|]; [|lia].
    simpl in Ha, Hb. assert (a = 0) by lia. assert (b = 0) by lia.
    subst. simpl in Hz. congruence. }
  apply Z.max_lub_lt; apply Hlog; auto.
Qed.

Lemma sc_config_byte sdram sd_enable write_enable sram_bank ctrl :
  0 <= sdram <= 1 -> 0 <= sd_enable <= 1 -> 0 <= write_enable <= 1 ->
  0 <= sram_bank <= 1 -> 0 <= ctrl < 16 ->
  0 <= sc_config sdram sd_enable write_enable sram_bank ctrl < 256.
Proof.
  intros H1 H2 H3 H4 H5. unfold sc_config.
  rewrite !Z.shiftl_mul_pow2 by lia.
  change 256 with (2 ^ 8).
  repeat apply lor_bound; simpl; lia.
Qed.

(** One [writeRom] of a 16-bit value at the head of the goal. *)
Ltac range_solve :=
  first [ assumption
        | cbv [u16 u32 MAGIC_ADDRESS MAGIC_VALUE MAGIC_FLASH_MAP_VALUE] in *;
          rewrite ?Z.shiftr_div_pow2, ?Z.shiftl_mul_pow2 by lia;
          change (2 ^ 1) with 2; Z.div_mod_to_equations; lia ].

Ltac rom_write_step :=
  erewrite bind_val by (apply writeRom_int; range_solve).

Lemma set_sc_mode_run sdram sd_enable write_enable sram_bank ctrl w :
  u16 (sc_config sdram sd_enable write_enable sram_bank ctrl) ->
  set_sc_mode sdram sd_enable write_enable sram_bank ctrl w =
  Out (Val true)
      (acked
         [frame 0xf5 (Z.shiftr MAGIC_ADDRESS 1) (le16 MAGIC_VALUE);
          frame 0xf5 (Z.shiftr MAGIC_ADDRESS 1) (le16 MAGIC_VALUE);
          frame 0xf5 (Z.shiftr MAGIC_ADDRESS 1)
                (le16 (sc_config sdram sd_enable write_enable sram_bank ctrl));
          frame 0xf5 (Z.shiftr MAGIC_ADDRESS 1)
                (le16 (sc_config sdram sd_enable write_enable sram_bank ctrl))]
         (rx w))
      (drop 4 w).
Proof.
  intros Hc. unfold set_sc_mode. cbv zeta.
  repeat rom_write_step.
  rewrite !rx_set_rx, !set_rx_set_rx. unfold drop. cbn [acked].
  rewrite !skipn_skipn. reflexivity.
Qed.

Lemma decode_word_write addr_word v :
  u32 addr_word ->
  decode (frame 0xf5 addr_word (le16 v)) = word_write addr_word v.
Proof. intros H. now rewrite decode_frame. Qed.

(** C6: a mode set with bit flags and a control nibble always succeeds,
    and what it sends is exactly four writes to the magic word address
    [MAGIC_ADDRESS >> 1]: [0xA55A], [0xA55A], [config], [config], with
    [config = (ctrl << 4) | (sdram | (sd_enable << 1) |
    (write_enable << 2) | (sram_bank << 3))]. *)
Theorem mode_set_is_four_magic_writes
  (sdram sd_enable write_enable sram_bank ctrl : Z) (w : world) :
  0 <= sdram <= 1 -> 0 <= sd_enable <= 1 -> 0 <= write_enable <= 1 ->
  0 <= sram_bank <= 1 -> 0 <= ctrl < 16 ->
  let config :=
    Z.lor (Z.shiftl ctrl 4)
          (Z.lor (Z.lor (Z.lor sdram (Z.shiftl sd_enable 1))
                        (Z.shiftl write_enable 2))
                 (Z.shiftl sram_bank 3)) in
  let magic := Z.shiftr 0x01FFFFFE 1 in
  let o := set_sc_mode sdram sd_enable write_enable sram_bank ctrl w in
  result o = Val true /\
  commands (events o) =
  [word_write magic 0xA55A; word_write magic 0xA55A;
   word_write magic config; word_write magic config].
Proof.
  intros H1 H2 H3 H4 H5 config magic o.
  pose proof (sc_config_byte _ _ _ _ _ H1 H2 H3 H4 H5) as Hc.
  assert (Hu : u16 (sc_config sdram sd_enable write_enable sram_bank ctrl)).
  { destruct Hc as [Hlo Hhi]. split; [exact Hlo|].
    apply Z.lt_trans with 256; [exact Hhi | reflexivity]. }
  subst o. rewrite (set_sc_mode_run _ _ _ _ _ w Hu).
  cbn [result events]. split; [reflexivity|].
  unfold commands. rewrite sent_acked. cbn [map].
  rewrite !decode_word_write by range_solve.
  reflexivity.
Qed.

Lemma mode_set_is_four_magic_writes_witness :
  let o := set_sc_mode 0 0 1 0 0x8 (World [] None (fun _ => 0) 0) in
  result o = Val true /\
  commands (events o) =
  [word_write 0xFFFFFF 0xA55A; word_write 0xFFFFFF 0xA55A;
   word_write 0xFFFFFF 0x84; word_write 0xFFFFFF 0x84].
Proof.
  apply (mode_set_is_four_magic_writes 0 0 1 0 0x8); lia.
Defined.

(** The frames of one entry of the mapping. *)
Definition mapping_entry_frames (entry : Z) : list (list Z) :=
  let magic := Z.shiftr MAGIC_ADDRESS 1 in
  [frame 0xf5 magic (le16 MAGIC_FLASH_MAP_VALUE);
   frame 0xf5 magic (le16 MAGIC_FLASH_MAP_VALUE);
   frame 0xf5 magic (le16 entry); frame 0xf5 magic (le16 entry)].

Lemma set_flashmapping_bad_length mapping w :
  len mapping <> 8 ->
  set_flashmapping mapping w = Out (Raise ValueError) [] w.
Proof.
  intros H. unfold set_flashmapping.
  destruct (Z.eqb_spec (len mapping) 8) as [E|_]; [contradiction|].
  reflexivity.
Qed.

Lemma acked_app fs1 fs2 l :
  acked (fs1 ++ fs2) l =
  acked fs1 l ++ acked fs2 (skipn (List.length fs1) l).
Proof.
  revert l. induction fs1 as [|f fs1 IH]; intros l; [reflexivity|].
  cbn [app acked List.length]. rewrite IH, skipn_skipn, Nat.add_1_r.
  reflexivity.
Qed.

Lemma nth_u16 n l : Forall u16 l -> u16 (nth n l 0).
Proof.
  intros H. revert n. induction H as [|x l Hx _ IH]; intros [|n]; cbn [nth];
    auto; unfold u16; lia.
Qed.

Lemma drop_0 w : drop 0 w = w.
Proof. now destruct w. Qed.

Lemma drop_drop n m w : drop m (drop n w) = drop (m + n) w.
Proof.
  unfold drop. now rewrite set_rx_set_rx, rx_set_rx, skipn_skipn.
Qed.

(** A loop whose every round sends acknowledged frames. *)
Lemma for_each_acked {X} (l : list X) (f : X -> M unit)
  (F : X -> list (list Z)) :
  (forall x w, f x w = Out (Val tt) (acked (F x) (rx w))
                           (drop (List.length (F x)) w)) ->
  forall w, for_each l f w =
            Out (Val tt) (acked (flat_map F l) (rx w))
                (drop (List.length (flat_map F l)) w).
Proof.
  intros Hf. induction l as [|x l IH]; intros w.
  { cbn [for_each flat_map List.length acked]. now rewrite drop_0. }
  cbn [for_each flat_map]. rewrite (bind_val _ _ _ _ _ _ (Hf x w)), IH.
  rewrite prepend_out, acked_app, drop_drop, length_app.
  rewrite (Nat.add_comm (List.length (F x))). reflexivity.
Qed.

Lemma mapping_entry_run entry w :
  u16 entry ->
  (writeRom (Z.shiftr MAGIC_ADDRESS 1) (PInt MAGIC_FLASH_MAP_VALUE) ;;
   writeRom (Z.shiftr MAGIC_ADDRESS 1) (PInt MAGIC_FLASH_MAP_VALUE) ;;
   writeRom (Z.shiftr MAGIC_ADDRESS 1) (PInt entry) ;;
   writeRom (Z.shiftr MAGIC_ADDRESS 1) (PInt entry) ;;
   ret tt) w =
  Out (Val tt) (acked (mapping_entry_frames entry) (rx w)) (drop 4 w).
Proof.
  intros H. repeat rom_write_step.
  rewrite !rx_set_rx, !set_rx_set_rx. unfold drop, mapping_entry_frames.
  cbn [acked]. rewrite !skipn_skipn. reflexivity.
Qed.

Lemma set_flashmapping_run mapping w :
  len mapping = 8 -> Forall u16 mapping ->
  set_flashmapping mapping w =
  Out (Val true) (acked (flat_map mapping_entry_frames mapping) (rx w))
      (drop 32 w).
Proof.
  intros Hl Hm.
  destruct mapping as [|m0 [|m1 [|m2 [|m3 [|m4 [|m5 [|m6 [|m7 [|m8 l]]]]]]]]];
    try discriminate Hl.
  2:{ unfold len in Hl. simpl in Hl. lia. }
  unfold set_flashmapping.
  change (negb (len [m0; m1; m2; m3; m4; m5; m6; m7] =? 8)) with false.
  cbv iota zeta.
  erewrite bind_val.
  2:{ apply (for_each_acked _ _
               (fun i => mapping_entry_frames
                           (nth (Z.to_nat i) [m0; m1; m2; m3; m4; m5; m6; m7] 0))).
      intros i w'. apply mapping_entry_run. now apply nth_u16. }
  reflexivity.
Qed.

Lemma commands_mapping_frames mapping :
  map decode (flat_map mapping_entry_frames mapping) =
  flat_map mapping_entry_writes mapping.
Proof.
  induction mapping as [|m l IH]; [reflexivity|].
  cbn [flat_map]. rewrite map_app, IH. f_equal.
Qed.

(** C7: with eight 16-bit entries, the Flash-mapping set succeeds and
    sends exactly 32 writes to the magic word address, [0xA558],
    [0xA558], [mapping[i]], [mapping[i]] for [i = 0..7] in this order;
    with any other number of entries it raises [ValueError] before it
    touches the port. *)
Theorem mapping_set_is_32_magic_writes (mapping : list Z) (w : world) :
  let o := set_flashmapping mapping w in
  (len mapping = 8 -> Forall u16 mapping ->
   result o = Val true /\
   commands (events o) = flat_map mapping_entry_writes mapping /\
   List.length (sent (events o)) = 32%nat) /\
  (len mapping <> 8 ->
   result o = Raise ValueError /\ events o = [] /\ final o = w).
Proof.
  cbv zeta. split.
  - intros Hl Hm. rewrite set_flashmapping_run by assumption.
    cbn [result events]. unfold commands. rewrite sent_acked.
    split; [reflexivity|]. split; [apply commands_mapping_frames|].
    rewrite <- (length_map decode), commands_mapping_frames.
    destruct mapping as [|m0 [|m1 [|m2 [|m3 [|m4 [|m5 [|m6 [|m7 [|m8 l]]]]]]]]];
      try discriminate Hl; [reflexivity|].
    unfold len in Hl. simpl in Hl. lia.
  - intros Hl. rewrite set_flashmapping_bad_length by assumption. auto.
Qed.

Lemma mapping_set_is_32_magic_writes_witness :
  let o := set_flashmapping [8; 9; 10; 11; 12; 13; 14; 15]
             (World [] None (fun _ => 0) 0) in
  (result o = Val true /\
   commands (events o) =
   flat_map mapping_entry_writes [8; 9; 10; 11; 12; 13; 14; 15] /\
   List.length (sent (events o)) = 32%nat) /\
  (let o' := set_flashmapping [0; 1; 2] (World [] None (fun _ => 0) 0) in
   result o' = Raise ValueError /\ events o' = [] /\
   final o' = World [] None (fun _ => 0) 0).
Proof.
  split.
  - apply (mapping_set_is_32_magic_writes [8; 9; 10; 11; 12; 13; 14; 15]).
    + reflexivity.
    + repeat constructor; unfold u16; lia.
  - apply (mapping_set_is_32_magic_writes [0; 1; 2]). discriminate.
Defined.

(* ================================================================= *)
(** ** The CFI query *)

(** The [i]-th little-endian 16-bit value of a CFI response. *)
Definition cfi_word (cfi : list Z) (i : nat) : Z :=
  nth (2 * i) cfi 0 + 256 * nth (2 * i + 1) cfi 0.

Lemma unpack_H_pair b0 b1 w : unpack_H [b0; b1] w = Out (Val (b0 + 256 * b1)) [] w.
Proof. reflexivity. Qed.

Lemma cfi_parse_20 cfi w :
  List.length cfi = 20%nat ->
  cfi_parse cfi w =
  Out (Val (CFI (2 ^ cfi_word cfi 0)
                (Z.lor (Z.shiftl (Z.land (cfi_word cfi 7) 0xff) 8)
                       (Z.land (cfi_word cfi 6) 0xff) + 1)
                (Z.lor (Z.shiftl (Z.land (cfi_word cfi 9) 0xff) 8)
                       (Z.land (cfi_word cfi 8) 0xff) * 256)
                (if negb (cfi_word cfi 3 =? 0) then 2 ^ cfi_word cfi 3 else 0)))
      [] w.
Proof.
  intros Hl.
  do 20 (destruct cfi as [|? cfi]; [discriminate Hl|]).
  destruct cfi; [|discriminate Hl]. clear Hl.
  unfold cfi_parse, cfi_word.
  repeat match goal with
  | |- context [slice ?l ?i ?j] =>
      let v := eval cbv in (slice l i j) in change (slice l i j) with v
  end.
  rewrite !(bind_pure _ _ _ _ (unpack_H_pair _ _ _)).
  reflexivity.
Qed.

(** C5: the CFI query writes [0x98] to word [0x55], reads 20 bytes at
    word [0x27] and writes [0xF0] to word [0x00]; for every 20-byte
    response, read as little-endian 16-bit values [v[0..9]], it returns
    [device_size = 2^v[0]], [buffer_write_bytes = 2^v[3]] unless
    [v[3] = 0] (then [0]), [sector_count = ((v[7] & 0xFF) << 8 |
    (v[6] & 0xFF)) + 1] and [sector_size = ((v[9] & 0xFF) << 8 |
    (v[8] & 0xFF)) * 256]. *)
Theorem cfi_query_decodes_geometry
  (w : world) (ack h0 h1 : Z) (cfi rest : list Z) :
  rx w = ack :: h0 :: h1 :: cfi ++ rest ->
  List.length cfi = 20%nat ->
  let v := cfi_word cfi in
  let o := getRomCFI w in
  commands (events o) =
    [word_write 0x55 0x98; CmdReadRom (2 * 0x27) 20; word_write 0x00 0xF0] /\
  result o =
    Val (CFI (2 ^ v 0%nat)
             (Z.lor (Z.shiftl (Z.land (v 7%nat) 0xFF) 8)
                    (Z.land (v 6%nat) 0xFF) + 1)
             (Z.lor (Z.shiftl (Z.land (v 9%nat) 0xFF) 8)
                    (Z.land (v 8%nat) 0xFF) * 256)
             (if v 3%nat =? 0 then 0 else 2 ^ v 3%nat)).
Proof.
  intros Hrx Hl v o. subst o v. rewrite getRomCFI_split.
  cbn [result events]. split; [reflexivity|].
  assert (Ha : cfi_answer w = cfi).
  { unfold cfi_answer. rewrite Hrx. cbn [skipn].
    change (h0 :: h1 :: cfi ++ rest) with ([h0; h1] ++ cfi ++ rest).
    rewrite app_assoc, firstn_app.
    assert (Hlen : List.length ([h0; h1] ++ cfi) = 22%nat)
      by (rewrite length_app, Hl; reflexivity).
    rewrite Hlen, firstn_all2 by (rewrite Hlen; apply Nat.le_refl).
    cbn [Nat.sub firstn]. rewrite app_nil_r. reflexivity. }
  rewrite Ha, cfi_parse_20 by exact Hl. cbn [result].
  destruct (cfi_word cfi 3 =? 0); reflexivity.
Qed.

Lemma cfi_query_decodes_geometry_witness :
  let cfi := [26; 0; 0; 0; 0; 0; 11; 0; 0; 0; 0; 0; 0xff; 0; 0x01; 0;
              0x00; 0; 0x02; 0] in
  let o := getRomCFI (World (0 :: 0 :: 0 :: cfi ++ [0]) None (fun _ => 0) 0) in
  commands (events o) =
    [word_write 0x55 0x98; CmdReadRom (2 * 0x27) 20; word_write 0x00 0xF0] /\
  result o = Val (CFI (2 ^ 26) 512 131072 2048).
Proof.
  apply (cfi_query_decodes_geometry
           (World (0 :: 0 :: 0 ::
                   [26; 0; 0; 0; 0; 0; 11; 0; 0; 0; 0; 0; 0xff; 0; 0x01; 0;
                    0x00; 0; 0x02; 0] ++ [0]) None (fun _ => 0) 0)
           0 0 0
           [26; 0; 0; 0; 0; 0; 11; 0; 0; 0; 0; 0; 0xff; 0; 0x01; 0;
            0x00; 0; 0x02; 0] [0]); reflexivity.
Defined.

(* ================================================================= *)
(** ** The quality check with nothing to check *)

(** C10: when no step of the quality check is enabled (the count of
    enabled steps is zero), the plan logs, emits [Finished] with
    [ok = false] for its port and returns; it writes nothing to the
    port and reads nothing from it. *)
Theorem qa_without_steps_fails_untouched
  (port : string) (config : QualityCheckConfig) (w : world) :
  test_count_of config = 0 ->
  QualityCheckWorker_run port config w =
  Out (Val tt) [Log port MQaStart; Log port MNoTests; Finished port false] w.
Proof.
  intros H. unfold QualityCheckWorker_run. rewrite H. reflexivity.
Qed.

Lemma qa_without_steps_fails_untouched_witness :
  QualityCheckWorker_run "COM3" (Config false false false false false false)
    (World [1; 2; 3] None (fun _ => 0) 0) =
  Out (Val tt) [Log "COM3" MQaStart; Log "COM3" MNoTests;
                Finished "COM3" false]
      (World [1; 2; 3] None (fun _ => 0) 0).
Proof.
  apply (qa_without_steps_fails_untouched "COM3"
           (Config false false false false false false)).
  reflexivity.
Defined.

(* ================================================================= *)
(** ** What a computation leaves alone *)

(** [keeps P m]: whatever the world, [m] emits only events that [P]
    accepts, leaves the cancel flag as it found it and does not
    [return] out of the enclosing [run]. *)
Definition keeps (P : event -> bool) {A} (m : M A) : Prop :=
  forall w, forallb P (events (m w)) = true /\
            stop_in (final (m w)) = stop_in w /\
            result (m w) <> Return.

(** [halts m]: whatever the world, [m] ends. *)
Definition halts {A} (m : M A) : Prop :=
  forall w, result (m w) <> Diverge.

Section Keeps.
Variable P : event -> bool.
Hypothesis io_ok : forall e, is_io e = true -> P e = true.

Lemma keeps_ret {A} (a : A) : keeps P (ret a).
Proof. intros w. cbn. repeat split; discriminate. Qed.

Lemma keeps_raise {A} e : keeps P (@raise A e).
Proof. intros w. cbn. repeat split; discriminate. Qed.

Lemma keeps_diverge {A} : keeps P (@diverge A).
Proof. intros w. cbn. repeat split; discriminate. Qed.

Lemma keeps_get_world : keeps P get_world.
Proof. intros w. cbn. repeat split; discriminate. Qed.

Lemma keeps_emit e : P e = true -> keeps P (emit e).
Proof. intros H w. cbn. rewrite H. repeat split; discriminate. Qed.

Lemma keeps_bind {A B} (m : M A) (k : A -> M B) :
  keeps P m -> (forall a, keeps P (k a)) -> keeps P (bind m k).
Proof.
  intros Hm Hk w. unfold bind. destruct (Hm w) as (E & S & R).
  destruct (m w) as [[a| |e|] t w']; cbn [result events final] in *;
    try (repeat split; [assumption | assumption | discriminate]).
  - destruct (Hk a w') as (E' & S' & R').
    rewrite forallb_app, E, E'. repeat split; [congruence | assumption].
  - contradiction.
Qed.

Lemma keeps_for_each {X} (l : list X) (f : X -> M unit) :
  (forall x, keeps P (f x)) -> keeps P (for_each l f).
Proof.
  intros Hf. induction l as [|x l IH]; cbn [for_each];
    [apply keeps_ret | apply keeps_bind; auto].
Qed.

Lemma keeps_fold_m {X S} (l : list X) (f : S -> X -> M S) s :
  (forall s x, keeps P (f s x)) -> keeps P (fold_m l f s).
Proof.
  intros Hf. revert s. induction l as [|x l IH]; intros s; cbn [fold_m];
    [apply keeps_ret | apply keeps_bind; auto].
Qed.

Lemma keeps_while {S} fuel (cond : S -> M bool) (body : S -> M S) s :
  (forall s, keeps P (cond s)) -> (forall s, keeps P (body s)) ->
  keeps P (while_loop fuel cond body s).
Proof.
  intros Hc Hb. revert s. induction fuel as [|fuel IH]; intros s;
    cbn [while_loop]; [apply keeps_diverge|].
  apply keeps_bind; [apply Hc|]. intros [|]; [|apply keeps_ret].
  apply keeps_bind; auto.
Qed.

Lemma keeps_pack_B v : keeps P (pack_B v).
Proof. unfold pack_B. destruct (_ && _); [apply keeps_ret|apply keeps_raise]. Qed.

Lemma keeps_pack_H v : keeps P (pack_H v).
Proof. unfold pack_H. destruct (_ && _); [apply keeps_ret|apply keeps_raise]. Qed.

Lemma keeps_pack_I v : keeps P (pack_I v).
Proof. unfold pack_I. destruct (_ && _); [apply keeps_ret|apply keeps_raise]. Qed.

Lemma keeps_unpack_H data : keeps P (unpack_H data).
Proof.
  unfold unpack_H. destruct data as [|b0 [|b1 [|b2 l]]];
    first [apply keeps_ret | apply keeps_raise].
Qed.

Lemma keeps_floordiv a b : keeps P (floordiv a b).
Proof. unfold floordiv. destruct (b =? 0); [apply keeps_raise|apply keeps_ret]. Qed.

Lemma keeps_ser_write cmd : keeps P (ser_write cmd).
Proof. apply keeps_emit. now apply io_ok. Qed.

Lemma keeps_sleep_ms ms : keeps P (sleep_ms ms).
Proof. apply keeps_emit. now apply io_ok. Qed.

Lemma keeps_ser_read n : keeps P (ser_read n).
Proof.
  intros w. cbn. rewrite io_ok by reflexivity. repeat split; discriminate.
Qed.

Lemma keeps_randint a b : keeps P (randint a b).
Proof.
  intros w. unfold randint. destruct (b <? a); cbn; repeat split; discriminate.
Qed.

Lemma keeps_poll_fuel : keeps P poll_fuel.
Proof.
  unfold poll_fuel. apply keeps_bind; [apply keeps_get_world|].
  intros a. apply keeps_ret.
Qed.
End Keeps.

(** The closure rules, applied as far as they go. *)
Ltac keeps_step io :=
  first
    [ apply keeps_ret | apply keeps_raise | apply keeps_diverge
    | apply keeps_get_world | apply keeps_pack_B | apply keeps_pack_H
    | apply keeps_pack_I | apply keeps_unpack_H | apply keeps_floordiv
    | apply keeps_randint
    | apply keeps_ser_write; exact io | apply keeps_sleep_ms; exact io
    | apply keeps_ser_read; exact io | apply keeps_poll_fuel
    | apply keeps_emit; reflexivity
    | apply keeps_bind; [|intros ?]
    | apply keeps_for_each; intros ?
    | apply keeps_fold_m; intros ? ?
    | match goal with
      | |- keeps _ (if ?c then _ else _) => destruct c
      | |- keeps _ (match ?x with PInt _ => _ | PBytes _ => _ end) =>
          destruct x
      | |- keeps _ (match ?x with Some _ => _ | None => _ end) => destruct x
      | |- keeps _ (let '(_, _) := ?x in _) => destruct x
      end ].

Ltac keeps_auto io := repeat keeps_step io.

Section DriverKeeps.
Variable P : event -> bool.
Hypothesis io_ok : forall e, is_io e = true -> P e = true.

Lemma keeps_writeRom a d : keeps P (writeRom a d).
Proof. unfold writeRom. keeps_auto io_ok. Qed.

Lemma keeps_readRom a n : keeps P (readRom a n).
Proof. unfold readRom. keeps_auto io_ok. Qed.

Lemma keeps_writeRam a d : keeps P (writeRam a d).
Proof. unfold writeRam. keeps_auto io_ok. Qed.

Lemma keeps_readRam a n : keeps P (readRam a n).
Proof. unfold readRam. keeps_auto io_ok. Qed.

Lemma keeps_set_sc_mode a b c d e : keeps P (set_sc_mode a b c d e).
Proof.
  unfold set_sc_mode. cbv zeta.
  repeat (apply keeps_bind; [apply keeps_writeRom | intros ?]).
  apply keeps_ret.
Qed.

Lemma keeps_sram_bank_select bank : keeps P (sram_bank_select bank).
Proof.
  unfold sram_bank_select.
  apply keeps_bind; [apply keeps_writeRom | intros ?].
  apply keeps_set_sc_mode.
Qed.

Lemma keeps_set_flashmapping mapping : keeps P (set_flashmapping mapping).
Proof.
  unfold set_flashmapping. destruct (negb _); [apply keeps_raise|]. cbv zeta.
  apply keeps_bind; [|intros ?; apply keeps_ret].
  apply keeps_for_each. intros i.
  repeat (apply keeps_bind; [apply keeps_writeRom | intros ?]).
  apply keeps_ret.
Qed.

Lemma keeps_getRomCFI : keeps P getRomCFI.
Proof.
  unfold getRomCFI.
  apply keeps_bind; [apply keeps_writeRom | intros ?].
  apply keeps_bind; [apply keeps_readRom | intros ?].
  apply keeps_bind; [apply keeps_writeRom | intros ?].
  keeps_auto io_ok.
Qed.

Lemma keeps_eraseChip_poll fuel : keeps P (eraseChip_poll fuel).
Proof.
  induction fuel as [|fuel IH]; cbn [eraseChip_poll]; [apply keeps_diverge|].
  apply keeps_bind; [apply keeps_readRom | intros ?].
  apply keeps_bind; [apply keeps_unpack_H | intros ?].
  destruct (_ =? _); [apply keeps_ret|].
  apply keeps_bind; [now apply keeps_sleep_ms | intros ?]. exact IH.
Qed.

Lemma keeps_eraseChip : keeps P eraseChip.
Proof.
  unfold eraseChip.
  repeat (apply keeps_bind; [apply keeps_writeRom | intros ?]).
  apply keeps_bind; [now apply keeps_sleep_ms | intros ?].
  apply keeps_bind; [apply keeps_poll_fuel | intros ?].
  apply keeps_bind; [apply keeps_eraseChip_poll | intros ?].
  apply keeps_ret.
Qed.

Lemma keeps_eraseSector_poll fuel a : keeps P (eraseSector_poll fuel a).
Proof.
  induction fuel as [|fuel IH]; cbn [eraseSector_poll]; [apply keeps_diverge|].
  apply keeps_bind; [apply keeps_readRom | intros ?].
  apply keeps_bind; [apply keeps_unpack_H | intros ?].
  destruct (_ =? _); [apply keeps_ret|].
  apply keeps_bind; [now apply keeps_sleep_ms | intros ?]. exact IH.
Qed.

Lemma keeps_eraseSector a s : keeps P (eraseSector a s).
Proof.
  unfold eraseSector.
  repeat (apply keeps_bind; [apply keeps_writeRom | intros ?]).
  apply keeps_bind; [now apply keeps_sleep_ms | intros ?].
  apply keeps_bind; [apply keeps_poll_fuel | intros ?].
  apply keeps_bind; [apply keeps_eraseSector_poll | intros ?].
  apply keeps_ret.
Qed.

Lemma keeps_programRom a d b : keeps P (programRom a d b).
Proof.
  unfold programRom.
  apply keeps_bind; [destruct d; [apply keeps_pack_H | apply keeps_ret]|].
  intros data. apply keeps_bind.
  { destruct b; [apply keeps_ret|].
    apply keeps_bind; [apply keeps_getRomCFI | intros ?; apply keeps_ret]. }
  intros buf. keeps_auto io_ok.
Qed.

Lemma keeps_unlockPPB_poll fuel : keeps P (unlockPPB_poll fuel).
Proof.
  induction fuel as [|fuel IH]; cbn [unlockPPB_poll]; [apply keeps_diverge|].
  apply keeps_bind; [apply keeps_writeRom | intros ?].
  apply keeps_bind; [apply keeps_readRom | intros ?].
  apply keeps_bind; [apply keeps_unpack_H | intros ?].
  destruct (negb _); [apply keeps_ret|].
  apply keeps_bind; [now apply keeps_sleep_ms | intros ?]. exact IH.
Qed.

Lemma keeps_unlockPPB : keeps P unlockPPB.
Proof.
  unfold unlockPPB.
  apply keeps_bind; [apply keeps_set_flashmapping | intros ?].
  repeat (apply keeps_bind; [apply keeps_writeRom | intros ?]).
  apply keeps_bind; [now apply keeps_sleep_ms | intros ?].
  apply keeps_bind; [apply keeps_poll_fuel | intros ?].
  apply keeps_bind; [apply keeps_unlockPPB_poll | intros ?].
  repeat (apply keeps_bind; [apply keeps_writeRom | intros ?]).
  apply keeps_ret.
Qed.

Lemma keeps_eraseFlashMetadata : keeps P eraseFlashMetadata.
Proof.
  unfold eraseFlashMetadata.
  apply keeps_bind; [apply keeps_set_flashmapping | intros ?]. cbv zeta.
  apply keeps_bind; [apply keeps_getRomCFI | intros ?].
  apply keeps_bind; [apply keeps_floordiv | intros ?].
  apply keeps_bind; [|intros ?; apply keeps_ret].
  apply keeps_for_each. intros i.
  apply keeps_bind; [apply keeps_eraseSector | intros ?; apply keeps_ret].
Qed.
End DriverKeeps.

(* ================================================================= *)
(** ** The polling loops *)

(** The loop of [eraseChip] and of [eraseSector]: read the word at
    [addr_word] until it is [0xffff], [ms] milliseconds apart. *)
Fixpoint poll_until (fuel : nat) (ms addr_word : Z) : M unit :=
  match fuel with
  | O => diverge
  | S fuel' =>
      data <- readRom addr_word 2 ;;
      v <- unpack_H data ;;
      if v =? 0xffff then ret tt
      else sleep_ms ms ;; poll_until fuel' ms addr_word
  end.

(** The 16-bit value a response to a 2-byte read carries, when the
    response is complete. *)
Definition word_of (d : list Z) : option Z :=
  match skipn 2 d with
  | [b0; b1] => Some (b0 + 256 * b1)
  | _ => None
  end.

(** A response that keeps the loop going. *)
Definition pending (d : list Z) : Prop :=
  exists v, word_of d = Some v /\ v <> 0xffff.

(** The trace of the rounds of a polling loop that reads with the
    frame [f], one round per response. *)
Fixpoint poll_rounds (ms : Z) (f : list Z) (resps : list (list Z)) : trace :=
  match resps with
  | [] => []
  | d :: rest =>
      Tx f :: Rx 4 d ::
      match rest with
      | [] => []
      | _ :: _ => Sleep ms :: poll_rounds ms f rest
      end
  end.

Lemma bind_ext {A B} (m : M A) (k k' : A -> M B) w :
  (forall a w', k a w' = k' a w') -> bind m k w = bind m k' w.
Proof.
  intros H. unfold bind. destruct (result (m w)); try reflexivity.
  now rewrite H.
Qed.

Lemma eraseSector_poll_eq fuel a w :
  eraseSector_poll fuel a w = poll_until fuel 100 a w.
Proof.
  revert w. induction fuel as [|fuel IH]; intros w; [reflexivity|].
  cbn [eraseSector_poll poll_until].
  apply bind_ext. intros data w1. apply bind_ext. intros v w2.
  destruct (v =? 0xffff); [reflexivity|]. apply bind_ext. intros _ w3. apply IH.
Qed.

Lemma eraseChip_poll_eq fuel w :
  eraseChip_poll fuel w = poll_until fuel 500 0 w.
Proof.
  revert w. induction fuel as [|fuel IH]; intros w; [reflexivity|].
  cbn [eraseChip_poll poll_until].
  apply bind_ext. intros data w1. apply bind_ext. intros v w2.
  destruct (v =? 0xffff); [reflexivity|]. apply bind_ext. intros _ w3. apply IH.
Qed.

Lemma word_of_some d v :
  word_of d = Some v ->
  exists h0 h1 b0 b1, d = [h0; h1; b0; b1] /\ v = b0 + 256 * b1.
Proof.
  unfold word_of.
  destruct d as [|h0 [|h1 [|b0 [|b1 [|x l]]]]]; cbn [skipn]; try discriminate.
  intros [= <-]. eauto 6.
Qed.

Lemma firstn_4_full (l : list Z) h0 h1 b0 b1 :
  firstn 4 l = [h0; h1; b0; b1] -> (4 <= List.length l)%nat.
Proof.
  destruct l as [|x0 [|x1 [|x2 [|x3 l]]]]; cbn; try discriminate. lia.
Qed.

(** What a polling loop does, given fuel beyond the bytes to come. *)
Lemma poll_until_spec fuel ms a w :
  u32 (Z.shiftl a 1) -> (List.length (rx w) < fuel)%nat ->
  let o := poll_until fuel ms a w in
  exists resps last,
    events o = poll_rounds ms (frame 0xf6 (Z.shiftl a 1) (le16 2))
                           (resps ++ [last]) /\
    Forall pending resps /\
    List.concat (resps ++ [last]) ++ rx (final o) = rx w /\
    (word_of last = Some 0xffff /\ result o = Val tt \/
     word_of last = None /\ result o = Raise StructError).
Proof.
  intros Ha. revert w. induction fuel as [|fuel IH]; intros w Hf; [lia|].
  cbn [poll_until]. cbv zeta.
  rewrite (bind_val _ _ _ _ _ _ (readRom_ok a 2 w Ha ltac:(unfold u16; lia))).
  change (Z.to_nat (2 + 2)) with 4%nat. change (2 + 2) with 4.
  set (d := firstn 4 (rx w)).
  set (w1 := set_rx w (skipn 4 (rx w))).
  destruct (word_of d) as [v|] eqn:Hw.
  - destruct (word_of_some _ _ Hw) as (h0 & h1 & b0 & b1 & Hd & Hv).
    rewrite Hd. cbn [skipn].
    rewrite (bind_pure _ _ _ _ (unpack_H_pair b0 b1 w1)). rewrite <- Hv.
    destruct (Z.eqb_spec v 0xffff) as [E|E].
    + exists [], d. cbn [app poll_rounds prepend ret result events final List.concat].
      rewrite app_nil_r. repeat split; auto.
      * now rewrite Hd.
      * subst w1 d. rewrite rx_set_rx. apply firstn_skipn.
      * left. now rewrite Hw, E.
    + rewrite (bind_val _ _ _ _ _ _ (eq_refl : sleep_ms ms w1 = Out (Val tt) [Sleep ms] w1)).
      assert (Hlen : (List.length (rx w1) < fuel)%nat).
      { subst w1. rewrite rx_set_rx, length_skipn.
        pose proof (firstn_4_full _ _ _ _ _ Hd). lia. }
      destruct (IH w1 Hlen) as (resps & last & He & Hp & Hc & Hr).
      exists (d :: resps), last.
      cbn [prepend result events final app]. rewrite He. repeat split.
      * cbn [poll_rounds]. rewrite <- Hd.
        destruct (resps ++ [last]) eqn:El; [now destruct resps|]. reflexivity.
      * constructor; [exists v; auto | exact Hp].
      * cbn [app List.concat]. rewrite <- app_assoc, Hc. subst w1 d.
        rewrite rx_set_rx. apply firstn_skipn.
      * exact Hr.
  - assert (Hu : unpack_H (skipn 2 d) w1 = Out (Raise StructError) [] w1).
    { unfold word_of in Hw. unfold unpack_H.
      destruct (skipn 2 d) as [|b0 [|b1 [|b2 l]]]; try reflexivity.
      discriminate. }
    rewrite (bind_raise _ _ _ _ _ _ Hu).
    exists [], d. cbn [app poll_rounds prepend result events final List.concat].
    rewrite app_nil_r. repeat split; auto.
    subst w1 d. rewrite rx_set_rx. apply firstn_skipn.
Qed.

Lemma sent_poll_rounds ms f resps :
  sent (poll_rounds ms f resps) = repeat f (List.length resps).
Proof.
  induction resps as [|d rest IH]; [reflexivity|].
  cbn [poll_rounds List.length repeat].
  destruct rest as [|d' rest']; [reflexivity|].
  change (sent (Tx f :: Rx 4 d :: Sleep ms :: poll_rounds ms f (d' :: rest')))
    with (f :: sent (poll_rounds ms f (d' :: rest'))).
  now rewrite IH.
Qed.

Lemma poll_fuel_run w : poll_fuel w = Out (Val (S (List.length (rx w)))) [] w.
Proof. reflexivity. Qed.

Lemma sleep_ms_run ms w : sleep_ms ms w = Out (Val tt) [Sleep ms] w.
Proof. reflexivity. Qed.

Lemma decode_read_frame a n :
  u32 (Z.shiftl a 1) ->
  decode (frame 0xf6 (Z.shiftl a 1) (le16 n)) = CmdReadRom (2 * a) n.
Proof.
  intros H. rewrite decode_frame by exact H. cbn [Z.eqb Pos.eqb].
  rewrite le_value_le16, Z.shiftl_mul_pow2 by lia. f_equal. lia.
Qed.

(** The six writes that start the erase of the sector at [a]. *)
Definition erase_sector_frames (a : Z) : list (list Z) :=
  [frame 0xf5 0x555 (le16 0xaa); frame 0xf5 0x2aa (le16 0x55);
   frame 0xf5 0x555 (le16 0x80); frame 0xf5 0x555 (le16 0xaa);
   frame 0xf5 0x2aa (le16 0x55); frame 0xf5 a (le16 0x30)].

Lemma eraseSector_run a s w :
  u32 a ->
  eraseSector a s w =
  prepend (acked (erase_sector_frames a) (rx w) ++ [Sleep 10])
          (bind (poll_until (S (List.length (rx (drop 6 w)))) 100 a)
                (fun _ => ret true) (drop 6 w)).
Proof.
  intros Ha. unfold eraseSector. repeat rom_write_step.
  rewrite !rx_set_rx, !set_rx_set_rx, !skipn_skipn. cbn [Nat.add].
  fold (drop 6 w).
  rewrite (bind_val _ _ _ _ _ _ (sleep_ms_run 10 (drop 6 w))).
  rewrite (bind_pure _ _ _ _ (poll_fuel_run (drop 6 w))).
  rewrite !prepend_prepend. unfold erase_sector_frames. cbn [acked app].
  rewrite !skipn_skipn. cbn [Nat.add].
  f_equal. unfold bind. now rewrite eraseSector_poll_eq.
Qed.

(** Erase of one sector: six unlock writes ending with [0x30] to the
    sector's word address, 10 ms of sleep, then reads of that word,
    100 ms apart, until one of them carries [0xffff]; it returns [True]
    exactly then, and raises [struct.error] when a read comes back
    short. *)
Theorem erase_sector_polls_until_blank (a s : Z) (w : world) :
  0 <= a < 2 ^ 31 ->
  let o := eraseSector a s w in
  exists resps last,
    events o =
      acked (erase_sector_frames a) (rx w) ++
      Sleep 10 ::
      poll_rounds 100 (frame 0xf6 (Z.shiftl a 1) (le16 2)) (resps ++ [last]) /\
    commands (events o) =
      [word_write 0x555 0xAA; word_write 0x2AA 0x55; word_write 0x555 0x80;
       word_write 0x555 0xAA; word_write 0x2AA 0x55; word_write a 0x30] ++
      repeat (CmdReadRom (2 * a) 2) (S (List.length resps)) /\
    Forall pending resps /\
    (word_of last = Some 0xffff /\ result o = Val true \/
     word_of last = None /\ result o = Raise StructError).
Proof.
  intros Ha o.
  assert (Hu : u32 a) by (unfold u32; change (2 ^ 31) with 2147483648 in Ha; lia).
  assert (Hs : u32 (Z.shiftl a 1)).
  { unfold u32. rewrite Z.shiftl_mul_pow2 by lia.
    change (2 ^ 31) with 2147483648 in Ha. change (2 ^ 1) with 2. lia. }
  subst o. rewrite eraseSector_run by exact Hu.
  destruct (poll_until_spec (S (List.length (rx (drop 6 w)))) 100 a (drop 6 w)
              Hs (Nat.lt_succ_diag_r _))
    as (resps & last & He & Hp & _ & Hr).
  exists resps, last.
  assert (Hev : events (bind (poll_until (S (List.length (rx (drop 6 w)))) 100 a)
                             (fun _ => ret true) (drop 6 w)) =
                poll_rounds 100 (frame 0xf6 (Z.shiftl a 1) (le16 2))
                            (resps ++ [last])).
  { unfold bind. destruct Hr as [[_ Hr] | [_ Hr]]; rewrite Hr;
      cbn [ret result events final]; rewrite ?app_nil_r; exact He. }
  cbn [prepend result events]. rewrite Hev, <- app_assoc. cbn [app].
  split; [reflexivity|]. split; [|split; [exact Hp|]].
  - unfold commands. rewrite sent_app, sent_acked.
    change (sent (Sleep 10 :: ?t)) with (sent t).
    change (sent (Sleep 10 ::
                  poll_rounds 100 (frame 246 (Z.shiftl a 1) (le16 2))
                              (resps ++ [last])))
      with (sent (poll_rounds 100 (frame 246 (Z.shiftl a 1) (le16 2))
                              (resps ++ [last]))).
    rewrite sent_poll_rounds, map_app, map_repeat, decode_read_frame by exact Hs.
    rewrite length_app, Nat.add_1_r. f_equal.
    unfold erase_sector_frames. cbn [map].
    rewrite !decode_word_write by range_solve. reflexivity.
  - unfold bind. destruct Hr as [[Hw Hr] | [Hw Hr]]; rewrite Hr;
      cbn [ret result events final]; auto.
Qed.

Lemma erase_sector_polls_until_blank_witness :
  let o := eraseSector 0x10000 0x8000
             (World [0; 0; 0; 0; 0; 0; 0; 0; 0x34; 0x12; 0; 0; 0xff; 0xff]
                    None (fun _ => 0) 0) in
  exists resps last,
    events o =
      acked (erase_sector_frames 0x10000)
            [0; 0; 0; 0; 0; 0; 0; 0; 0x34; 0x12; 0; 0; 0xff; 0xff] ++
      Sleep 10 ::
      poll_rounds 100 (frame 0xf6 (Z.shiftl 0x10000 1) (le16 2))
                  (resps ++ [last]) /\
    commands (events o) =
      [word_write 0x555 0xAA; word_write 0x2AA 0x55; word_write 0x555 0x80;
       word_write 0x555 0xAA; word_write 0x2AA 0x55;
       word_write 0x10000 0x30] ++
      repeat (CmdReadRom (2 * 0x10000) 2) (S (List.length resps)) /\
    Forall pending resps /\
    (word_of last = Some 0xffff /\ result o = Val true \/
     word_of last = None /\ result o = Raise StructError).
Proof.
  apply (erase_sector_polls_until_blank 0x10000 0x8000). lia.
Defined.

(** The six writes that start the erase of the whole chip. *)
Definition erase_chip_frames : list (list Z) :=
  [frame 0xf5 0x555 (le16 0xaa); frame 0xf5 0x2aa (le16 0x55);
   frame 0xf5 0x555 (le16 0x80); frame 0xf5 0x555 (le16 0xaa);
   frame 0xf5 0x2aa (le16 0x55); frame 0xf5 0x555 (le16 0x10)].

Lemma eraseChip_run w :
  eraseChip w =
  prepend (acked erase_chip_frames (rx w) ++ [Sleep 100])
          (bind (poll_until (S (List.length (rx (drop 6 w)))) 500 0)
                (fun _ => ret true) (drop 6 w)).
Proof.
  unfold eraseChip. repeat rom_write_step.
  rewrite !rx_set_rx, !set_rx_set_rx, !skipn_skipn. cbn [Nat.add].
  fold (drop 6 w).
  rewrite (bind_val _ _ _ _ _ _ (sleep_ms_run 100 (drop 6 w))).
  rewrite (bind_pure _ _ _ _ (poll_fuel_run (drop 6 w))).
  rewrite !prepend_prepend. unfold erase_chip_frames. cbn [acked app].
  rewrite !skipn_skipn. cbn [Nat.add].
  f_equal. unfold bind. now rewrite eraseChip_poll_eq.
Qed.

(** Erase of the whole chip: the six unlock writes ending with [0x10]
    to word [0x555], 100 ms of sleep, then reads of word [0], 500 ms
    apart, until one carries [0xffff]; [True] exactly then,
    [struct.error] when a read comes back short. *)
Theorem erase_chip_polls_until_blank (w : world) :
  let o := eraseChip w in
  exists resps last,
    events o =
      acked erase_chip_frames (rx w) ++
      Sleep 100 ::
      poll_rounds 500 (frame 0xf6 (Z.shiftl 0 1) (le16 2)) (resps ++ [last]) /\
    commands (events o) =
      [word_write 0x555 0xAA; word_write 0x2AA 0x55; word_write 0x555 0x80;
       word_write 0x555 0xAA; word_write 0x2AA 0x55; word_write 0x555 0x10] ++
      repeat (CmdReadRom 0 2) (S (List.length resps)) /\
    Forall pending resps /\
    (word_of last = Some 0xffff /\ result o = Val true \/
     word_of last = None /\ result o = Raise StructError).
Proof.
  intros o.
  assert (Hs : u32 (Z.shiftl 0 1)) by (unfold u32; cbn; lia).
  subst o. rewrite eraseChip_run.
  destruct (poll_until_spec (S (List.length (rx (drop 6 w)))) 500 0 (drop 6 w)
              Hs (Nat.lt_succ_diag_r _))
    as (resps & last & He & Hp & _ & Hr).
  exists resps, last.
  assert (Hev : events (bind (poll_until (S (List.length (rx (drop 6 w)))) 500 0)
                             (fun _ => ret true) (drop 6 w)) =
                poll_rounds 500 (frame 0xf6 (Z.shiftl 0 1) (le16 2))
                            (resps ++ [last])).
  { unfold bind. destruct Hr as [[_ Hr] | [_ Hr]]; rewrite Hr;
      cbn [ret result events final]; rewrite ?app_nil_r; exact He. }
  cbn [prepend result events]. rewrite Hev, <- app_assoc. cbn [app].
  split; [reflexivity|]. split; [|split; [exact Hp|]].
  - unfold commands. rewrite sent_app, sent_acked.
    change (sent (Sleep 100 ::
                  poll_rounds 500 (frame 246 (Z.shiftl 0 1) (le16 2))
                              (resps ++ [last])))
      with (sent (poll_rounds 500 (frame 246 (Z.shiftl 0 1) (le16 2))
                              (resps ++ [last]))).
    rewrite sent_poll_rounds, map_app, map_repeat, decode_read_frame by exact Hs.
    rewrite length_app, Nat.add_1_r. reflexivity.
  - unfold bind. destruct Hr as [[Hw Hr] | [Hw Hr]]; rewrite Hr;
      cbn [ret result events final]; auto.
Qed.

(* ----------------------------------------------------------------- *)
(** *** The status loop of [unlockPPB] *)

(** The trace of the rounds of the status loop: the status command,
    its acknowledgement, the read of word [0], 100 ms between rounds. *)
Fixpoint status_rounds (rounds : list (list Z * list Z)) : trace :=
  match rounds with
  | [] => []
  | (ack, d) :: rest =>
      Tx (frame 0xf5 0x555 (le16 0x70)) :: Rx 1 ack ::
      Tx (frame 0xf6 (Z.shiftl 0 1) (le16 2)) :: Rx 4 d ::
      match rest with
      | [] => []
      | _ :: _ => Sleep 100 :: status_rounds rest
      end
  end.

(** A status that keeps the loop going: bit 7 clear. *)
Definition busy (r : list Z * list Z) : Prop :=
  exists v, word_of (snd r) = Some v /\ Z.land v 0x80 = 0.

Lemma unlockPPB_poll_spec fuel w :
  (List.length (rx w) < fuel)%nat ->
  let o := unlockPPB_poll fuel w in
  exists rounds last,
    events o = status_rounds (rounds ++ [last]) /\
    Forall busy rounds /\
    stop_in (final o) = stop_in w /\
    ((exists v, word_of (snd last) = Some v /\ Z.land v 0x80 <> 0) /\
     result o = Val tt \/
     word_of (snd last) = None /\ result o = Raise StructError).
Proof.
  revert w. induction fuel as [|fuel IH]; intros w Hf; [lia|].
  cbn [unlockPPB_poll]. cbv zeta.
  rewrite (bind_val _ _ _ _ _ _
             (writeRom_int 0x555 0x70 w ltac:(unfold u32; lia)
                           ltac:(unfold u16; lia))).
  set (ack := firstn 1 (rx w)). set (w0 := set_rx w (skipn 1 (rx w))).
  rewrite (bind_val _ _ _ _ _ _
             (readRom_ok 0 2 w0 ltac:(unfold u32; cbn; lia)
                         ltac:(unfold u16; lia))).
  change (Z.to_nat (2 + 2)) with 4%nat. change (2 + 2) with 4.
  set (d := firstn 4 (rx w0)).
  set (w1 := set_rx w0 (skipn 4 (rx w0))).
  assert (Hl0 : (List.length (rx w0) <= List.length (rx w))%nat).
  { subst w0. rewrite rx_set_rx, length_skipn. lia. }
  destruct (word_of d) as [v|] eqn:Hw.
  - destruct (word_of_some _ _ Hw) as (h0 & h1 & b0 & b1 & Hd & Hv).
    rewrite Hd. cbn [skipn].
    rewrite (bind_pure _ _ _ _ (unpack_H_pair b0 b1 w1)). rewrite <- Hv.
    destruct (Z.eqb_spec (Z.land v 0x80) 0) as [E|E]; cbn [negb].
    + rewrite (bind_val _ _ _ _ _ _ (sleep_ms_run 100 w1)).
      assert (Hlen : (List.length (rx w1) < fuel)%nat).
      { subst w1. rewrite rx_set_rx, length_skipn.
        pose proof (firstn_4_full _ _ _ _ _ Hd). lia. }
      destruct (IH w1 Hlen) as (rounds & last & He & Hp & Hs & Hr).
      exists ((ack, d) :: rounds), last.
      cbn [prepend result events final app]. rewrite He. repeat split.
      * cbn [status_rounds]. rewrite <- Hd.
        destruct (rounds ++ [last]) eqn:El; [now destruct rounds|]. reflexivity.
      * constructor; [exists v; auto | exact Hp].
      * exact Hs.
      * exact Hr.
    + exists [], (ack, d).
      cbn [app status_rounds prepend ret result events final snd].
      repeat split; auto.
      * now rewrite Hd.
      * left. split; [|reflexivity]. exists v. auto.
  - assert (Hu : unpack_H (skipn 2 d) w1 = Out (Raise StructError) [] w1).
    { unfold word_of in Hw. unfold unpack_H.
      destruct (skipn 2 d) as [|b0 [|b1 [|b2 l]]]; try reflexivity.
      discriminate. }
    rewrite (bind_raise _ _ _ _ _ _ Hu).
    exists [], (ack, d).
    cbn [app status_rounds prepend result events final snd].
    repeat split; auto.
Qed.








Lemma identity_mapping_ok : len identity_mapping = 8 /\ Forall u16 identity_mapping.
Proof. split; [reflexivity|]. repeat constructor; unfold u16; lia. Qed.






(* ================================================================= *)
(** ** Reads, programming and bank selection *)

Lemma firstn_exact {X} (a b : list X) n :
  List.length a = n -> firstn n (a ++ b) = a.
Proof.
  intros <-. rewrite firstn_app, Nat.sub_diag, firstn_all. cbn.
  apply app_nil_r.
Qed.

Lemma skipn_exact {X} (a b : list X) n :
  List.length a = n -> skipn n (a ++ b) = b.
Proof.
  intros <-. rewrite skipn_app, Nat.sub_diag, skipn_all. reflexivity.
Qed.

(** [readRom]: the frame carries the byte address [addr_word << 1]; the
    read asks for [length_byte + 2] bytes and the two leading bytes are
    dropped from whatever arrives, so a complete response delivers its
    last [length_byte] bytes and a read that times out delivers fewer,
    without an error.  An address beyond 31 bits or a length beyond 16
    bits raises [struct.error] before anything is sent. *)
Theorem read_rom_strips_header (addr_word length_byte : Z) (w : world) :
  let o := readRom addr_word length_byte w in
  (0 <= addr_word < 2 ^ 31 -> 0 <= length_byte < 65536 ->
   commands (events o) = [CmdReadRom (2 * addr_word) length_byte] /\
   result o = Val (skipn 2 (firstn (Z.to_nat (length_byte + 2)) (rx w))) /\
   rx (final o) = skipn (Z.to_nat (length_byte + 2)) (rx w) /\
   forall hdr payload rest,
     rx w = hdr ++ payload ++ rest -> List.length hdr = 2%nat ->
     len payload = length_byte ->
     result o = Val payload /\ rx (final o) = rest) /\
  (~ (0 <= addr_word < 2 ^ 31 /\ 0 <= length_byte < 65536) ->
   result o = Raise StructError /\ events o = []).
Proof.
  cbv zeta. change (2 ^ 31) with 2147483648. split.
  - intros Ha Hn.
    assert (Hs : u32 (Z.shiftl addr_word 1)).
    { unfold u32. rewrite Z.shiftl_mul_pow2 by lia. change (2 ^ 1) with 2. lia. }
    rewrite readRom_ok by (assumption || exact Hn).
    cbn [read_back result events final]. rewrite rx_set_rx.
    split; [|split; [reflexivity|split; [reflexivity|]]].
    + unfold commands. cbn [sent flat_map app map].
      now rewrite decode_read_frame.
    + intros hdr payload rest Hrx Hh Hp.
      assert (Hlen : List.length (hdr ++ payload) = Z.to_nat (length_byte + 2)).
      { rewrite length_app, Hh. unfold len in Hp. lia. }
      rewrite Hrx, app_assoc, (firstn_exact _ _ _ Hlen), (skipn_exact _ _ _ Hlen).
      split; [|reflexivity]. f_equal. now apply skipn_exact.
  - intros Hbad.
    destruct (readRom_total addr_word length_byte w) as [-> | (Ha & Hn & _)];
      [auto|].
    exfalso. apply Hbad. unfold u32, u16 in *.
    rewrite Z.shiftl_mul_pow2 in Ha by lia. change (2 ^ 1) with 2 in Ha. lia.
Qed.

Lemma read_rom_strips_header_witness :
  let w := World [7; 7; 1; 2; 3; 4; 9] None (fun _ => 0) 0 in
  let o := readRom 0x100 4 w in
  commands (events o) = [CmdReadRom 0x200 4] /\
  result o = Val [1; 2; 3; 4] /\ rx (final o) = [9].
Proof.
  destruct (read_rom_strips_header 0x100 4
              (World [7; 7; 1; 2; 3; 4; 9] None (fun _ => 0) 0)) as [H _].
  destruct (H ltac:(lia) ltac:(lia)) as (Hc & _ & _ & Hfull).
  destruct (Hfull [7; 7] [1; 2; 3; 4] [9] eq_refl eq_refl eq_refl) as [Hr Hf].
  repeat split; assumption.
Defined.

Lemma decode_ram_read_frame a n :
  u32 a -> decode (frame 0xf8 a (le16 n)) = CmdReadRam a n.
Proof.
  intros H. rewrite decode_frame by exact H. cbn [Z.eqb Pos.eqb].
  now rewrite le_value_le16.
Qed.

(** [readRam]: as [readRom], with the byte address sent as it is. *)
Theorem read_ram_strips_header (addr length_byte : Z) (w : world) :
  let o := readRam addr length_byte w in
  (0 <= addr < 2 ^ 32 -> 0 <= length_byte < 65536 ->
   commands (events o) = [CmdReadRam addr length_byte] /\
   result o = Val (skipn 2 (firstn (Z.to_nat (length_byte + 2)) (rx w))) /\
   rx (final o) = skipn (Z.to_nat (length_byte + 2)) (rx w) /\
   forall hdr payload rest,
     rx w = hdr ++ payload ++ rest -> List.length hdr = 2%nat ->
     len payload = length_byte ->
     result o = Val payload /\ rx (final o) = rest) /\
  (~ (0 <= addr < 2 ^ 32 /\ 0 <= length_byte < 65536) ->
   result o = Raise StructError /\ events o = []).
Proof.
  cbv zeta. change (2 ^ 32) with 4294967296. split.
  - intros Ha Hn.
    rewrite readRam_ok by (exact Ha || exact Hn).
    cbn [read_back result events final]. rewrite rx_set_rx.
    split; [|split; [reflexivity|split; [reflexivity|]]].
    + unfold commands. cbn [sent flat_map app map].
      now rewrite decode_ram_read_frame.
    + intros hdr payload rest Hrx Hh Hp.
      assert (Hlen : List.length (hdr ++ payload) = Z.to_nat (length_byte + 2)).
      { rewrite length_app, Hh. unfold len in Hp. lia. }
      rewrite Hrx, app_assoc, (firstn_exact _ _ _ Hlen), (skipn_exact _ _ _ Hlen).
      split; [|reflexivity]. f_equal. now apply skipn_exact.
  - intros Hbad.
    destruct (readRam_total addr length_byte w) as [-> | (Ha & Hn & _)];
      [auto|].
    exfalso. apply Hbad. unfold u32, u16 in *. lia.
Qed.

Lemma read_ram_strips_header_witness :
  let w := World [7; 7; 1; 2; 9] None (fun _ => 0) 0 in
  let o := readRam 0x5555 2 w in
  commands (events o) = [CmdReadRam 0x5555 2] /\
  result o = Val [1; 2] /\ rx (final o) = [9].
Proof.
  destruct (read_ram_strips_header 0x5555 2
              (World [7; 7; 1; 2; 9] None (fun _ => 0) 0)) as [H _].
  destruct (H ltac:(lia) ltac:(lia)) as (Hc & _ & _ & Hfull).
  destruct (Hfull [7; 7] [1; 2] [9] eq_refl eq_refl eq_refl) as [Hr Hf].
  repeat split; assumption.
Defined.

Lemma decode_program_frame a buf data :
  u32 a -> decode (frame 0xf4 a (le16 buf ++ data)) = CmdProgramRom a buf data.
Proof.
  intros H. rewrite decode_frame by exact H. cbn [Z.eqb Pos.eqb].
  change (firstn 2 (le16 buf ++ data)) with (le16 buf).
  now rewrite le_value_le16.
Qed.

Lemma bytes_eqb_one l x :
  bytes_eqb (firstn 1 l) [x] = true <-> exists rest, l = x :: rest.
Proof.
  destruct l as [|y l]; cbn [firstn bytes_eqb].
  - split; [discriminate | intros [rest H]; discriminate].
  - rewrite andb_true_r. split.
    + intros H. apply Z.eqb_eq in H. subst. eauto.
    + intros [rest [= -> _]]. apply Z.eqb_refl.
Qed.

(** [programRom] with a buffer size: one [0xF4] frame with the byte
    address, the buffer size and the data; the result is [True] exactly
    when the one byte read back is [0xAA], and a missing or different
    acknowledgement gives [False], not an error. *)
Theorem program_rom_needs_aa_ack (addr_byte buf : Z) (data : list Z)
  (w : world) :
  0 <= addr_byte < 2 ^ 32 -> 0 <= buf < 65536 -> len data < 65525 ->
  let o := programRom addr_byte (PBytes data) (Some buf) w in
  commands (events o) = [CmdProgramRom addr_byte buf data] /\
  (result o = Val true <-> exists rest, rx w = 0xaa :: rest) /\
  (result o = Val true \/ result o = Val false).
Proof.
  intros Ha Hb Hd. cbv zeta.
  rewrite (programRom_ok addr_byte (PBytes data) data buf w eq_refl)
    by (unfold u16, u32; pose proof (len_nonneg data);
        change (2 ^ 32) with 4294967296 in Ha; lia).
  cbn [programmed result events]. split; [|split].
  - unfold commands. cbn [sent flat_map app map].
    rewrite decode_program_frame; [reflexivity|].
    unfold u32. change (2 ^ 32) with 4294967296 in Ha. lia.
  - pose proof (bytes_eqb_one (rx w) 0xaa) as [H1 H2]. split.
    + intros [= E]. apply H1. exact E.
    + intros E. rewrite (H2 E). reflexivity.
  - destruct (bytes_eqb _ _); auto.
Qed.

Lemma program_rom_needs_aa_ack_witness :
  let o := programRom 0x800 (PBytes [1; 2; 3; 4]) (Some 2048)
             (World [0xaa] None (fun _ => 0) 0) in
  commands (events o) = [CmdProgramRom 0x800 2048 [1; 2; 3; 4]] /\
  (result o = Val true <-> exists rest, [0xaa] = 0xaa :: rest) /\
  (result o = Val true \/ result o = Val false).
Proof.
  apply (program_rom_needs_aa_ack 0x800 2048 [1; 2; 3; 4]
           (World [0xaa] None (fun _ => 0) 0)); cbn; lia.
Defined.

(** [sram_bank_select] for bank 0 or 1: the bank index is written to
    word [0x800000], then the mode is set with control [0x7] and the
    bank in bit 3, that is the configuration [0x70 | (bank << 3)]. *)
Theorem sram_bank_select_writes (bank : Z) (w : world) :
  0 <= bank <= 1 ->
  let o := sram_bank_select bank w in
  let magic := Z.shiftr 0x01FFFFFE 1 in
  let config := Z.lor 0x70 (Z.shiftl bank 3) in
  result o = Val true /\
  commands (events o) =
  [word_write 0x800000 bank; word_write magic 0xA55A; word_write magic 0xA55A;
   word_write magic config; word_write magic config].
Proof.
  intros Hb o magic config. subst o. unfold sram_bank_select.
  rewrite (bind_val _ _ _ _ _ _
             (writeRom_int 0x800000 bank w ltac:(unfold u32; lia)
                           ltac:(unfold u16; lia))).
  assert (Hc : sc_config 0 0 0 bank (Z.lxor 0xF (Z.shiftl 1 3)) = config).
  { assert (bank = 0 \/ bank = 1) as [-> | ->] by lia; reflexivity. }
  rewrite set_sc_mode_run
    by (rewrite Hc; subst config;
        assert (bank = 0 \/ bank = 1) as [-> | ->] by lia; unfold u16; cbn; lia).
  rewrite prepend_out. cbn [result events]. split; [reflexivity|].
  rewrite Hc. unfold commands. rewrite sent_app, sent_acked.
  cbn [sent flat_map app map].
  rewrite !decode_word_write by range_solve. reflexivity.
Qed.

Lemma sram_bank_select_writes_witness :
  let o := sram_bank_select 1 (World [] None (fun _ => 0) 0) in
  result o = Val true /\
  commands (events o) =
  [word_write 0x800000 1; word_write 0xFFFFFF 0xA55A;
   word_write 0xFFFFFF 0xA55A; word_write 0xFFFFFF 0x78;
   word_write 0xFFFFFF 0x78].
Proof.
  apply (sram_bank_select_writes 1). lia.
Defined.

(* ================================================================= *)
(** ** What a plan emits *)

(** [emits P m]: whatever the world, every event of [m] passes [P]. *)
Definition emits (P : event -> bool) {A} (m : M A) : Prop :=
  forall w, forallb P (events (m w)) = true.

(** Every event but [finished_signal]. *)
Definition not_finished (e : event) : bool :=
  match e with
  | Finished _ _ => false
  | _ => true
  end.

(** Every event but a read of the cancel flag. *)
Definition not_poll (e : event) : bool :=
  match e with
  | Poll _ => false
  | _ => true
  end.

(** A trace that ends with its only [Finished], for [port]. *)
Definition ends_reported (port : string) (t : trace) : Prop :=
  exists t0 ok, t = t0 ++ [Finished port ok] /\ forallb not_finished t0 = true.

(** [m] emits [Finished] only as its last event, and exactly when it
    returns out of the enclosing [run]. *)
Definition reports_last (port : string) {A} (m : M A) : Prop :=
  forall w,
    match result (m w) with
    | Return => ends_reported port (events (m w))
    | _ => forallb not_finished (events (m w)) = true
    end.


Section Emits.
Variable P : event -> bool.

Lemma emits_keeps {A} (m : M A) : keeps P m -> emits P m.
Proof. intros H w. apply H. Qed.

Lemma emits_ret {A} (a : A) : emits P (ret a).
Proof. intros w. reflexivity. Qed.

Lemma emits_raise {A} e : emits P (@raise A e).
Proof. intros w. reflexivity. Qed.

Lemma emits_return {A} : emits P (@py_return A).
Proof. intros w. reflexivity. Qed.

Lemma emits_diverge {A} : emits P (@diverge A).
Proof. intros w. reflexivity. Qed.

Lemma emits_emit e : P e = true -> emits P (emit e).
Proof. intros H w. cbn. now rewrite H. Qed.

Lemma emits_running :
  P (Poll true) = true -> P (Poll false) = true -> emits P running.
Proof.
  intros Ht Hf w. unfold running. destruct (stop_in w) as [[|n]|]; cbn;
    rewrite ?Ht, ?Hf; reflexivity.
Qed.

Lemma emits_bind {A B} (m : M A) (k : A -> M B) :
  emits P m -> (forall a, emits P (k a)) -> emits P (bind m k).
Proof.
  intros Hm Hk w. unfold bind. pose proof (Hm w) as E.
  destruct (m w) as [[a| |e|] t w']; cbn [result events final] in *; auto.
  rewrite forallb_app, E. apply Hk.
Qed.

Lemma emits_for_each {X} (l : list X) (f : X -> M unit) :
  (forall x, emits P (f x)) -> emits P (for_each l f).
Proof.
  intros Hf. induction l as [|x l IH]; cbn [for_each];
    [apply emits_ret | apply emits_bind; auto].
Qed.

Lemma emits_fold_m {X S} (l : list X) (f : S -> X -> M S) s :
  (forall s x, emits P (f s x)) -> emits P (fold_m l f s).
Proof.
  intros Hf. revert s. induction l as [|x l IH]; intros s; cbn [fold_m];
    [apply emits_ret | apply emits_bind; auto].
Qed.

Lemma emits_while {S} fuel (cond : S -> M bool) (body : S -> M S) s :
  (forall s, emits P (cond s)) -> (forall s, emits P (body s)) ->
  emits P (while_loop fuel cond body s).
Proof.
  intros Hc Hb. revert s. induction fuel as [|fuel IH]; intros s;
    cbn [while_loop]; [apply emits_diverge|].
  apply emits_bind; [apply Hc|]. intros [|]; [|apply emits_ret].
  apply emits_bind; auto.
Qed.

Lemma emits_try body handler :
  emits P body -> (forall e, emits P (handler e)) ->
  emits P (try_except body handler).
Proof.
  intros Hb Hh w. unfold try_except. pose proof (Hb w) as E.
  destruct (body w) as [[a| |e|] t w']; cbn [result events final] in *; auto.
  rewrite forallb_app, E. apply Hh.
Qed.
End Emits.

Lemma io_not_finished e : is_io e = true -> not_finished e = true.
Proof. now destruct e. Qed.

Lemma io_not_poll e : is_io e = true -> not_poll e = true.
Proof. now destruct e. Qed.

Lemma ends_reported_after port t1 t2 :
  forallb not_finished t1 = true -> ends_reported port t2 ->
  ends_reported port (t1 ++ t2).
Proof.
  intros H1 (t0 & ok & -> & H0). exists (t1 ++ t0), ok.
  split; [now rewrite app_assoc|]. now rewrite forallb_app, H1, H0.
Qed.

Section Reports.
Variable port : string.

Lemma reports_keeps {A} (m : M A) : keeps not_finished m -> reports_last port m.
Proof.
  intros H w. destruct (H w) as (E & _ & R).
  destruct (result (m w)); auto. contradiction.
Qed.

Lemma reports_ret {A} (a : A) : reports_last port (ret a).
Proof. intros w. reflexivity. Qed.

Lemma reports_raise {A} e : reports_last port (@raise A e).
Proof. intros w. reflexivity. Qed.

Lemma reports_emit e : not_finished e = true -> reports_last port (emit e).
Proof. intros H w. cbn. now rewrite H. Qed.

Lemma reports_running : reports_last port running.
Proof. intros w. unfold running. destruct (stop_in w) as [[|n]|]; reflexivity. Qed.

Lemma reports_cancel m b :
  reports_last port (log port m ;; finished port b ;; @py_return unit).
Proof.
  intros w. cbn. exists [Log port m], b. split; reflexivity.
Qed.

Lemma reports_bind {A B} (m : M A) (k : A -> M B) :
  reports_last port m -> (forall a, reports_last port (k a)) ->
  reports_last port (bind m k).
Proof.
  intros Hm Hk w. unfold bind. pose proof (Hm w) as E.
  destruct (m w) as [[a| |e|] t w']; cbn [result events final] in *; auto.
  pose proof (Hk a w') as E'.
  destruct (result (k a w')); cbn [result events];
    first [ now apply ends_reported_after
          | rewrite forallb_app, E; exact E' ].
Qed.

Lemma reports_for_each {X} (l : list X) (f : X -> M unit) :
  (forall x, reports_last port (f x)) -> reports_last port (for_each l f).
Proof.
  intros Hf. induction l as [|x l IH]; cbn [for_each];
    [apply reports_ret | apply reports_bind; auto].
Qed.

Lemma reports_fold_m {X S} (l : list X) (f : S -> X -> M S) s :
  (forall s x, reports_last port (f s x)) -> reports_last port (fold_m l f s).
Proof.
  intros Hf. revert s. induction l as [|x l IH]; intros s; cbn [fold_m];
    [apply reports_ret | apply reports_bind; auto].
Qed.





End Reports.

(* ================================================================= *)
(** ** Every operation ends *)

(** [returns Q m]: the values [m] can end with satisfy [Q]. *)
Definition returns {A} (Q : A -> Prop) (m : M A) : Prop :=
  forall w a, result (m w) = Val a -> Q a.

Lemma returns_ret {A} (Q : A -> Prop) a : Q a -> returns Q (ret a).
Proof. intros H w a' [= <-]. exact H. Qed.

Lemma returns_bind {A B} (Q : B -> Prop) (m : M A) (k : A -> M B) :
  (forall a, returns Q (k a)) -> returns Q (bind m k).
Proof.
  intros Hk w b. unfold bind. destruct (m w) as [[a| |e|] t w'];
    cbn [result events final]; try discriminate. apply Hk.
Qed.

Lemma halts_ret {A} (a : A) : halts (ret a).
Proof. intros w. discriminate. Qed.

Lemma halts_raise {A} e : halts (@raise A e).
Proof. intros w. discriminate. Qed.

Lemma halts_return {A} : halts (@py_return A).
Proof. intros w. discriminate. Qed.

Lemma halts_emit e : halts (emit e).
Proof. intros w. discriminate. Qed.

Lemma halts_get_world : halts get_world.
Proof. intros w. discriminate. Qed.

Lemma halts_running : halts running.
Proof. intros w. unfold running. destruct (stop_in w) as [[|n]|]; discriminate. Qed.

Lemma halts_randint a b : halts (randint a b).
Proof. intros w. unfold randint. destruct (b <? a); discriminate. Qed.

Lemma halts_ser_read n : halts (ser_read n).
Proof. intros w. discriminate. Qed.

Lemma halts_bind {A B} (m : M A) (k : A -> M B) :
  halts m -> (forall a, halts (k a)) -> halts (bind m k).
Proof.
  intros Hm Hk w. unfold bind. pose proof (Hm w) as E.
  destruct (m w) as [[a| |e|] t w']; cbn [result events final] in *;
    try discriminate; [apply Hk | now contradiction E].
Qed.

Lemma halts_for_each {X} (l : list X) (f : X -> M unit) :
  (forall x, halts (f x)) -> halts (for_each l f).
Proof.
  intros Hf. induction l as [|x l IH]; cbn [for_each];
    [apply halts_ret | apply halts_bind; auto].
Qed.

Lemma halts_fold_m {X S} (l : list X) (f : S -> X -> M S) s :
  (forall s x, halts (f s x)) -> halts (fold_m l f s).
Proof.
  intros Hf. revert s. induction l as [|x l IH]; intros s; cbn [fold_m];
    [apply halts_ret | apply halts_bind; auto].
Qed.


Lemma halts_pack_B v : halts (pack_B v).
Proof. unfold pack_B. destruct (_ && _); [apply halts_ret|apply halts_raise]. Qed.

Lemma halts_pack_H v : halts (pack_H v).
Proof. unfold pack_H. destruct (_ && _); [apply halts_ret|apply halts_raise]. Qed.

Lemma halts_pack_I v : halts (pack_I v).
Proof. unfold pack_I. destruct (_ && _); [apply halts_ret|apply halts_raise]. Qed.

Lemma halts_unpack_H data : halts (unpack_H data).
Proof.
  unfold unpack_H. destruct data as [|b0 [|b1 [|b2 l]]];
    first [apply halts_ret | apply halts_raise].
Qed.

Lemma halts_floordiv a b : halts (floordiv a b).
Proof. unfold floordiv. destruct (b =? 0); [apply halts_raise|apply halts_ret]. Qed.


Ltac halts_step :=
  first
    [ apply halts_ret | apply halts_raise | apply halts_return
    | apply halts_emit | apply halts_get_world | apply halts_running
    | apply halts_randint | apply halts_ser_read
    | apply halts_pack_B | apply halts_pack_H | apply halts_pack_I
    | apply halts_unpack_H | apply halts_floordiv
    | apply halts_bind; [|intros ?]
    | apply halts_for_each; intros ?
    | apply halts_fold_m; intros ? ?
    | match goal with
      | |- halts (if ?c then _ else _) => destruct c
      | |- halts (match ?x with PInt _ => _ | PBytes _ => _ end) => destruct x
      | |- halts (match ?x with Some _ => _ | None => _ end) => destruct x
      | |- halts (let '(_, _) := ?x in _) => destruct x
      end ].

Ltac halts_auto := repeat halts_step.

Lemma halts_writeRom a d : halts (writeRom a d).
Proof. unfold writeRom, ser_write. halts_auto. Qed.

Lemma halts_readRom a n : halts (readRom a n).
Proof. unfold readRom, ser_write. halts_auto. Qed.

Lemma halts_writeRam a d : halts (writeRam a d).
Proof. unfold writeRam, ser_write. halts_auto. Qed.

Lemma halts_readRam a n : halts (readRam a n).
Proof. unfold readRam, ser_write. halts_auto. Qed.

Lemma halts_set_sc_mode a b c d e : halts (set_sc_mode a b c d e).
Proof.
  unfold set_sc_mode. cbv zeta.
  repeat (apply halts_bind; [apply halts_writeRom | intros ?]).
  apply halts_ret.
Qed.

Lemma halts_sram_bank_select bank : halts (sram_bank_select bank).
Proof.
  unfold sram_bank_select.
  apply halts_bind; [apply halts_writeRom | intros ?; apply halts_set_sc_mode].
Qed.

Lemma halts_set_flashmapping mapping : halts (set_flashmapping mapping).
Proof.
  unfold set_flashmapping. destruct (negb _); [apply halts_raise|]. cbv zeta.
  apply halts_bind; [|intros ?; apply halts_ret].
  apply halts_for_each. intros i.
  repeat (apply halts_bind; [apply halts_writeRom | intros ?]).
  apply halts_ret.
Qed.

Lemma halts_getRomCFI : halts getRomCFI.
Proof.
  unfold getRomCFI.
  apply halts_bind; [apply halts_writeRom | intros ?].
  apply halts_bind; [apply halts_readRom | intros ?].
  apply halts_bind; [apply halts_writeRom | intros ?].
  halts_auto.
Qed.

(** A polling loop ends once its fuel exceeds the bytes still to come:
    a round that goes on has read four of them. *)
Lemma poll_until_halts fuel ms a w :
  (List.length (rx w) < fuel)%nat -> result (poll_until fuel ms a w) <> Diverge.
Proof.
  revert w. induction fuel as [|fuel IH]; intros w Hf; [lia|].
  cbn [poll_until].
  destruct (readRom_total a 2 w) as [E | (Ha & Hn & E)].
  { rewrite (bind_raise _ _ _ _ _ _ E). discriminate. }
  rewrite (bind_val _ _ _ _ _ _ E). cbn [prepend result].
  change (Z.to_nat (2 + 2)) with 4%nat.
  set (d := firstn 4 (rx w)). set (w1 := set_rx w (skipn 4 (rx w))).
  destruct (word_of d) as [v|] eqn:Hw.
  - destruct (word_of_some _ _ Hw) as (h0 & h1 & b0 & b1 & Hd & Hv).
    rewrite Hd. cbn [skipn].
    rewrite (bind_pure _ _ _ _ (unpack_H_pair b0 b1 w1)).
    destruct (_ =? _); [discriminate|].
    rewrite (bind_val _ _ _ _ _ _ (sleep_ms_run ms w1)). cbn [prepend result].
    apply IH. subst w1. rewrite rx_set_rx, length_skipn.
    pose proof (firstn_4_full _ _ _ _ _ Hd). lia.
  - assert (Hu : unpack_H (skipn 2 d) w1 = Out (Raise StructError) [] w1).
    { unfold word_of in Hw. unfold unpack_H.
      destruct (skipn 2 d) as [|b0 [|b1 [|b2 l]]]; try reflexivity.
      discriminate. }
    rewrite (bind_raise _ _ _ _ _ _ Hu). discriminate.
Qed.

Lemma halts_polling {A} ms a (k : unit -> M A) :
  (forall u, halts (k u)) ->
  halts (fuel <- poll_fuel ;; poll_until fuel ms a ;; k tt).
Proof.
  intros Hk w. rewrite (bind_pure _ _ _ _ (poll_fuel_run w)).
  unfold bind.
  pose proof (poll_until_halts (S (List.length (rx w))) ms a w
                (Nat.lt_succ_diag_r _)) as E.
  destruct (poll_until _ ms a w) as [[[]| |e|] t w']; cbn [result events final] in *;
    try discriminate; [apply Hk | now contradiction E].
Qed.

Lemma halts_eraseSector a s : halts (eraseSector a s).
Proof.
  unfold eraseSector.
  repeat (apply halts_bind; [apply halts_writeRom | intros ?]).
  apply halts_bind; [apply halts_emit | intros ?].
  intros w.
  pose proof (halts_polling 100 a (fun _ => ret true)
                (fun _ => halts_ret true) w) as H.
  rewrite (bind_pure _ _ _ _ (poll_fuel_run w)) in *.
  unfold bind in *. rewrite eraseSector_poll_eq. exact H.
Qed.

Lemma halts_eraseChip : halts eraseChip.
Proof.
  unfold eraseChip.
  repeat (apply halts_bind; [apply halts_writeRom | intros ?]).
  apply halts_bind; [apply halts_emit | intros ?].
  intros w.
  pose proof (halts_polling 500 0 (fun _ => ret true)
                (fun _ => halts_ret true) w) as H.
  rewrite (bind_pure _ _ _ _ (poll_fuel_run w)) in *.
  unfold bind in *. rewrite eraseChip_poll_eq. exact H.
Qed.

Lemma halts_unlockPPB : halts unlockPPB.
Proof.
  unfold unlockPPB.
  apply halts_bind; [apply halts_set_flashmapping | intros ?].
  repeat (apply halts_bind; [apply halts_writeRom | intros ?]).
  apply halts_bind; [apply halts_emit | intros ?].
  intros w. rewrite (bind_pure _ _ _ _ (poll_fuel_run w)).
  pose proof (unlockPPB_poll_spec (S (List.length (rx w))) w
                (Nat.lt_succ_diag_r _)) as Hs.
  cbv zeta in Hs. destruct Hs as (rounds & last & _ & _ & _ & Hr).
  unfold bind at 1.
  destruct (unlockPPB_poll (S (List.length (rx w))) w) as [r t w'].
  cbn [result events final] in *.
  destruct Hr as [[_ ->] | [_ ->]]; [|discriminate].
  cbn [result].
  assert (Hx : halts (writeRom 0 (PInt 144);; writeRom 0 (PInt 0);;
                      writeRom 0 (PInt 240);; ret true)).
  { repeat (apply halts_bind; [apply halts_writeRom | intros ?]).
    apply halts_ret. }
  apply Hx.
Qed.

Lemma halts_programRom a d b : halts (programRom a d b).
Proof.
  unfold programRom, ser_write.
  apply halts_bind; [destruct d; [apply halts_pack_H | apply halts_ret]|].
  intros data. apply halts_bind.
  { destruct b; [apply halts_ret|].
    apply halts_bind; [apply halts_getRomCFI | intros ?; apply halts_ret]. }
  intros buf. halts_auto.
Qed.

Lemma halts_eraseFlashMetadata : halts eraseFlashMetadata.
Proof.
  unfold eraseFlashMetadata.
  apply halts_bind; [apply halts_set_flashmapping | intros ?]. cbv zeta.
  apply halts_bind; [apply halts_getRomCFI | intros ?].
  apply halts_bind; [apply halts_floordiv | intros ?].
  apply halts_bind; [|intros ?; apply halts_ret].
  apply halts_for_each. intros i.
  apply halts_bind; [apply halts_eraseSector | intros ?; apply halts_ret].
Qed.

(* ================================================================= *)
(** ** The workers report once, and last *)



Lemma halts_sleep_ms ms : halts (sleep_ms ms).
Proof. apply halts_emit. Qed.

Lemma halts_and_running flag : halts (and_running flag).
Proof. destruct flag; [apply halts_running | apply halts_ret]. Qed.

Lemma halts_switch_segment pos seg note :
  (forall a b, halts (note a b)) -> halts (switch_segment pos seg note).
Proof.
  intros Hn. unfold switch_segment. cbv zeta. destruct (negb _).
  - apply halts_bind; [apply halts_set_flashmapping | intros ?].
    apply halts_bind; [apply Hn | intros ?; apply halts_ret].
  - apply halts_ret.
Qed.

(** The closure rules for [halts], over the driver and the plans,
    chosen by the head of the computation. *)
Ltac ends_step :=
  lazymatch goal with
  | |- halts (bind _ _) => apply halts_bind; [|intros ?]
  | |- halts (ret _) => apply halts_ret
  | |- halts (raise _) => apply halts_raise
  | |- halts py_return => apply halts_return
  | |- halts (emit _) => apply halts_emit
  | |- halts (log _ _) => apply halts_emit
  | |- halts (progress _ _) => apply halts_emit
  | |- halts (finished _ _) => apply halts_emit
  | |- halts running => apply halts_running
  | |- halts (and_running _) => apply halts_and_running
  | |- halts (sleep_ms _) => apply halts_sleep_ms
  | |- halts (randint _ _) => apply halts_randint
  | |- halts (floordiv _ _) => apply halts_floordiv
  | |- halts (writeRom _ _) => apply halts_writeRom
  | |- halts (readRom _ _) => apply halts_readRom
  | |- halts (writeRam _ _) => apply halts_writeRam
  | |- halts (readRam _ _) => apply halts_readRam
  | |- halts (set_sc_mode _ _ _ _ _) => apply halts_set_sc_mode
  | |- halts (sram_bank_select _) => apply halts_sram_bank_select
  | |- halts (set_flashmapping _) => apply halts_set_flashmapping
  | |- halts getRomCFI => apply halts_getRomCFI
  | |- halts (eraseSector _ _) => apply halts_eraseSector
  | |- halts eraseChip => apply halts_eraseChip
  | |- halts unlockPPB => apply halts_unlockPPB
  | |- halts (programRom _ _ _) => apply halts_programRom
  | |- halts eraseFlashMetadata => apply halts_eraseFlashMetadata
  | |- halts (switch_segment _ _ _) => apply halts_switch_segment; intros ? ?
  | |- halts (for_each _ _) => apply halts_for_each; intros ?
  | |- halts (fold_m _ _ _) => apply halts_fold_m; intros ? ?
  | |- halts (if ?c then _ else _) => destruct c
  | |- halts (let '(_, _) := ?x in _) => destruct x
  end.

Ltac ends_auto := repeat ends_step.

Section PlanReports.
Variable port : string.

Lemma reports_log m : reports_last port (log port m).
Proof. apply reports_emit. reflexivity. Qed.

Lemma reports_progress pct : reports_last port (progress port pct).
Proof. apply reports_emit. reflexivity. Qed.

Lemma reports_and_running flag : reports_last port (and_running flag).
Proof. destruct flag; [apply reports_running | apply reports_ret]. Qed.

Lemma reports_switch_segment pos seg note :
  (forall a b, reports_last port (note a b)) ->
  reports_last port (switch_segment pos seg note).
Proof.
  intros Hn. unfold switch_segment. cbv zeta. destruct (negb _).
  - apply reports_bind;
      [apply reports_keeps, keeps_set_flashmapping, io_not_finished | intros ?].
    apply reports_bind; [apply Hn | intros ?; apply reports_ret].
  - apply reports_ret.
Qed.
End PlanReports.

(** The closure rules for [reports_last], over the driver and the
    plans, chosen by the head of the computation. *)
Ltac reports_step :=
  lazymatch goal with
  | |- reports_last _ (bind (log _ _)
                         (fun _ => bind (finished _ _) (fun _ => py_return))) =>
      apply reports_cancel
  | |- reports_last _ (bind _ _) => apply reports_bind; [|intros ?]
  | |- reports_last _ (ret _) => apply reports_ret
  | |- reports_last _ (raise _) => apply reports_raise
  | |- reports_last _ running => apply reports_running
  | |- reports_last _ (and_running _) => apply reports_and_running
  | |- reports_last _ (log _ _) => apply reports_log
  | |- reports_last _ (progress _ _) => apply reports_progress
  | |- reports_last _ (emit _) => apply reports_emit; reflexivity
  | |- reports_last _ (switch_segment _ _ _) =>
      apply reports_switch_segment; intros ? ?
  | |- reports_last _ (for_each _ _) => apply reports_for_each; intros ?
  | |- reports_last _ (fold_m _ _ _) => apply reports_fold_m; intros ? ?
  | |- reports_last _ (if ?c then _ else _) => destruct c
  | |- reports_last _ (let '(_, _) := ?x in _) => destruct x
  | |- reports_last _ _ =>
      apply reports_keeps;
      lazymatch goal with
      | |- keeps _ (writeRom _ _) => apply keeps_writeRom
      | |- keeps _ (readRom _ _) => apply keeps_readRom
      | |- keeps _ (writeRam _ _) => apply keeps_writeRam
      | |- keeps _ (readRam _ _) => apply keeps_readRam
      | |- keeps _ (set_sc_mode _ _ _ _ _) => apply keeps_set_sc_mode
      | |- keeps _ (sram_bank_select _) => apply keeps_sram_bank_select
      | |- keeps _ (set_flashmapping _) => apply keeps_set_flashmapping
      | |- keeps _ getRomCFI => apply keeps_getRomCFI
      | |- keeps _ (eraseSector _ _) => apply keeps_eraseSector
      | |- keeps _ eraseChip => apply keeps_eraseChip
      | |- keeps _ (programRom _ _ _) => apply keeps_programRom
      | |- keeps _ unlockPPB => apply keeps_unlockPPB
      | |- keeps _ eraseFlashMetadata => apply keeps_eraseFlashMetadata
      | |- keeps _ (sleep_ms _) => apply keeps_sleep_ms
      | |- keeps _ (floordiv _ _) => apply keeps_floordiv
      | |- keeps _ (randint _ _) => apply keeps_randint
      end;
      exact io_not_finished
  end.

Ltac reports_auto := repeat reports_step.

Section WorkersReport.
Variable port : string.

Lemma reports_qa_steps config test_count ppt ct :
  reports_last port (qa_sram_basic port config test_count ppt ct) /\
  reports_last port (qa_sram_full port config test_count ppt ct) /\
  reports_last port (qa_ppb_unlock port config test_count ppt ct) /\
  reports_last port (qa_flash port config test_count ppt ct) /\
  reports_last port (qa_ram_flash port config test_count ppt ct).
Proof.
  unfold qa_sram_basic, qa_sram_full, qa_ppb_unlock, qa_flash, qa_ram_flash,
    qa_fast_flash, qa_erase_blank.
  cbv zeta. split; [|split; [|split; [|split]]]; reports_auto.
Qed.

Lemma halts_qa_steps config test_count ppt ct :
  halts (qa_sram_basic port config test_count ppt ct) /\
  halts (qa_sram_full port config test_count ppt ct) /\
  halts (qa_ppb_unlock port config test_count ppt ct) /\
  halts (qa_flash port config test_count ppt ct) /\
  halts (qa_ram_flash port config test_count ppt ct).
Proof.
  unfold qa_sram_basic, qa_sram_full, qa_ppb_unlock, qa_flash, qa_ram_flash,
    qa_fast_flash, qa_erase_blank.
  cbv zeta. split; [|split; [|split; [|split]]]; ends_auto.
Qed.
















End WorkersReport.


(* ================================================================= *)
(** ** Cancelling a run *)

(** The closure rules for [emits P], given that [P] accepts the traffic
    on the port and the sleeps; the goals [P e = true] of the plan's own
    events are left to computation. *)
Ltac emits_step io :=
  lazymatch goal with
  | |- emits _ (bind _ _) => apply emits_bind; [|intros ?]
  | |- emits _ (ret _) => apply emits_ret
  | |- emits _ (raise _) => apply emits_raise
  | |- emits _ py_return => apply emits_return
  | |- emits _ (log _ _) => apply emits_emit; reflexivity
  | |- emits _ (progress _ _) => apply emits_emit; reflexivity
  | |- emits _ (finished _ _) => apply emits_emit; reflexivity
  | |- emits _ (emit _) => apply emits_emit; reflexivity
  | |- emits _ running => apply emits_running; reflexivity
  | |- emits _ (and_running _) => unfold and_running
  | |- emits _ (switch_segment _ _ _) => unfold switch_segment; cbv zeta
  | |- emits _ (for_each _ _) => apply emits_for_each; intros ?
  | |- emits _ (fold_m _ _ _) => apply emits_fold_m; intros ? ?
  | |- emits _ (try_except _ _) => apply emits_try; [|intros ?]
  | |- emits _ (if ?c then _ else _) => destruct c
  | |- emits _ (let '(_, _) := ?x in _) => destruct x
  | |- emits _ _ =>
      apply emits_keeps;
      lazymatch goal with
      | |- keeps _ (writeRom _ _) => apply keeps_writeRom
      | |- keeps _ (readRom _ _) => apply keeps_readRom
      | |- keeps _ (writeRam _ _) => apply keeps_writeRam
      | |- keeps _ (readRam _ _) => apply keeps_readRam
      | |- keeps _ (set_sc_mode _ _ _ _ _) => apply keeps_set_sc_mode
      | |- keeps _ (sram_bank_select _) => apply keeps_sram_bank_select
      | |- keeps _ (set_flashmapping _) => apply keeps_set_flashmapping
      | |- keeps _ getRomCFI => apply keeps_getRomCFI
      | |- keeps _ (eraseSector _ _) => apply keeps_eraseSector
      | |- keeps _ eraseChip => apply keeps_eraseChip
      | |- keeps _ (programRom _ _ _) => apply keeps_programRom
      | |- keeps _ unlockPPB => apply keeps_unlockPPB
      | |- keeps _ eraseFlashMetadata => apply keeps_eraseFlashMetadata
      | |- keeps _ (sleep_ms _) => apply keeps_sleep_ms
      | |- keeps _ (floordiv _ _) => apply keeps_floordiv
      | |- keeps _ (randint _ _) => apply keeps_randint
      end;
      exact io
  end.

Ltac emits_auto io := repeat emits_step io.

Lemma ResetNorWorker_run_never_polls port :
  emits not_poll (ResetNorWorker_run port).
Proof.
  unfold ResetNorWorker_run. cbv zeta. emits_auto io_not_poll.
Qed.

(** The Reset-NOR run never reads the cancel flag: no [stop()] reaches
    it, from the mode set to the blank check of the metadata. *)
Theorem reset_nor_never_reads_cancel_flag port w :
  forallb not_poll (events (ResetNorWorker_run port w)) = true.
Proof. apply ResetNorWorker_run_never_polls. Qed.

(** A quality check cancelled before its first step skips every step:
    each enabled step reads the flag once and is passed over, nothing is
    sent to the cartridge, and the run still reports progress 100 and
    success. *)
Theorem qa_cancelled_at_start_reports_success port config w :
  test_count_of config <> 0 ->
  stop_in w = Some 0%nat ->
  QualityCheckWorker_run port config w =
  Out (Val tt)
      (Log port MQaStart
       :: repeat (Poll false) (Z.to_nat (test_count_of config))
       ++ [Progress port 100; Log port MQaDone; Finished port true])
      w.
Proof.
  intros Hc Hs. destruct w as [rx0 stop0 rand0 ix0]. cbn in Hs. subst stop0.
  destruct config as [[|] [|] [|] [|] [|] [|]];
    first [ now contradiction Hc | vm_compute; reflexivity ].
Qed.

Lemma qa_cancelled_at_start_reports_success_witness :
  QualityCheckWorker_run "COM3" default_config
    (World [] (Some 0%nat) (fun _ => 0) 0) =
  Out (Val tt)
      [Log "COM3" MQaStart; Poll false; Poll false; Progress "COM3" 100;
       Log "COM3" MQaDone; Finished "COM3" true]
      (World [] (Some 0%nat) (fun _ => 0) 0).
Proof.
  apply (qa_cancelled_at_start_reports_success "COM3" default_config
           (World [] (Some 0%nat) (fun _ => 0) 0)).
  - vm_compute. discriminate.
  - reflexivity.
Defined.

(** [succeeds_with tail m]: [m] ends by raising, or normally with
    [tail] as its last events. *)
Definition succeeds_with (tail : trace) {A} (m : M A) : Prop :=
  forall w,
    match result (m w) with
    | Val _ => exists t, events (m w) = t ++ tail
    | Raise _ => True
    | _ => False
    end.

Lemma succeeds_bind tail {A B} (m : M A) (k : A -> M B) :
  emits not_finished m -> (exists port, reports_last port m) -> halts m ->
  (forall a, succeeds_with tail (k a)) -> succeeds_with tail (bind m k).
Proof.
  intros He [port Hr] Hh Hk w. unfold bind.
  pose proof (He w) as E. pose proof (Hr w) as R. pose proof (Hh w) as D.
  destruct (m w) as [[a| |e|] t w1]; cbn [result events final] in *.
  - pose proof (Hk a w1) as K.
    destruct (k a w1) as [[b| |e|] t' w2]; cbn [result events final] in *;
      auto.
    destruct K as [t0 ->]. exists (t ++ t0). now rewrite app_assoc.
  - destruct R as (t0 & ok & -> & _). rewrite forallb_app in E.
    cbn in E. rewrite andb_false_r in E. discriminate.
  - exact I.
  - now contradiction D.
Qed.

Lemma qa_steps_unreported port config test_count ppt ct :
  emits not_finished (qa_sram_basic port config test_count ppt ct) /\
  emits not_finished (qa_sram_full port config test_count ppt ct) /\
  emits not_finished (qa_ppb_unlock port config test_count ppt ct) /\
  emits not_finished (qa_flash port config test_count ppt ct) /\
  emits not_finished (qa_ram_flash port config test_count ppt ct).
Proof.
  unfold qa_sram_basic, qa_sram_full, qa_ppb_unlock, qa_flash, qa_ram_flash,
    qa_fast_flash, qa_erase_blank.
  cbv zeta. split; [|split; [|split; [|split]]]; emits_auto io_not_finished.
Qed.

Lemma qa_steps_succeed port config :
  test_count_of config <> 0 ->
  succeeds_with [Progress port 100; Log port MQaDone; Finished port true]
    (log port MQaStart ;;
     let test_count := test_count_of config in
     if test_count =? 0 then
       log port MNoTests ;; finished port false ;; py_return
     else
       let current_test := 0 in
       let progress_per_test := truediv 100 test_count in
       current_test <-
         qa_sram_basic port config test_count progress_per_test current_test ;;
       current_test <-
         qa_sram_full port config test_count progress_per_test current_test ;;
       current_test <-
         qa_ppb_unlock port config test_count progress_per_test current_test ;;
       current_test <-
         qa_flash port config test_count progress_per_test current_test ;;
       current_test <-
         qa_ram_flash port config test_count progress_per_test current_test ;;
       progress port 100 ;;
       log port MQaDone ;;
       finished port true).
Proof.
  intros Hc. cbv zeta.
  apply succeeds_bind;
    [ apply emits_emit; reflexivity | exists port; apply reports_log
    | apply halts_emit | intros _ ].
  destruct (Z.eqb_spec (test_count_of config) 0) as [E|_]; [contradiction|].
  do 5 (apply succeeds_bind;
        [ apply qa_steps_unreported | exists port; apply reports_qa_steps
        | apply halts_qa_steps | intros ? ]).
  intros w. cbn. now exists [].
Qed.

(** The quality check has no cancelled outcome.  With a step enabled, a
    run either passes through its last three events, progress 100, the
    completion log and [finished(True)], whether or not a cancel
    request made it skip steps, or logs an exception and reports
    [finished(False)]. *)
Theorem qa_fails_only_by_exception port config w :
  test_count_of config <> 0 ->
  let o := QualityCheckWorker_run port config w in
  (exists t,
      events o = t ++ [Progress port 100; Log port MQaDone; Finished port true])
  \/
  (exists t e,
      events o = t ++ [Log port (MQaFailed e); Finished port false]).
Proof.
  intros Hc. cbv zeta. unfold QualityCheckWorker_run, try_except.
  pose proof (qa_steps_succeed port config Hc w) as H. cbv zeta in H.
  match goal with
  | H : match result ?o with _ => _ end |- _ =>
      destruct o as [[[]| |e|] t w1]; cbn [result events final] in *
  end.
  - left. exact H.
  - contradiction.
  - right. exists t, e. reflexivity.
  - contradiction.
Qed.

Lemma qa_fails_only_by_exception_witness :
  let o := QualityCheckWorker_run "COM3" default_config
             (World [] None (fun _ => 0) 0) in
  (exists t,
      events o = t ++ [Progress "COM3" 100; Log "COM3" MQaDone;
                       Finished "COM3" true])
  \/
  (exists t e,
      events o = t ++ [Log "COM3" (MQaFailed e); Finished "COM3" false]).
Proof.
  apply (qa_fails_only_by_exception "COM3" default_config
           (World [] None (fun _ => 0) 0)).
  vm_compute. discriminate.
Defined.

(** The frames of a mode set with the configuration byte [config]. *)
Definition mode_frames (config : Z) : list (list Z) :=
  let magic := Z.shiftr MAGIC_ADDRESS 1 in
  [frame 0xf5 magic (le16 MAGIC_VALUE); frame 0xf5 magic (le16 MAGIC_VALUE);
   frame 0xf5 magic (le16 config); frame 0xf5 magic (le16 config)].

(** The frames that open a plan: the mode set, with or without write
    enable, and the identity mapping. *)
Definition prelude_frames (write_enable : Z) : list (list Z) :=
  mode_frames (sc_config 0 0 write_enable 0 0x8)
  ++ flat_map mapping_entry_frames identity_mapping.

(** The frames of the CFI query. *)
Definition cfi_frames : list (list Z) :=
  [frame 0xf5 0x55 (le16 0x98); frame 0xf6 (Z.shiftl 0x27 1) (le16 20);
   frame 0xf5 0 (le16 0xf0)].

Lemma log_run port m w : log port m w = Out (Val tt) [Log port m] w.
Proof. reflexivity. Qed.

Lemma progress_run port pct w :
  progress port pct w = Out (Val tt) [Progress port pct] w.
Proof. reflexivity. Qed.

Lemma prelude_run {A} write_enable (k : M A) w :
  0 <= write_enable <= 1 ->
  (set_sc_mode 0 0 write_enable 0 0x8 ;;
   set_flashmapping identity_mapping ;; k) w =
  prepend (acked (prelude_frames write_enable) (rx w)) (k (drop 36 w)).
Proof.
  intros Hw.
  assert (Hc : u16 (sc_config 0 0 write_enable 0 8)).
  { pose proof (sc_config_byte 0 0 write_enable 0 8) as H. unfold u16. lia. }
  rewrite (bind_val _ _ _ _ _ _ (set_sc_mode_run 0 0 write_enable 0 8 w Hc)).
  rewrite (bind_val _ _ _ _ _ _
             (set_flashmapping_run identity_mapping (drop 4 w)
                (proj1 identity_mapping_ok) (proj2 identity_mapping_ok))).
  rewrite prepend_prepend, drop_drop. unfold prelude_frames.
  rewrite acked_app. reflexivity.
Qed.

Lemma sent_cfi_traffic w : sent (cfi_traffic w) = cfi_frames.
Proof. reflexivity. Qed.

Lemma cfi_sector_size_nonneg cfi :
  returns (fun c => 0 <= cfi_sector_size c) (cfi_parse cfi).
Proof.
  unfold cfi_parse. repeat (apply returns_bind; intros ?). cbv zeta.
  apply returns_ret. cbn [cfi_sector_size].
  apply Z.mul_nonneg_nonneg; [|lia].
  apply Z.lor_nonneg. split.
  - apply Z.shiftl_nonneg, Z.land_nonneg. right. lia.
  - apply Z.land_nonneg. right. lia.
Qed.


(** The plan's own sentences at the head of the goal. *)
Ltac plan_step :=
  first [ rewrite (bind_val _ _ _ _ _ _ (log_run _ _ _))
        | rewrite (bind_val _ _ _ _ _ _ (progress_run _ _ _))
        | rewrite (bind_val _ _ _ _ _ _ (sleep_ms_run _ _)) ].



Lemma running_stopped w :
  stop_in w = Some 0%nat -> running w = Out (Val false) [Poll false] w.
Proof. intros H. unfold running. rewrite H. reflexivity. Qed.

Lemma floordiv_run a b w :
  b <> 0 -> floordiv a b w = Out (Val (a / b)) [] w.
Proof.
  intros H. unfold floordiv.
  destruct (Z.eqb_spec b 0); [contradiction|reflexivity].
Qed.

Lemma floordiv_zero a w :
  floordiv a 0 w = Out (Raise ZeroDivisionError) [] w.
Proof. reflexivity. Qed.





(* ================================================================= *)
(** ** What a plan sends *)

(** [sends ok]: the events whose frames carry commands that [ok]
    accepts. *)
Definition sends (ok : command -> bool) (e : event) : bool :=
  match e with
  | Tx f => ok (decode f)
  | _ => true
  end.

Lemma emits_computes P {A} (m : M A) : computes m -> emits P m.
Proof. intros H w. destruct (H w) as (r & -> & _). reflexivity. Qed.

Lemma emits_poll_fuel P : emits P poll_fuel.
Proof. intros w. reflexivity. Qed.

Lemma emits_bind_returns P {A B} (Q : A -> Prop) (m : M A) (k : A -> M B) :
  emits P m -> returns Q m -> (forall a, Q a -> emits P (k a)) ->
  emits P (bind m k).
Proof.
  intros Hm Hq Hk w. unfold bind. pose proof (Hm w) as E.
  pose proof (Hq w) as R.
  destruct (m w) as [[a| |e|] t w']; cbn [result events final] in *; auto.
  rewrite forallb_app, E. apply Hk. now apply R.
Qed.

Lemma emits_for_each_in P {X} (l : list X) (f : X -> M unit) :
  (forall x, In x l -> emits P (f x)) -> emits P (for_each l f).
Proof.
  induction l as [|x l IH]; intros Hf; cbn [for_each]; [apply emits_ret|].
  apply emits_bind; [apply Hf; now left | intros _].
  apply IH. intros y Hy. apply Hf. now right.
Qed.

Lemma In_range_from i start n :
  In i (range_from start 1 n) -> start <= i < start + Z.of_nat n.
Proof.
  revert start. induction n as [|n IH]; intros start; cbn [range_from In];
    [contradiction|].
  intros [<- | H]; [lia|]. apply IH in H. lia.
Qed.

Lemma In_py_range i n : In i (py_range 0 n 1) -> 0 <= i < n.
Proof.
  unfold py_range. intros H. apply In_range_from in H.
  replace ((n - 0 + 1 - 1) / 1) with n in H by (rewrite Z.div_1_r; lia).
  lia.
Qed.

Lemma returns_floordiv a b :
  returns (fun q => b <> 0 /\ q = a / b) (floordiv a b).
Proof.
  intros w q. unfold floordiv. destruct (Z.eqb_spec b 0); [discriminate|].
  intros [= <-]. auto.
Qed.

Lemma returns_getRomCFI :
  returns (fun c => 0 <= cfi_sector_size c) getRomCFI.
Proof.
  intros w c. rewrite getRomCFI_split. cbn [result].
  apply cfi_sector_size_nonneg.
Qed.

Section Sends.
Variable ok : command -> bool.

Lemma sends_writeRom a dat :
  (forall data, as_H dat = Some data -> u32 a ->
                ok (CmdWriteRom a data) = true) ->
  emits (sends ok) (writeRom a dat).
Proof.
  intros H w.
  destruct (writeRom_total a dat w) as [-> | (data & Hd & _ & Ha & ->)];
    [reflexivity|].
  unfold wrote. cbn [events forallb sends].
  rewrite decode_frame by exact Ha. cbn [Z.eqb Pos.eqb].
  now rewrite (H data Hd Ha).
Qed.

Lemma sends_writeRom_int a v :
  (u32 a -> u16 v -> ok (word_write a v) = true) ->
  emits (sends ok) (writeRom a (PInt v)).
Proof.
  intros H. apply sends_writeRom. intros data Hd Ha.
  destruct (as_H_some _ _ Hd) as [E | (v' & [= <-] & -> & Hv)];
    [discriminate|].
  now apply H.
Qed.

Lemma sends_readRom a n :
  (u32 (Z.shiftl a 1) -> u16 n -> ok (CmdReadRom (Z.shiftl a 1) n) = true) ->
  emits (sends ok) (readRom a n).
Proof.
  intros H w.
  destruct (readRom_total a n w) as [-> | (Ha & Hn & ->)]; [reflexivity|].
  unfold read_back. cbn [events forallb sends].
  rewrite decode_frame by exact Ha. cbn [Z.eqb Pos.eqb].
  rewrite le_value_le16. now rewrite (H Ha Hn).
Qed.

Lemma sends_programRom a dat buf :
  (forall data, as_H dat = Some data -> u32 a -> u16 buf ->
                ok (CmdProgramRom a buf data) = true) ->
  emits (sends ok) (programRom a dat (Some buf)).
Proof.
  intros H w.
  destruct (programRom_total a dat buf w)
    as [-> | (data & Hd & _ & Ha & Hb & ->)]; [reflexivity|].
  unfold programmed. cbn [events forallb sends].
  rewrite decode_program_frame by exact Ha.
  now rewrite (H data Hd Ha Hb).
Qed.

Lemma sends_poll_until fuel ms a :
  (u32 (Z.shiftl a 1) -> ok (CmdReadRom (Z.shiftl a 1) 2) = true) ->
  emits (sends ok) (poll_until fuel ms a).
Proof.
  intros H. induction fuel as [|fuel IH]; cbn [poll_until];
    [apply emits_diverge|].
  apply emits_bind; [apply sends_readRom; auto | intros data].
  apply emits_bind; [apply emits_computes, computes_unpack_H | intros v].
  destruct (v =? 0xffff); [apply emits_ret|].
  apply emits_bind; [apply emits_emit; reflexivity | intros _; exact IH].
Qed.

Section Magic.
Hypothesis magic_ok :
  forall v, ok (word_write (Z.shiftr MAGIC_ADDRESS 1) v) = true.

Lemma sends_set_sc_mode a b c d e : emits (sends ok) (set_sc_mode a b c d e).
Proof.
  unfold set_sc_mode. cbv zeta.
  repeat (apply emits_bind; [apply sends_writeRom_int; auto | intros ?]).
  apply emits_ret.
Qed.

Lemma sends_set_flashmapping mapping :
  emits (sends ok) (set_flashmapping mapping).
Proof.
  unfold set_flashmapping. destruct (negb _); [apply emits_raise|]. cbv zeta.
  apply emits_bind; [|intros ?; apply emits_ret].
  apply emits_for_each. intros i.
  repeat (apply emits_bind; [apply sends_writeRom_int; auto | intros ?]).
  apply emits_ret.
Qed.

Lemma sends_switch_segment pos seg note :
  (forall x y, emits (sends ok) (note x y)) ->
  emits (sends ok) (switch_segment pos seg note).
Proof.
  intros Hn. unfold switch_segment. cbv zeta. destruct (negb _).
  - apply emits_bind; [apply sends_set_flashmapping | intros ?].
    apply emits_bind; [apply Hn | intros ?; apply emits_ret].
  - apply emits_ret.
Qed.
End Magic.

Lemma sends_getRomCFI :
  ok (word_write 0x55 0x98) = true ->
  ok (CmdReadRom (2 * 0x27) 20) = true ->
  ok (word_write 0x00 0xF0) = true ->
  emits (sends ok) getRomCFI.
Proof.
  intros H1 H2 H3 w. rewrite getRomCFI_split.
  cbn [events cfi_traffic forallb sends].
  change (decode (frame 0xf5 0x55 (le16 0x98))) with (word_write 0x55 0x98).
  change (decode (frame 0xf6 (Z.shiftl 0x27 1) (le16 20)))
    with (CmdReadRom (2 * 0x27) 20).
  change (decode (frame 0xf5 0 (le16 0xf0))) with (word_write 0x00 0xF0).
  now rewrite H1, H2, H3.
Qed.
End Sends.

Lemma emits_floordiv P a b : emits P (floordiv a b).
Proof.
  unfold floordiv. destruct (b =? 0); [apply emits_raise | apply emits_ret].
Qed.

(** The closure rules for [emits (sends ok)] on the text of a plan;
    [leaf] settles the driver's operations. *)
Ltac sends_step leaf :=
  lazymatch goal with
  | |- emits _ (bind _ _) => apply emits_bind; [|intros ?]
  | |- emits _ (ret _) => apply emits_ret
  | |- emits _ (raise _) => apply emits_raise
  | |- emits _ py_return => apply emits_return
  | |- emits _ (log _ _) => apply emits_emit; reflexivity
  | |- emits _ (progress _ _) => apply emits_emit; reflexivity
  | |- emits _ (finished _ _) => apply emits_emit; reflexivity
  | |- emits _ (emit _) => apply emits_emit; reflexivity
  | |- emits _ (sleep_ms _) => apply emits_emit; reflexivity
  | |- emits _ running => apply emits_running; reflexivity
  | |- emits _ (and_running _) => unfold and_running
  | |- emits _ (floordiv _ _) => apply emits_floordiv
  | |- emits _ (for_each _ _) => apply emits_for_each; intros ?
  | |- emits _ (fold_m _ _ _) => apply emits_fold_m; intros ? ?
  | |- emits _ (while_loop _ _ _ _) => apply emits_while; intros [? ?]
  | |- emits _ (try_except _ _) => apply emits_try; [|intros ?]
  | |- emits _ (if ?c then _ else _) => destruct c
  | |- emits _ (let '(_, _) := ?x in _) => destruct x
  | |- emits _ _ => leaf
  end.

(** Commands that leave the Flash and the SRAM as they are: reads of
    the ROM, writes to the magic address, which set the mode and the
    mapping registers of the cartridge, and the entry to and the exit
    from the CFI query. *)
Definition read_only (c : command) : bool :=
  match c with
  | CmdReadRom _ _ => true
  | CmdWriteRom a d =>
      (a =? Z.shiftr MAGIC_ADDRESS 1)
      || ((a =? 0x55) && bytes_eqb d (le16 0x98))
      || ((a =? 0x00) && bytes_eqb d (le16 0xF0))
  | _ => false
  end.

Ltac read_only_leaf :=
  idtac;
  lazymatch goal with
  | |- emits _ (set_sc_mode _ _ _ _ _) =>
      apply sends_set_sc_mode; intros ?; reflexivity
  | |- emits _ (set_flashmapping _) =>
      apply sends_set_flashmapping; intros ?; reflexivity
  | |- emits _ (switch_segment _ _ _) =>
      apply sends_switch_segment; [intros ?; reflexivity | intros ? ?]
  | |- emits _ getRomCFI => apply sends_getRomCFI; reflexivity
  | |- emits _ (readRom _ _) => apply sends_readRom; intros ? ?; reflexivity
  end.

Lemma BackupFlashWorker_run_read_only port backup_size :
  emits (sends read_only) (BackupFlashWorker_run port backup_size).
Proof.
  unfold BackupFlashWorker_run, backup_cond, backup_body. cbv zeta.
  repeat sends_step read_only_leaf.
Qed.

(** A backup run never changes the cartridge's memories, whatever its
    size, the answers of the cartridge and the moment of a cancel
    request: every command it sends is a ROM read, a write to the magic
    address, or the entry to or exit from the CFI query; it sends no
    program command, touches no RAM, and starts no erase. *)
Theorem backup_is_read_only port backup_size w :
  forallb (sends read_only)
          (events (BackupFlashWorker_run port backup_size w)) = true.
Proof. apply BackupFlashWorker_run_read_only. Qed.

(** Commands whose ROM address lies inside the window of 32 MiB that
    the cartridge maps: word addresses below [2^24] for the writes, byte
    addresses below [2^25] for the reads and the program commands. *)
Definition in_window (c : command) : bool :=
  match c with
  | CmdWriteRom a _ => (0 <=? a) && (a <? 2 ^ 24)
  | CmdReadRom a _ | CmdProgramRom a _ _ => (0 <=? a) && (a <? 2 ^ 25)
  | CmdWriteRam _ _ | CmdReadRam _ _ => true
  | CmdOther _ => false
  end.

Lemma window_word x : Z.shiftr (x mod segment_size) 1 < 2 ^ 24.
Proof.
  rewrite Z.shiftr_div_pow2 by lia.
  pose proof (Z.mod_pos_bound x segment_size ltac:(reflexivity)) as H.
  unfold segment_size in *. apply Z.div_lt_upper_bound; [reflexivity|].
  change (2 ^ 1 * 2 ^ 24) with (32 * 1024 * 1024). lia.
Qed.

Lemma window_writeRom a v :
  a < 2 ^ 24 -> emits (sends in_window) (writeRom a (PInt v)).
Proof.
  intros H. apply sends_writeRom_int. intros [H0 _] _.
  cbn [in_window word_write]. apply andb_true_intro.
  split; [now apply Z.leb_le | now apply Z.ltb_lt].
Qed.

Lemma window_readRom a n :
  a < 2 ^ 24 -> emits (sends in_window) (readRom a n).
Proof.
  intros H. apply sends_readRom. intros [H0 _] _.
  cbn [in_window]. apply andb_true_intro.
  split; [now apply Z.leb_le | apply Z.ltb_lt].
  rewrite Z.shiftl_mul_pow2 by lia. change (2 ^ 25) with (2 ^ 24 * 2 ^ 1).
  apply Z.mul_lt_mono_pos_r; [reflexivity | exact H].
Qed.

Lemma window_programRom a dat buf :
  a < 2 ^ 25 -> emits (sends in_window) (programRom a dat (Some buf)).
Proof.
  intros H. apply sends_programRom. intros data _ [H0 _] _.
  cbn [in_window]. apply andb_true_intro.
  split; [now apply Z.leb_le | now apply Z.ltb_lt].
Qed.

Lemma window_polling a :
  a < 2 ^ 24 ->
  emits (sends in_window) (fuel <- poll_fuel ;; eraseSector_poll fuel a ;;
                           ret true).
Proof.
  intros H. apply emits_bind; [apply emits_poll_fuel | intros fuel].
  apply emits_bind; [|intros ?; apply emits_ret].
  intros w. rewrite eraseSector_poll_eq. revert w.
  apply sends_poll_until. intros [H0 _].
  cbn [in_window]. apply andb_true_intro.
  split; [now apply Z.leb_le | apply Z.ltb_lt].
  rewrite Z.shiftl_mul_pow2 by lia. change (2 ^ 25) with (2 ^ 24 * 2 ^ 1).
  apply Z.mul_lt_mono_pos_r; [reflexivity | exact H].
Qed.

Lemma window_eraseSector a s :
  a < 2 ^ 24 -> emits (sends in_window) (eraseSector a s).
Proof.
  intros H. unfold eraseSector.
  do 5 (apply emits_bind; [apply window_writeRom; reflexivity | intros ?]).
  apply emits_bind; [apply window_writeRom; exact H | intros ?].
  apply emits_bind; [apply emits_emit; reflexivity | intros ?].
  apply window_polling, H.
Qed.

Lemma window_magic v :
  in_window (word_write (Z.shiftr MAGIC_ADDRESS 1) v) = true.
Proof. reflexivity. Qed.

Lemma window_getRomCFI : emits (sends in_window) getRomCFI.
Proof. apply sends_getRomCFI; reflexivity. Qed.

Lemma window_unlockPPB_poll fuel :
  emits (sends in_window) (unlockPPB_poll fuel).
Proof.
  induction fuel as [|fuel IH]; cbn [unlockPPB_poll]; [apply emits_diverge|].
  apply emits_bind; [apply window_writeRom; reflexivity | intros ?].
  apply emits_bind; [apply window_readRom; reflexivity | intros ?].
  apply emits_bind; [apply emits_computes, computes_unpack_H | intros v].
  destruct (negb _); [apply emits_ret|].
  apply emits_bind; [apply emits_emit; reflexivity | intros _; exact IH].
Qed.

Lemma window_unlockPPB : emits (sends in_window) unlockPPB.
Proof.
  unfold unlockPPB.
  apply emits_bind; [apply sends_set_flashmapping, window_magic | intros ?].
  do 5 (apply emits_bind; [apply window_writeRom; reflexivity | intros ?]).
  apply emits_bind; [apply emits_emit; reflexivity | intros ?].
  apply emits_bind; [apply emits_poll_fuel | intros fuel].
  apply emits_bind; [apply window_unlockPPB_poll | intros ?].
  do 3 (apply emits_bind; [apply window_writeRom; reflexivity | intros ?]).
  apply emits_ret.
Qed.

(** The sectors of the metadata region lie between 2 MiB and 4 MiB. *)
Lemma metadata_sector_in_window sector_size i :
  0 < sector_size ->
  0 <= i < Z.of_nat (Z.to_nat (FLASH_METADATA_SIZE / sector_size)) ->
  Z.shiftr (ROM_OFF_FLASHMETA + i * sector_size) 1 < 2 ^ 24.
Proof.
  intros Hs Hi. unfold FLASH_METADATA_SIZE, ROM_OFF_FLASHMETA in *.
  pose proof (Z.mul_div_le 2097152 sector_size Hs) as Hq.
  assert (Hq0 : 0 <= 2097152 / sector_size) by (apply Z.div_pos; lia).
  rewrite Z2Nat.id in Hi by exact Hq0.
  assert (Hlt : i * sector_size < 2097152) by nia.
  rewrite Z.shiftr_div_pow2 by lia.
  apply Z.div_lt_upper_bound; [reflexivity|].
  change (2 ^ 1 * 2 ^ 24) with 33554432. lia.
Qed.

Lemma window_eraseFlashMetadata : emits (sends in_window) eraseFlashMetadata.
Proof.
  unfold eraseFlashMetadata. cbv zeta.
  apply emits_bind; [apply sends_set_flashmapping, window_magic | intros ?].
  apply (emits_bind_returns _ _ _ _ window_getRomCFI returns_getRomCFI).
  intros c Hc.
  apply (emits_bind_returns _ _ _ _ (emits_floordiv _ _ _)
           (returns_floordiv _ _)).
  intros q [Hnz ->].
  apply emits_bind; [|intros ?; apply emits_ret].
  apply emits_for_each_in. intros i Hi. apply In_range_from in Hi.
  apply emits_bind; [|intros ?; apply emits_ret].
  apply window_eraseSector, metadata_sector_in_window; lia.
Qed.

Ltac window_leaf :=
  idtac;
  lazymatch goal with
  | |- emits _ (set_sc_mode _ _ _ _ _) =>
      apply sends_set_sc_mode, window_magic
  | |- emits _ (set_flashmapping _) =>
      apply sends_set_flashmapping, window_magic
  | |- emits _ (switch_segment _ _ _) =>
      apply sends_switch_segment; [apply window_magic | intros ? ?]
  | |- emits _ getRomCFI => apply window_getRomCFI
  | |- emits _ unlockPPB => apply window_unlockPPB
  | |- emits _ eraseFlashMetadata => apply window_eraseFlashMetadata
  | |- emits _ (readRom (Z.shiftr (_ mod segment_size) 1) _) =>
      apply window_readRom, window_word
  | |- emits _ (readRom _ _) => apply window_readRom; reflexivity
  | |- emits _ (eraseSector (Z.shiftr (_ mod segment_size) 1) _) =>
      apply window_eraseSector, window_word
  | |- emits _ (programRom (_ mod segment_size) _ (Some _)) =>
      apply window_programRom, Z.mod_pos_bound; reflexivity
  end.

Lemma workers_stay_in_window port :
  emits (sends in_window) (ResetNorWorker_run port) /\
  (forall backup_size,
      emits (sends in_window) (BackupFlashWorker_run port backup_size)) /\
  (forall rom_data,
      emits (sends in_window) (ProductionWorker_run port rom_data)).
Proof.
  split; [|split].
  - unfold ResetNorWorker_run. cbv zeta. repeat sends_step window_leaf.
  - intros backup_size.
    unfold BackupFlashWorker_run, backup_cond, backup_body. cbv zeta.
    repeat sends_step window_leaf.
  - intros rom_data.
    unfold ProductionWorker_run, production_write, production_verify,
      erase_body, program_cond, program_body, verify_cond, verify_body.
    cbv zeta. repeat sends_step window_leaf.
Qed.

(** The Reset-NOR, backup and production runs never address the ROM
    beyond the window of 32 MiB: whatever the image, the sizes, the
    geometry the cartridge reports and its other answers, every ROM
    write they send is at a word address below [2^24] and every ROM
    read or program command at a byte address below [2^25]; positions
    beyond 32 MiB are reached only by changing the mapping. *)
Theorem rom_accesses_stay_in_window port w :
  forallb (sends in_window) (events (ResetNorWorker_run port w)) = true /\
  (forall backup_size,
      forallb (sends in_window)
              (events (BackupFlashWorker_run port backup_size w)) = true) /\
  (forall rom_data,
      forallb (sends in_window)
              (events (ProductionWorker_run port rom_data w)) = true).
Proof.
  destruct (workers_stay_in_window port) as (H1 & H2 & H3).
  split; [apply H1 | split; intros x; [apply H2 | apply H3]].
Qed.

(* ================================================================= *)
(** ** Progress values *)

(** A progress signal carries a percentage. *)
Definition progress_ok (e : event) : bool :=
  match e with
  | Progress _ pct => (0 <=? pct) && (pct <=? 100)
  | _ => true
  end.

Lemma io_progress_ok e : is_io e = true -> progress_ok e = true.
Proof. now destruct e. Qed.

(** With at most five steps, the percentages on entering and on leaving
    step [current_test] of [test_count] are in range, rounding
    included. *)
Lemma step_progress_in_range current_test test_count :
  1 <= current_test <= test_count -> test_count <= 5 ->
  let progress_per_test := truediv 100 test_count in
  (0 <= progress_entering current_test progress_per_test <= 100) /\
  (0 <= progress_leaving current_test progress_per_test <= 100).
Proof.
  intros H1 H2.
  assert (Ht : test_count = 1 \/ test_count = 2 \/ test_count = 3 \/
               test_count = 4 \/ test_count = 5) by lia.
  assert (Hc : current_test = 1 \/ current_test = 2 \/ current_test = 3 \/
               current_test = 4 \/ current_test = 5) by lia.
  destruct Ht as [-> | [-> | [-> | [-> | ->]]]];
    destruct Hc as [-> | [-> | [-> | [-> | ->]]]];
    try lia; vm_compute; repeat split; discriminate.
Qed.

Section QaProgress.
Variable port : string.
Variable config : QualityCheckConfig.
Variable test_count : Z.
Hypothesis at_most_five : test_count <= 5.

Lemma emits_entering ct :
  1 <= ct <= test_count ->
  emits progress_ok
    (progress port (progress_entering ct (truediv 100 test_count))).
Proof.
  intros H. apply emits_emit. cbn [progress_ok].
  destruct (step_progress_in_range ct test_count H at_most_five) as [[? ?] _].
  apply andb_true_intro. split; [now apply Z.leb_le | now apply Z.leb_le].
Qed.

Lemma emits_leaving ct :
  1 <= ct <= test_count ->
  emits progress_ok
    (progress port (progress_leaving ct (truediv 100 test_count))).
Proof.
  intros H. apply emits_emit. cbn [progress_ok].
  destruct (step_progress_in_range ct test_count H at_most_five) as [_ [? ?]].
  apply andb_true_intro. split; [now apply Z.leb_le | now apply Z.leb_le].
Qed.

(** A step leaves the counter alone or adds one to it, and only when
    it is enabled. *)
Definition counts (flag : bool) (ct : Z) (step : M Z) : Prop :=
  returns (fun ct' => ct <= ct' <= ct + b2z flag) step.

Lemma returns_if_running flag ct (k : M Z) :
  returns (fun ct' => ct' = ct + 1) k ->
  counts flag ct (go <- and_running flag ;; if go then k else ret ct).
Proof.
  intros Hk. unfold counts, and_running. destruct flag; cbn [b2z].
  - apply returns_bind. intros [|].
    + intros w ct' H. apply Hk in H. lia.
    + apply returns_ret. lia.
  - intros w ct' [= <-]. lia.
Qed.

Ltac qa_progress_step :=
  lazymatch goal with
  | |- emits _ (progress _ (progress_entering _ _)) =>
      apply emits_entering; lia
  | |- emits _ (progress _ (progress_leaving _ _)) =>
      apply emits_leaving; lia
  | |- _ => emits_step io_progress_ok
  end.

Lemma qa_steps_progress ct :
  0 <= ct ->
  (ct + b2z (enable_sram_test config) <= test_count ->
   emits progress_ok
     (qa_sram_basic port config test_count (truediv 100 test_count) ct)) /\
  (ct + b2z (enable_full_sram config) <= test_count ->
   emits progress_ok
     (qa_sram_full port config test_count (truediv 100 test_count) ct)) /\
  (ct + b2z (enable_ppb_unlock config) <= test_count ->
   emits progress_ok
     (qa_ppb_unlock port config test_count (truediv 100 test_count) ct)) /\
  (ct + b2z (enable_flash_erase config || enable_fast_flash config)
   <= test_count ->
   emits progress_ok
     (qa_flash port config test_count (truediv 100 test_count) ct)) /\
  (ct + b2z (enable_ram_flash config) <= test_count ->
   emits progress_ok
     (qa_ram_flash port config test_count (truediv 100 test_count) ct)).
Proof.
  intros H0.
  unfold qa_sram_basic, qa_sram_full, qa_ppb_unlock, qa_flash, qa_ram_flash,
    qa_fast_flash, qa_erase_blank, and_running.
  cbv zeta.
  split; [|split; [|split; [|split]]]; intros H;
    match goal with
    | |- emits _ (bind (if ?flag then _ else _) _) =>
        destruct flag; cbn [b2z] in H;
          [ repeat qa_progress_step | intros w; rewrite bind_ret_l; reflexivity ]
    end.
Qed.

Lemma qa_steps_count ct :
  counts (enable_sram_test config) ct
    (qa_sram_basic port config test_count (truediv 100 test_count) ct) /\
  counts (enable_full_sram config) ct
    (qa_sram_full port config test_count (truediv 100 test_count) ct) /\
  counts (enable_ppb_unlock config) ct
    (qa_ppb_unlock port config test_count (truediv 100 test_count) ct) /\
  counts (enable_flash_erase config || enable_fast_flash config) ct
    (qa_flash port config test_count (truediv 100 test_count) ct) /\
  counts (enable_ram_flash config) ct
    (qa_ram_flash port config test_count (truediv 100 test_count) ct).
Proof.
  unfold qa_sram_basic, qa_sram_full, qa_ppb_unlock, qa_flash, qa_ram_flash.
  cbv zeta.
  split; [|split; [|split; [|split]]]; apply returns_if_running;
    repeat (apply returns_bind; intros ?); apply returns_ret; reflexivity.
Qed.
End QaProgress.

Lemma QualityCheckWorker_run_progress port config :
  emits progress_ok (QualityCheckWorker_run port config).
Proof.
  unfold QualityCheckWorker_run. cbv zeta.
  apply emits_try; [|intros ?; repeat emits_step io_progress_ok].
  apply emits_bind; [apply emits_emit; reflexivity | intros _].
  destruct (_ =? 0); [repeat emits_step io_progress_ok|].
  set (tc := test_count_of config).
  assert (Hsum : tc = b2z (enable_sram_test config)
                      + b2z (enable_flash_erase config
                             || enable_fast_flash config)
                      + b2z (enable_ppb_unlock config)
                      + b2z (enable_full_sram config)
                      + b2z (enable_ram_flash config)) by reflexivity.
  assert (Hb : forall b, 0 <= b2z b <= 1) by (intros [|]; cbn; lia).
  pose proof (Hb (enable_sram_test config)).
  pose proof (Hb (enable_flash_erase config || enable_fast_flash config)).
  pose proof (Hb (enable_ppb_unlock config)).
  pose proof (Hb (enable_full_sram config)).
  pose proof (Hb (enable_ram_flash config)).
  assert (H5 : tc <= 5) by lia.
  apply emits_bind_returns
    with (Q := fun c => 0 <= c <= 0 + b2z (enable_sram_test config));
    [ apply (qa_steps_progress port config tc H5 0); lia
    | intros w c Hc; apply (qa_steps_count port config tc 0) in Hc; lia
    | intros c1 B1 ].
  apply emits_bind_returns
    with (Q := fun c => 0 <= c <= c1 + b2z (enable_full_sram config));
    [ apply (qa_steps_progress port config tc H5 c1); lia
    | intros w c Hc; apply (qa_steps_count port config tc c1) in Hc; lia
    | intros c2 B2 ].
  apply emits_bind_returns
    with (Q := fun c => 0 <= c <= c2 + b2z (enable_ppb_unlock config));
    [ apply (qa_steps_progress port config tc H5 c2); lia
    | intros w c Hc; apply (qa_steps_count port config tc c2) in Hc; lia
    | intros c3 B3 ].
  apply emits_bind_returns
    with (Q := fun c => 0 <= c <= c3 + b2z (enable_flash_erase config
                                             || enable_fast_flash config));
    [ apply (qa_steps_progress port config tc H5 c3); lia
    | intros w c Hc; apply (qa_steps_count port config tc c3) in Hc; lia
    | intros c4 B4 ].
  apply emits_bind; [|intros ?; repeat emits_step io_progress_ok].
  apply (qa_steps_progress port config tc H5 c4); lia.
Qed.

Lemma ResetNorWorker_run_progress port :
  emits progress_ok (ResetNorWorker_run port).
Proof.
  unfold ResetNorWorker_run. cbv zeta. repeat emits_step io_progress_ok.
Qed.

(** Every progress signal of a quality check and of a Reset-NOR run
    carries a value between 0 and 100, for every configuration, every
    answer of the cartridge and every moment of cancellation: the float
    arithmetic of the quality check, [int((n - 0.5) * (100 / count))]
    and [int(n * (100 / count))], never leaves the range. *)
Theorem qa_and_reset_progress_in_range port w :
  (forall config,
      forallb progress_ok (events (QualityCheckWorker_run port config w))
      = true) /\
  forallb progress_ok (events (ResetNorWorker_run port w)) = true.
Proof.
  split.
  - intros config. apply QualityCheckWorker_run_progress.
  - apply ResetNorWorker_run_progress.
Qed.

(* ================================================================= *)
(** ** The driver on short answers and wide values *)



Lemma cfi_answer_length w :
  List.length (cfi_answer w) = Nat.min 20 (List.length (rx w) - 3).
Proof.
  unfold cfi_answer. rewrite length_skipn, length_firstn, length_skipn. lia.
Qed.


(** A mode set whose configuration does not fit 16 bits sends the two
    magic unlock writes and then raises [struct.error]: the unlock
    sequence is left half done. *)
Theorem mode_set_with_wide_config_stops_half_way
  (sdram sd_enable write_enable sram_bank ctrl : Z) (w : world) :
  ~ (0 <= sc_config sdram sd_enable write_enable sram_bank ctrl < 65536) ->
  let o := set_sc_mode sdram sd_enable write_enable sram_bank ctrl w in
  let magic := Z.shiftr MAGIC_ADDRESS 1 in
  result o = Raise StructError /\
  commands (events o) = [word_write magic 0xA55A; word_write magic 0xA55A] /\
  rx (final o) = skipn 2 (rx w).
Proof.
  intros Hc. cbv zeta. unfold set_sc_mode. cbv zeta.
  do 2 rom_write_step.
  rewrite (bind_raise _ _ _ _ _ _ (writeRom_bad_word _ _ _ Hc)).
  unfold wrote, struct_error, prepend. cbn [result events final app].
  rewrite !rx_set_rx, skipn_skipn. split; [reflexivity|].
  split; [reflexivity|reflexivity].
Qed.

Lemma mode_set_with_wide_config_stops_half_way_witness :
  let o := set_sc_mode 0 0 0 0 0x1000 (World [0xaa; 0xaa; 0xaa] None (fun _ => 0) 0) in
  let magic := Z.shiftr MAGIC_ADDRESS 1 in
  result o = Raise StructError /\
  commands (events o) = [word_write magic 0xA55A; word_write magic 0xA55A] /\
  rx (final o) = skipn 2 [0xaa; 0xaa; 0xaa].
Proof.
  apply (mode_set_with_wide_config_stops_half_way 0 0 0 0 0x1000
           (World [0xaa; 0xaa; 0xaa] None (fun _ => 0) 0)).
  vm_compute. intros [_ H]. discriminate.
Defined.


Lemma rx_drop n w : rx (drop n w) = skipn n (rx w).
Proof. reflexivity. Qed.

Lemma signals_cfi_traffic w : signals (cfi_traffic w) = [].
Proof. reflexivity. Qed.

(** The commands of a plan's opening, for [write_enable] 0 or 1. *)
Definition prelude_commands (config : Z) : list command :=
  let magic := Z.shiftr MAGIC_ADDRESS 1 in
  [word_write magic 0xA55A; word_write magic 0xA55A;
   word_write magic config; word_write magic config]
  ++ flat_map mapping_entry_writes identity_mapping.

Definition cfi_commands : list command :=
  [word_write 0x55 0x98; CmdReadRom (2 * 0x27) 20; word_write 0x00 0xF0].



(* ================================================================= *)
(** ** The driver's queries *)

Lemma word_of_none d w :
  word_of d = None -> unpack_H (skipn 2 d) w = Out (Raise StructError) [] w.
Proof.
  unfold word_of, unpack_H.
  destruct (skipn 2 d) as [|b0 [|b1 [|b2 l]]]; try reflexivity. discriminate.
Qed.

Lemma word_of_unpack d v w :
  word_of d = Some v -> unpack_H (skipn 2 d) w = Out (Val v) [] w.
Proof.
  unfold word_of, unpack_H.
  destruct (skipn 2 d) as [|b0 [|b1 [|b2 l]]]; try discriminate.
  now intros [= <-].
Qed.

(** The PPB lock query: three writes that enter the query, one read of
    the status word, three writes that leave it; it returns whether the
    status is non-zero.  When the status comes back short, it raises
    [struct.error] after the read, and the three writes that leave the
    query mode are not sent. *)
Theorem ppb_lock_query_cases (w : world) :
  let o := checkPPBLocked w in
  let status := firstn 4 (skipn 3 (rx w)) in
  let enter := [word_write 0x555 0xAA; word_write 0x2AA 0x55;
                word_write 0x555 0x50; CmdReadRom 0 2] in
  match word_of status with
  | Some v =>
      result o = Val (negb (v =? 0)) /\
      commands (events o) =
        enter ++ [word_write 0 0x90; word_write 0 0x00; word_write 0 0xF0]
  | None =>
      result o = Raise StructError /\ commands (events o) = enter
  end.
Proof.
  cbv zeta. unfold checkPPBLocked. do 3 rom_write_step.
  rewrite !rx_set_rx, !set_rx_set_rx, !skipn_skipn. cbn [Nat.add].
  erewrite bind_val
    by (apply readRom_ok; [unfold u32; cbn; lia | unfold u16; lia]).
  unfold read_back. rewrite !rx_set_rx, !set_rx_set_rx.
  change (Z.to_nat (2 + 2)) with 4%nat.
  destruct (word_of (firstn 4 (skipn 3 (rx w)))) as [v|] eqn:Hw.
  - rewrite (bind_pure _ _ _ _ (word_of_unpack _ _ _ Hw)).
    do 3 rom_write_step. cbn [ret prepend wrote result events final app].
    split; reflexivity.
  - rewrite (bind_raise _ _ _ _ _ _ (word_of_none _ _ Hw)).
    cbn [prepend wrote result events final app]. split; reflexivity.
Qed.

(** One 2-byte read of the word at [a], and the decoding of what came
    back. *)
Lemma read_word_run {B} a (k : Z -> M B) w :
  0 <= a < 2 ^ 31 ->
  (data <- readRom a 2 ;; v <- unpack_H data ;; k v) w =
  prepend [Tx (frame 0xf6 (Z.shiftl a 1) (le16 2)); Rx 4 (firstn 4 (rx w))]
    match word_of (firstn 4 (rx w)) with
    | Some v => k v (set_rx w (skipn 4 (rx w)))
    | None => Out (Raise StructError) [] (set_rx w (skipn 4 (rx w)))
    end.
Proof.
  intros Ha.
  assert (Hs : u32 (Z.shiftl a 1)).
  { unfold u32. rewrite Z.shiftl_mul_pow2 by lia.
    change (2 ^ 31) with 2147483648 in Ha. change (2 ^ 1) with 2. lia. }
  rewrite (bind_val _ _ _ _ _ _
             (readRom_ok a 2 w Hs ltac:(unfold u16; lia))).
  change (Z.to_nat (2 + 2)) with 4%nat. change (2 + 2) with 4.
  destruct (word_of (firstn 4 (rx w))) as [v|] eqn:Hw.
  - now rewrite (bind_pure _ _ _ _ (word_of_unpack _ _ _ Hw)).
  - now rewrite (bind_raise _ _ _ _ _ _ (word_of_none _ _ Hw)).
Qed.

(** The Flash ID query: three writes that enter the autoselect mode,
    reads of the words 0, 1, 0xE and 0xF, and the reset write [0xF0]
    that leaves it; the four values are returned by key.  As soon as
    one read comes back short it raises [struct.error], and the reset
    write is not sent. *)
Theorem rom_id_query_cases (w : world) :
  let o := readRomID w in
  let d (i : nat) := firstn 4 (skipn (3 + 4 * i) (rx w)) in
  match word_of (d 0%nat), word_of (d 1%nat), word_of (d 2%nat),
        word_of (d 3%nat) with
  | Some m, Some i1, Some i2, Some i3 =>
      result o = Val (RomID m i1 i2 i3) /\
      commands (events o) =
        [word_write 0x555 0xAA; word_write 0x2AA 0x55; word_write 0x555 0x90;
         CmdReadRom 0 2; CmdReadRom 2 2; CmdReadRom 0x1C 2; CmdReadRom 0x1E 2;
         word_write 0 0xF0]
  | _, _, _, _ =>
      result o = Raise StructError /\
      ~ In (word_write 0 0xF0) (commands (events o))
  end.
Proof.
  cbv zeta. unfold readRomID. do 3 rom_write_step.
  rewrite !rx_set_rx, !set_rx_set_rx, !skipn_skipn. cbn [Nat.add Nat.mul].
  rewrite read_word_run by (cbn; lia). rewrite rx_set_rx.
  destruct (word_of (firstn 4 (skipn 3 (rx w)))) as [m|].
  2:{ split; [reflexivity|]. vm_compute. intuition discriminate. }
  rewrite read_word_run by (cbn; lia).
  rewrite !rx_set_rx, !set_rx_set_rx, !skipn_skipn. cbn [Nat.add].
  destruct (word_of (firstn 4 (skipn 7 (rx w)))) as [i1|].
  2:{ split; [reflexivity|]. vm_compute. intuition discriminate. }
  rewrite read_word_run by (cbn; lia).
  rewrite !rx_set_rx, !set_rx_set_rx, !skipn_skipn. cbn [Nat.add].
  destruct (word_of (firstn 4 (skipn 11 (rx w)))) as [i2|].
  2:{ split; [reflexivity|]. vm_compute. intuition discriminate. }
  rewrite read_word_run by (cbn; lia).
  rewrite !rx_set_rx, !set_rx_set_rx, !skipn_skipn. cbn [Nat.add].
  destruct (word_of (firstn 4 (skipn 15 (rx w)))) as [i3|].
  2:{ split; [reflexivity|]. vm_compute. intuition discriminate. }
  rom_write_step. split; reflexivity.
Qed.

Lemma bytes_eqb_eq a b : bytes_eqb a b = true <-> a = b.
Proof.
  revert b. induction a as [|x a IH]; intros [|y b]; cbn [bytes_eqb];
    try (split; [discriminate | discriminate]); [now split|].
  rewrite andb_true_iff, IH, Z.eqb_eq. split.
  - now intros [-> ->].
  - now intros [= -> ->].
Qed.

(** [verifyRom] reads as many bytes as the expected data has and
    returns whether the bytes that follow the 2-byte header are the
    expected ones; an answer cut short by a timeout gives [False], not
    an error.  Expected data of 65536 bytes or more, or an address of
    [2^31] or more, raise [struct.error] before anything is sent. *)
Theorem verify_rom_compares_payload (addr_word : Z) (expected : list Z)
  (w : world) :
  let o := verifyRom addr_word expected w in
  let n := len expected in
  (0 <= addr_word < 2 ^ 31 -> n < 65536 ->
   commands (events o) = [CmdReadRom (2 * addr_word) n] /\
   (exists b, result o = Val b) /\
   (result o = Val true <->
    skipn 2 (firstn (Z.to_nat (n + 2)) (rx w)) = expected)) /\
  (~ (0 <= addr_word < 2 ^ 31 /\ n < 65536) ->
   result o = Raise StructError /\ events o = []).
Proof.
  cbv zeta. unfold verifyRom. change (2 ^ 31) with 2147483648.
  pose proof (len_nonneg expected) as Hn0. split.
  - intros Ha Hn.
    assert (Hs : u32 (Z.shiftl addr_word 1)).
    { unfold u32. rewrite Z.shiftl_mul_pow2 by lia. change (2 ^ 1) with 2.
      lia. }
    rewrite (bind_val _ _ _ _ _ _
               (readRom_ok addr_word (len expected) w Hs
                  ltac:(unfold u16; lia))).
    cbn [ret prepend result events final].
    split; [|split].
    + unfold commands. cbn [sent flat_map app map].
      now rewrite decode_read_frame.
    + eauto.
    + split; intros H.
      * injection H as H. now apply bytes_eqb_eq in H.
      * apply bytes_eqb_eq in H. unfold read_back. cbn [result].
        now rewrite H.
  - intros Hbad.
    destruct (readRom_total addr_word (len expected) w)
      as [E | (Hs & Hn & _)].
    + rewrite (bind_raise _ _ _ _ _ _ E). split; reflexivity.
    + exfalso. apply Hbad. unfold u32, u16 in *.
      rewrite Z.shiftl_mul_pow2 in Hs by lia. change (2 ^ 1) with 2 in Hs.
      lia.
Qed.

Lemma verify_rom_compares_payload_witness :
  let o := verifyRom 0 [1; 2] (World [0; 0; 1; 2] None (fun _ => 0) 0) in
  commands (events o) = [CmdReadRom (2 * 0) 2] /\
  (exists b, result o = Val b) /\
  (result o = Val true <->
   skipn 2 (firstn (Z.to_nat (2 + 2)) [0; 0; 1; 2]) = [1; 2]).
Proof.
  apply (verify_rom_compares_payload 0 [1; 2]
           (World [0; 0; 1; 2] None (fun _ => 0) 0)).
  - lia.
  - reflexivity.
Defined.

Lemma pow2_is_1 t : 0 <= t -> (2 ^ t =? 1) = (t =? 0).
Proof.
  intros Ht. destruct (Z.eqb_spec t 0) as [->|Hn]; [reflexivity|].
  apply Z.eqb_neq. pose proof (Z.pow_gt_1 2 t ltac:(lia)) as [H _].
  specialize (H ltac:(lia)). lia.
Qed.

(** The erase time: the CFI query, then a second query that reads 20
    bytes at word [0x1F]; with [t2] and [t3] the third and fourth
    16-bit values of the second response, the result is [2^t3], the
    chip erase time, unless [t3] is zero, and then [2^t2], the time for
    one block, times the sector count of the first query. *)
Theorem erase_time_from_two_queries
  (w : world) (ack h0 h1 : Z) (cfi1 : list Z) (ack2 ack3 g0 g1 : Z)
  (cfi2 rest : list Z) :
  rx w = ack :: h0 :: h1 :: cfi1 ++ ack2 :: ack3 :: g0 :: g1 :: cfi2 ++ rest ->
  List.length cfi1 = 20%nat -> List.length cfi2 = 20%nat ->
  0 <= cfi_word cfi2 3 ->
  let o := getRomEraseTime w in
  let sector_count :=
    Z.lor (Z.shiftl (Z.land (cfi_word cfi1 7) 0xFF) 8)
          (Z.land (cfi_word cfi1 6) 0xFF) + 1 in
  commands (events o) =
    [word_write 0x55 0x98; CmdReadRom (2 * 0x27) 20; word_write 0x00 0xF0;
     word_write 0x55 0x98; CmdReadRom (2 * 0x1F) 20; word_write 0x00 0xF0] /\
  result o =
    Val (if cfi_word cfi2 3 =? 0 then 2 ^ cfi_word cfi2 2 * sector_count
         else 2 ^ cfi_word cfi2 3).
Proof.
  intros Hrx Hl1 Hl2 Ht. cbv zeta.
  do 20 (destruct cfi1 as [|? cfi1]; [discriminate Hl1|]).
  destruct cfi1; [|discriminate Hl1]. clear Hl1.
  do 20 (destruct cfi2 as [|? cfi2]; [discriminate Hl2|]).
  destruct cfi2; [|discriminate Hl2]. clear Hl2.
  cbn [app] in Hrx. unfold cfi_word in *. cbn [nth Nat.mul Nat.add] in *.
  unfold getRomEraseTime.
  pose proof (getRomCFI_split w) as Hq.
  unfold cfi_answer, after_cfi in Hq. rewrite Hrx in Hq.
  cbn [skipn firstn] in Hq.
  rewrite cfi_parse_20 in Hq by reflexivity. cbn [result] in Hq.
  rewrite (bind_val _ _ _ _ _ _ Hq). clear Hq.
  rom_write_step. rewrite !rx_set_rx, !set_rx_set_rx. cbn [skipn].
  erewrite bind_val
    by (apply readRom_ok; [unfold u32; cbn; lia | unfold u16; lia]).
  unfold read_back. rewrite !rx_set_rx, !set_rx_set_rx.
  change (Z.to_nat (20 + 2)) with 22%nat. cbn [skipn firstn].
  rom_write_step.
  repeat match goal with
  | |- context [slice ?l ?i ?j] =>
      let v := eval cbv in (slice l i j) in change (slice l i j) with v
  end.
  rewrite !(bind_pure _ _ _ _ (unpack_H_pair _ _ _)).
  rewrite pow2_is_1 by exact Ht.
  split.
  - unfold cfi_traffic, wrote, prepend.
    destruct (_ =? 0); reflexivity.
  - unfold cfi_word. cbn [nth Nat.mul Nat.add cfi_sector_count].
    destruct (_ =? 0); reflexivity.
Qed.

Lemma erase_time_from_two_queries_witness :
  let cfi1 := [27; 0; 0; 0; 0; 0; 9; 0; 0; 0; 0; 0; 255; 0; 3; 0; 0; 0; 2; 0] in
  let cfi2 := [0; 0; 0; 0; 9; 0; 0; 0; 0; 0; 0; 0; 0; 0; 0; 0; 0; 0; 0; 0] in
  let w := World (0xaa :: 0 :: 0 :: cfi1 ++ 0xaa :: 0xaa :: 0 :: 0 :: cfi2
                  ++ [0xaa]) None (fun _ => 0) 0 in
  let o := getRomEraseTime w in
  let sector_count :=
    Z.lor (Z.shiftl (Z.land (cfi_word cfi1 7) 0xFF) 8)
          (Z.land (cfi_word cfi1 6) 0xFF) + 1 in
  commands (events o) =
    [word_write 0x55 0x98; CmdReadRom (2 * 0x27) 20; word_write 0x00 0xF0;
     word_write 0x55 0x98; CmdReadRom (2 * 0x1F) 20; word_write 0x00 0xF0] /\
  result o =
    Val (if cfi_word cfi2 3 =? 0 then 2 ^ cfi_word cfi2 2 * sector_count
         else 2 ^ cfi_word cfi2 3).
Proof.
  intros cfi1 cfi2 w.
  apply (erase_time_from_two_queries w 0xaa 0 0 cfi1 0xaa 0xaa 0 0 cfi2 [0xaa]);
    [reflexivity | reflexivity | reflexivity | cbn; lia].
Defined.

(* ================================================================= *)
(** ** The erase of the metadata region *)


















Lemma getRomCFI_full w :
  (23 <= List.length (rx w))%nat ->
  let cfi := cfi_answer w in
  getRomCFI w =
  Out (Val (CFI (2 ^ cfi_word cfi 0)
                (Z.lor (Z.shiftl (Z.land (cfi_word cfi 7) 0xff) 8)
                       (Z.land (cfi_word cfi 6) 0xff) + 1)
                (Z.lor (Z.shiftl (Z.land (cfi_word cfi 9) 0xff) 8)
                       (Z.land (cfi_word cfi 8) 0xff) * 256)
                (if negb (cfi_word cfi 3 =? 0) then 2 ^ cfi_word cfi 3
                 else 0)))
      (cfi_traffic w) (after_cfi w).
Proof.
  intros Hl. cbv zeta. rewrite getRomCFI_split.
  rewrite cfi_parse_20; [reflexivity|].
  rewrite cfi_answer_length. lia.
Qed.



(** A CFI answer whose sector size is zero makes the erase of the
    metadata region raise [ZeroDivisionError], from the division of the
    region's size by the sector size, once the mapping is set and the
    query made; no sector is erased. *)
Theorem metadata_erase_divides_by_sector_size (w : world) :
  (55 <= List.length (rx w))%nat ->
  let cfi := cfi_answer (drop 32 w) in
  Z.land (cfi_word cfi 9) 0xFF = 0 -> Z.land (cfi_word cfi 8) 0xFF = 0 ->
  let o := eraseFlashMetadata w in
  result o = Raise ZeroDivisionError /\
  commands (events o) =
    flat_map mapping_entry_writes identity_mapping ++ cfi_commands.
Proof.
  intros Hl cfi H9 H8. cbv zeta. unfold eraseFlashMetadata. cbv zeta.
  rewrite (bind_val _ _ _ _ _ _
             (set_flashmapping_run identity_mapping w
                (proj1 identity_mapping_ok) (proj2 identity_mapping_ok))).
  assert (Hs : (23 <= List.length (rx (drop 32 w)))%nat)
    by (rewrite rx_drop, length_skipn; lia).
  pose proof (getRomCFI_full (drop 32 w) Hs) as Hq. cbv zeta in Hq.
  rewrite (bind_val _ _ _ _ _ _ Hq). cbv beta. cbn [cfi_sector_size].
  fold cfi. rewrite H9, H8.
  change (Z.lor (Z.shiftl 0 8) 0 * 256) with 0.
  rewrite (bind_raise _ _ _ _ _ _ (floordiv_zero _ _)).
  cbn [prepend result events]. split; [reflexivity|].
  unfold commands. rewrite app_nil_r, sent_app, sent_acked, sent_cfi_traffic.
  rewrite map_app, commands_mapping_frames. reflexivity.
Qed.

Lemma metadata_erase_divides_by_sector_size_witness :
  let w := World (repeat 0xaa 32 ++ [0xaa; 0; 0] ++ repeat 0 20 ++ [0xaa])
                 None (fun _ => 0) 0 in
  let o := eraseFlashMetadata w in
  result o = Raise ZeroDivisionError /\
  commands (events o) =
    flat_map mapping_entry_writes identity_mapping ++ cfi_commands.
Proof.
  intros w. apply (metadata_erase_divides_by_sector_size w).
  - cbn. lia.
  - reflexivity.
  - reflexivity.
Defined.

(* ================================================================= *)
(** ** A production run on a small image *)

(** What the operations do when the cartridge answers as they
    expect; [rx w = answer ++ r] names the bytes still to come. *)

Lemma set_rx_drop n w l r :
  rx w = l ++ r -> List.length l = n -> drop n w = set_rx w r.
Proof. intros H Hl. unfold drop. now rewrite H, skipn_exact. Qed.

(** [runs n w]: no cancel request takes effect before [n] more reads
    of the flag; [after n w]: the world once the flag has been read [n]
    times. *)
Definition runs (n : nat) (w : world) : Prop :=
  match stop_in w with
  | None => True
  | Some k => (n <= k)%nat
  end.

Definition after (n : nat) (w : world) : world :=
  World (rx w) (option_map (fun k => (k - n)%nat) (stop_in w)) (rand w)
        (rand_ix w).

Lemma running_on n w :
  runs (S n) w -> running w = Out (Val true) [Poll true] (after 1 w).
Proof.
  unfold runs, running, after. destruct w as [l [[|k]|] f i]; cbn; intros H;
    try lia; try reflexivity.
  now rewrite Nat.sub_0_r.
Qed.

Lemma runs_after n m w : runs (n + m) w -> runs m (after n w).
Proof.
  unfold runs, after. destruct w as [l [k|] f i]; cbn; [lia|trivial].
Qed.

Lemma runs_less n m w : (m <= n)%nat -> runs n w -> runs m w.
Proof. unfold runs. destruct (stop_in w); [lia|trivial]. Qed.

Lemma after_after n m w : after m (after n w) = after (n + m) w.
Proof.
  unfold after. destruct w as [l [k|] f i]; cbn; [|reflexivity].
  do 2 f_equal. lia.
Qed.

Lemma after_set_rx n w l : after n (set_rx w l) = set_rx (after n w) l.
Proof. reflexivity. Qed.

(** Worlds in the form [set_rx (after n w) l]. *)
Ltac world_norm :=
  rewrite ?after_set_rx, ?set_rx_set_rx, ?after_after, ?rx_set_rx;
  cbn [Nat.add].

Lemma rx_after n w : rx (after n w) = rx w.
Proof. reflexivity. Qed.

Lemma runs_set_rx n w l : runs n w -> runs n (set_rx w l).
Proof. exact (fun H => H). Qed.

Lemma prelude_answered {A} write_enable (k : M A) w acks r :
  0 <= write_enable <= 1 ->
  rx w = acks ++ r -> List.length acks = 36%nat ->
  (set_sc_mode 0 0 write_enable 0 0x8 ;;
   set_flashmapping identity_mapping ;; k) w =
  prepend (acked (prelude_frames write_enable) (rx w)) (k (set_rx w r)).
Proof.
  intros Hw Hrx Hl. rewrite prelude_run by exact Hw.
  now rewrite (set_rx_drop 36 w acks r Hrx Hl).
Qed.

Lemma mapping_answered w acks r :
  rx w = acks ++ r -> List.length acks = 32%nat ->
  set_flashmapping identity_mapping w =
  Out (Val true)
      (acked (flat_map mapping_entry_frames identity_mapping) (rx w))
      (set_rx w r).
Proof.
  intros Hrx Hl.
  rewrite (set_flashmapping_run identity_mapping w
             (proj1 identity_mapping_ok) (proj2 identity_mapping_ok)).
  now rewrite (set_rx_drop 32 w acks r Hrx Hl).
Qed.

Lemma getRomCFI_answered w a0 h0 h1 cfi a1 r :
  rx w = a0 :: h0 :: h1 :: cfi ++ a1 :: r -> List.length cfi = 20%nat ->
  getRomCFI w =
  Out (Val (CFI (2 ^ cfi_word cfi 0)
                (Z.lor (Z.shiftl (Z.land (cfi_word cfi 7) 0xff) 8)
                       (Z.land (cfi_word cfi 6) 0xff) + 1)
                (Z.lor (Z.shiftl (Z.land (cfi_word cfi 9) 0xff) 8)
                       (Z.land (cfi_word cfi 8) 0xff) * 256)
                (if negb (cfi_word cfi 3 =? 0) then 2 ^ cfi_word cfi 3
                 else 0)))
      (cfi_traffic w) (set_rx w r).
Proof.
  intros Hrx Hl.
  assert (Ha : cfi_answer w = cfi).
  { unfold cfi_answer. rewrite Hrx.
    change (skipn 1 (a0 :: h0 :: h1 :: cfi ++ a1 :: r))
      with (([h0; h1] ++ cfi) ++ a1 :: r).
    rewrite firstn_exact by (rewrite length_app, Hl; reflexivity).
    reflexivity. }
  assert (Hw : after_cfi w = set_rx w r).
  { unfold after_cfi. f_equal. rewrite Hrx.
    change (skipn 1 (a0 :: h0 :: h1 :: cfi ++ a1 :: r))
      with (([h0; h1] ++ cfi) ++ a1 :: r).
    rewrite skipn_exact by (rewrite length_app, Hl; reflexivity).
    reflexivity. }
  rewrite getRomCFI_split, Ha, Hw, cfi_parse_20 by exact Hl. reflexivity.
Qed.

(** The trace of the erase of the sector at [a] that reads blank at
    the first poll. *)
Definition erase_blank_trace (a : Z) (l : list Z) : trace :=
  acked (erase_sector_frames a) l
  ++ [Sleep 10; Tx (frame 0xf6 (Z.shiftl a 1) (le16 2));
      Rx 4 (firstn 4 (skipn 6 l))].

Lemma eraseSector_answered a s w acks e0 e1 r :
  0 <= a < 2 ^ 31 ->
  rx w = acks ++ e0 :: e1 :: 0xff :: 0xff :: r -> List.length acks = 6%nat ->
  eraseSector a s w = Out (Val true) (erase_blank_trace a (rx w)) (set_rx w r).
Proof.
  intros Ha Hrx Hl. change (2 ^ 31) with 2147483648 in Ha.
  assert (Hu : u32 a) by (unfold u32; lia).
  assert (Hs : u32 (Z.shiftl a 1)).
  { unfold u32. rewrite Z.shiftl_mul_pow2 by lia. change (2 ^ 1) with 2.
    lia. }
  rewrite eraseSector_run by exact Hu.
  rewrite (set_rx_drop 6 w acks _ Hrx Hl).
  set (w1 := set_rx w (e0 :: e1 :: 255 :: 255 :: r)).
  assert (Hp : forall n, poll_until (S n) 100 a w1 =
               Out (Val tt)
                   [Tx (frame 0xf6 (Z.shiftl a 1) (le16 2));
                    Rx 4 [e0; e1; 255; 255]] (set_rx w r)).
  { intros n. cbn [poll_until].
    rewrite (bind_val _ _ _ _ _ _
               (readRom_ok a 2 w1 Hs ltac:(unfold u16; lia))).
    unfold read_back, w1. rewrite !rx_set_rx, !set_rx_set_rx.
    change (Z.to_nat (2 + 2)) with 4%nat.
    change (firstn 4 (e0 :: e1 :: 255 :: 255 :: r)) with [e0; e1; 255; 255].
    change (skipn 4 (e0 :: e1 :: 255 :: 255 :: r)) with r.
    change (skipn 2 [e0; e1; 255; 255]) with [255; 255].
    rewrite (bind_pure _ _ _ _ (unpack_H_pair _ _ _)).
    reflexivity. }
  rewrite (bind_val _ _ _ _ _ _ (Hp _)).
  unfold erase_blank_trace, prepend. cbn [ret result events final].
  rewrite Hrx, (skipn_exact acks _ 6 Hl).
  change (firstn 4 (e0 :: e1 :: 255 :: 255 :: r)) with [e0; e1; 255; 255].
  rewrite <- !app_assoc, app_nil_r. reflexivity.
Qed.

Lemma programRom_answered a data buf w r :
  0 <= a < 2 ^ 32 -> 0 <= buf < 65536 -> len data < 65525 ->
  rx w = 0xaa :: r ->
  programRom a (PBytes data) (Some buf) w =
  Out (Val true) [Tx (frame 0xf4 a (le16 buf ++ data)); Rx 1 [0xaa]]
      (set_rx w r).
Proof.
  intros Ha Hb Hd Hrx. change (2 ^ 32) with 4294967296 in Ha.
  rewrite (programRom_ok a (PBytes data) data buf w eq_refl)
    by (unfold u16, u32; pose proof (len_nonneg data); lia).
  unfold programmed. rewrite Hrx. reflexivity.
Qed.

Lemma readRom_answered a n w h0 h1 payload r :
  0 <= a < 2 ^ 31 -> n < 65536 -> len payload = n ->
  rx w = h0 :: h1 :: payload ++ r ->
  readRom a n w =
  Out (Val payload)
      [Tx (frame 0xf6 (Z.shiftl a 1) (le16 n)); Rx (n + 2) (h0 :: h1 :: payload)]
      (set_rx w r).
Proof.
  intros Ha Hn Hp Hrx. change (2 ^ 31) with 2147483648 in Ha.
  pose proof (len_nonneg payload) as H0.
  assert (Hs : u32 (Z.shiftl a 1)).
  { unfold u32. rewrite Z.shiftl_mul_pow2 by lia. change (2 ^ 1) with 2.
    lia. }
  rewrite (readRom_ok a n w Hs ltac:(unfold u16; lia)).
  unfold read_back. rewrite Hrx.
  assert (Hl : List.length (h0 :: h1 :: payload) = Z.to_nat (n + 2)).
  { cbn [List.length]. unfold len in Hp. lia. }
  change (h0 :: h1 :: payload ++ r) with ((h0 :: h1 :: payload) ++ r).
  rewrite (firstn_exact _ _ _ Hl), (skipn_exact _ _ _ Hl). reflexivity.
Qed.

Lemma bind_ret_r {A} (m : M A) w : bind m (fun x => ret x) w = m w.
Proof.
  unfold bind. destruct (m w) as [[a| |e|] t w']; cbn [result events final ret];
    try reflexivity.
  now rewrite app_nil_r.
Qed.

Lemma erase_first_sector_run port sector_size w acks e0 e1 r :
  runs 1 w ->
  rx w = acks ++ e0 :: e1 :: 0xff :: 0xff :: r -> List.length acks = 6%nat ->
  fold_m (py_range 0 1 1) (erase_body port sector_size 1) 0 w =
  Out (Val 0)
      (Poll true :: erase_blank_trace 0 (rx w)
       ++ [Progress port 50; Log port (MErased 1 1)])
      (set_rx (after 1 w) r).
Proof.
  intros Hs Hrx Hl.
  change (py_range 0 1 1) with [0]. cbn [fold_m]. rewrite bind_ret_r.
  unfold erase_body.
  rewrite (bind_val _ _ _ _ _ _ (running_on 0 w Hs)). cbn [negb].
  rewrite bind_ret_l. unfold switch_segment. cbv zeta.
  change (0 * sector_size) with 0.
  change (negb (0 / segment_size =? 0)) with false. cbv iota.
  rewrite bind_ret_l.
  change (Z.shiftr (0 mod segment_size) 1) with 0.
  rewrite (bind_val _ _ _ _ _ _
             (eraseSector_answered 0 (Z.shiftr sector_size 1) (after 1 w)
                acks e0 e1 r ltac:(cbn; lia) Hrx Hl)).
  replace (py_int (PrimFloat.mul (truediv (0 + 1) 1) (float_of_Z 50)))
    with 50 by (vm_compute; reflexivity).
  plan_step.
  change (((0 + 1) mod 10 =? 0) || (0 + 1 =? 1)) with true. cbv iota.
  plan_step. unfold prepend, ret. cbn [result events final].
  change (0 + 1) with 1. rewrite app_nil_r. reflexivity.
Qed.

Lemma program_first_chunk_run port rom file_size buf w r :
  rx w = 0xaa :: r ->
  len rom = file_size -> 0 < file_size <= 2048 -> 0 <= buf < 65536 ->
  program_body port rom file_size buf (0, 0) w =
  Out (Val (2048, 0))
      [Tx (frame 0xf4 0
             (le16 buf ++ rom ++ repeat 0xff (Z.to_nat (2048 - file_size))));
       Rx 1 [0xaa];
       Log port (MWritten 2048 file_size (2048 * 100 / file_size));
       Progress port
         (50 + py_int (PrimFloat.mul (truediv 2048 file_size)
                                     (float_of_Z 50)))]
      (set_rx w r).
Proof.
  intros Hrx Hlen Hfs Hb.
  unfold program_body. cbv zeta. unfold switch_segment. cbv zeta.
  change (negb (0 / segment_size =? 0)) with false. cbv iota.
  rewrite bind_ret_l. change (0 mod segment_size) with 0.
  assert (Hslice : slice rom 0 (0 + 2048) = rom).
  { unfold slice. change (Z.to_nat 0) with 0%nat. cbn [skipn].
    apply firstn_all2. unfold len in Hlen. lia. }
  rewrite Hslice, Hlen.
  set (chunk := if file_size <? 2048
                then rom ++ repeat 255 (Z.to_nat (2048 - file_size))
                else rom).
  assert (Hchunk : chunk = rom ++ repeat 255 (Z.to_nat (2048 - file_size))).
  { subst chunk. destruct (Z.ltb_spec file_size 2048); [reflexivity|].
    replace (2048 - file_size) with 0 by lia. cbn [Z.to_nat repeat].
    now rewrite app_nil_r. }
  assert (Hcl : len chunk = 2048).
  { rewrite Hchunk, len_app, Hlen. unfold len. rewrite repeat_length. lia. }
  rewrite (bind_val _ _ _ _ _ _
             (programRom_answered 0 chunk buf w r ltac:(cbn; lia) Hb
                ltac:(lia) Hrx)).
  cbn [negb]. rewrite bind_ret_l.
  change (0 + 2048) with 2048.
  replace ((2048 mod (64 * 1024) =? 0) || (file_size <=? 2048)) with true
    by (symmetry; apply orb_true_intro; right; apply Z.leb_le; lia).
  cbv iota. do 2 plan_step.
  unfold prepend, ret. cbn [result events final app].
  rewrite Hchunk. reflexivity.
Qed.

Lemma program_one_chunk_run port rom file_size buf fuel w r :
  runs 1 w -> rx w = 0xaa :: r ->
  len rom = file_size -> 0 < file_size <= 2048 -> 0 <= buf < 65536 ->
  while_loop (S (S fuel)) (program_cond file_size)
    (program_body port rom file_size buf) (0, 0) w =
  Out (Val (2048, 0))
      [Poll true;
       Tx (frame 0xf4 0
             (le16 buf ++ rom ++ repeat 0xff (Z.to_nat (2048 - file_size))));
       Rx 1 [0xaa];
       Log port (MWritten 2048 file_size (2048 * 100 / file_size));
       Progress port
         (50 + py_int (PrimFloat.mul (truediv 2048 file_size)
                                     (float_of_Z 50)))]
      (set_rx (after 1 w) r).
Proof.
  intros Hs Hrx Hlen Hfs Hb.
  cbn [while_loop]. unfold program_cond, and_running.
  replace (0 <? file_size) with true by (symmetry; apply Z.ltb_lt; lia).
  rewrite (bind_val _ _ _ _ _ _ (running_on 0 w Hs)). cbv iota.
  rewrite (bind_val _ _ _ _ _ _
             (program_first_chunk_run port rom file_size buf (after 1 w) r
                Hrx Hlen Hfs Hb)).
  replace (2048 <? file_size) with false by (symmetry; apply Z.ltb_ge; lia).
  rewrite bind_ret_l. reflexivity.
Qed.

Lemma verify_first_chunk_run port rom file_size w v0 v1 r :
  rx w = v0 :: v1 :: rom ++ r ->
  len rom = file_size -> 0 < file_size <= 2048 ->
  verify_body port rom file_size (0, 0) w =
  Out (Val (file_size, 0))
      [Tx (frame 0xf6 (Z.shiftl 0 1) (le16 file_size));
       Rx (file_size + 2) (v0 :: v1 :: rom);
       Log port (MVerified 0 0)]
      (set_rx w r).
Proof.
  intros Hrx Hlen Hfs.
  unfold verify_body. cbv zeta. unfold switch_segment. cbv zeta.
  change (negb (0 / segment_size =? 0)) with false. cbv iota.
  rewrite bind_ret_l. change (Z.shiftr (0 mod segment_size) 1) with 0.
  replace (Z.min 4096 (file_size - 0)) with file_size by lia.
  assert (Hslice : slice rom 0 (0 + file_size) = rom).
  { unfold slice. change (Z.to_nat 0) with 0%nat. cbn [skipn].
    apply firstn_all2. unfold len in Hlen. lia. }
  rewrite Hslice.
  rewrite (bind_val _ _ _ _ _ _
             (readRom_answered 0 file_size w v0 v1 rom r ltac:(cbn; lia)
                ltac:(lia) Hlen Hrx)).
  replace (bytes_eqb rom rom) with true
    by (symmetry; now apply bytes_eqb_eq).
  cbn [negb]. rewrite bind_ret_l.
  replace (((0 + file_size) mod (1024 * 1024) =? 0)
           || (file_size <=? 0 + file_size)) with true
    by (symmetry; apply orb_true_intro; right; apply Z.leb_le; lia).
  cbv iota. plan_step.
  replace ((0 + file_size) / (1024 * 1024)) with 0
    by (symmetry; apply Z.div_small; lia).
  replace (file_size / (1024 * 1024)) with 0
    by (symmetry; apply Z.div_small; lia).
  unfold prepend, ret. cbn [result events final app].
  replace (0 + file_size) with file_size by lia. reflexivity.
Qed.

Lemma verify_one_chunk_run port rom file_size fuel w v0 v1 r :
  runs 1 w -> rx w = v0 :: v1 :: rom ++ r ->
  len rom = file_size -> 0 < file_size <= 2048 ->
  while_loop (S (S fuel)) (verify_cond file_size)
    (verify_body port rom file_size) (0, 0) w =
  Out (Val (file_size, 0))
      [Poll true; Tx (frame 0xf6 (Z.shiftl 0 1) (le16 file_size));
       Rx (file_size + 2) (v0 :: v1 :: rom);
       Log port (MVerified 0 0)]
      (set_rx (after 1 w) r).
Proof.
  intros Hs Hrx Hlen Hfs.
  cbn [while_loop]. unfold verify_cond, and_running.
  replace (0 <? file_size) with true by (symmetry; apply Z.ltb_lt; lia).
  rewrite (bind_val _ _ _ _ _ _ (running_on 0 w Hs)). cbv iota.
  rewrite (bind_val _ _ _ _ _ _
             (verify_first_chunk_run port rom file_size (after 1 w) v0 v1 r
                Hrx Hlen Hfs)).
  replace (file_size <? file_size) with false
    by (symmetry; apply Z.ltb_irrefl).
  rewrite bind_ret_l. reflexivity.
Qed.

(** The geometry a 20-byte CFI response decodes to. *)
Definition geometry (cfi : list Z) : cfi_info :=
  CFI (2 ^ cfi_word cfi 0)
      (Z.lor (Z.shiftl (Z.land (cfi_word cfi 7) 0xff) 8)
             (Z.land (cfi_word cfi 6) 0xff) + 1)
      (Z.lor (Z.shiftl (Z.land (cfi_word cfi 9) 0xff) 8)
             (Z.land (cfi_word cfi 8) 0xff) * 256)
      (if negb (cfi_word cfi 3 =? 0) then 2 ^ cfi_word cfi 3 else 0).

(** The bytes of a cartridge that answers a production run on an image
    of one sector and one chunk: acknowledgements of the 36 opening
    writes, the CFI response [cfi] between the acknowledgements of its
    two writes, six acknowledgements and a blank word for the erase, 36
    acknowledgements and [0xAA] for the program command, 32
    acknowledgements of the mapping and the image [rom] behind a 2-byte
    header for the read back; then [rest]. *)
Definition answers_small_image (cfi rom rest l : list Z) : Prop :=
  exists acks1 a0 h0 h1 a1 acks2 e0 e1 acks3 acks4 v0 v1,
    l = acks1 ++ a0 :: h0 :: h1 :: cfi ++ a1 ::
        acks2 ++ e0 :: e1 :: 0xff :: 0xff ::
        acks3 ++ 0xaa ::
        acks4 ++ v0 :: v1 :: rom ++ rest /\
    List.length acks1 = 36%nat /\ List.length cfi = 20%nat /\
    List.length acks2 = 6%nat /\ List.length acks3 = 36%nat /\
    List.length acks4 = 32%nat.

Lemma sent_erase_blank_trace a l :
  sent (erase_blank_trace a l) =
  erase_sector_frames a ++ [frame 0xf6 (Z.shiftl a 1) (le16 2)].
Proof. unfold erase_blank_trace. now rewrite sent_app, sent_acked. Qed.

Lemma signals_erase_blank_trace a l : signals (erase_blank_trace a l) = [].
Proof. unfold erase_blank_trace. now rewrite signals_app, signals_acked. Qed.

Lemma production_write_small port rom file_size sector_size buf w
  acks2 e0 e1 acks3 r :
  runs 3 w ->
  rx w = acks2 ++ e0 :: e1 :: 0xff :: 0xff :: acks3 ++ 0xaa :: r ->
  List.length acks2 = 6%nat -> List.length acks3 = 36%nat ->
  len rom = file_size -> 0 < file_size <= 2048 -> 0 <= buf < 65536 ->
  production_write port rom file_size sector_size buf 1 w =
  Out (Val tt)
      ([Log port (MErasing 1); Poll true]
       ++ erase_blank_trace 0 (rx w)
       ++ [Progress port 50; Log port (MErased 1 1);
           Log port MEraseDoneWriting]
       ++ acked (prelude_frames 1) (acks3 ++ 0xaa :: r)
       ++ [Sleep 10; Poll true;
           Tx (frame 0xf4 0
                 (le16 buf ++ rom
                  ++ repeat 0xff (Z.to_nat (2048 - file_size))));
           Rx 1 [0xaa];
           Log port (MWritten 2048 file_size (2048 * 100 / file_size));
           Progress port
             (50 + py_int (PrimFloat.mul (truediv 2048 file_size)
                                         (float_of_Z 50)));
           Poll true])
      (set_rx (after 3 w) r).
Proof.
  intros Hs Hrx Hl2 Hl3 Hlen Hfs Hb. unfold production_write.
  plan_step.
  rewrite (bind_val _ _ _ _ _ _
             (erase_first_sector_run port sector_size w acks2 e0 e1 _
                (runs_less 3 1 w ltac:(lia) Hs) Hrx Hl2)).
  plan_step.
  rewrite (prelude_answered 1 _ _ acks3 (0xaa :: r) ltac:(lia)
             (rx_set_rx _ _) Hl3).
  rewrite set_rx_set_rx, rx_set_rx. plan_step.
  assert (H2 : runs 2 (after 1 w)) by (apply (runs_after 1 2), Hs).
  rewrite (bind_val _ _ _ _ _ _
             (program_one_chunk_run port rom file_size buf _
                (set_rx (after 1 w) (0xaa :: r)) r
                (runs_less 2 1 _ ltac:(lia) H2) (rx_set_rx _ _)
                Hlen Hfs Hb)).
  world_norm.
  assert (H1 : runs 1 (after 2 w)) by (apply (runs_after 2 1), Hs).
  rewrite (bind_val _ _ _ _ _ _ (running_on 0 (set_rx (after 2 w) r) H1)).
  world_norm.
  cbn [negb]. unfold prepend, ret. cbn [result events final].
  f_equal; cbn [app]; rewrite <- ?app_assoc; reflexivity.
Qed.

Lemma production_verify_small port rom file_size w acks4 v0 v1 r :
  runs 1 w ->
  rx w = acks4 ++ v0 :: v1 :: rom ++ r -> List.length acks4 = 32%nat ->
  len rom = file_size -> 0 < file_size <= 2048 ->
  production_verify port rom file_size w =
  Out (Val tt)
      (Log port MWriteDoneVerifying
       :: acked (flat_map mapping_entry_frames identity_mapping) (rx w)
       ++ [Poll true; Tx (frame 0xf6 (Z.shiftl 0 1) (le16 file_size));
           Rx (file_size + 2) (v0 :: v1 :: rom);
           Log port (MVerified 0 0); Log port MProdDone;
           Progress port 100; Finished port true])
      (set_rx (after 1 w) r).
Proof.
  intros Hs Hrx Hl4 Hlen Hfs. unfold production_verify.
  plan_step.
  rewrite (bind_val _ _ _ _ _ _ (mapping_answered w acks4 _ Hrx Hl4)).
  rewrite (bind_val _ _ _ _ _ _
             (verify_one_chunk_run port rom file_size _
                (set_rx w (v0 :: v1 :: rom ++ r)) v0 v1 r Hs
                (rx_set_rx _ _) Hlen Hfs)).
  world_norm. do 2 plan_step.
  unfold prepend, finished, emit. cbn [result events final].
  f_equal; cbn [app]; rewrite <- ?app_assoc; reflexivity.
Qed.

(** The production of an image that fits one sector and one chunk of
    2048 bytes, on a cartridge that answers as expected and with no
    cancel request before the fourth read of the flag.  The image is padded with [0x00] to an even length;
    one sector is erased, at word 0; one program command is sent, at
    byte 0, whose 2048 bytes are the padded image followed by [0xFF];
    the read back asks for exactly the bytes of the padded image; the
    run reports success.  The progress values are 50 after the erase,
    [50 + int(2048 / size * 50)] after the program command and 100 at
    the end. *)
Theorem production_of_a_small_image
  (port : string) (rom_data : list Z) (w : world) (cfi rest : list Z) :
  let rom :=
    if negb (len rom_data mod 2 =? 0) then rom_data ++ [0x00] else rom_data in
  let size := len rom in
  let g := geometry cfi in
  rom_data <> [] -> size <= 2048 -> size <= cfi_sector_size g ->
  cfi_buffer_write_bytes g < 65536 ->
  runs 4 w ->
  answers_small_image cfi rom rest (rx w) ->
  let o := ProductionWorker_run port rom_data w in
  commands (events o) =
    prelude_commands 0x84 ++ cfi_commands
    ++ [word_write 0x555 0xAA; word_write 0x2AA 0x55; word_write 0x555 0x80;
        word_write 0x555 0xAA; word_write 0x2AA 0x55; word_write 0 0x30;
        CmdReadRom 0 2]
    ++ prelude_commands 0x84
    ++ [CmdProgramRom 0 (cfi_buffer_write_bytes g)
          (rom ++ repeat 0xFF (Z.to_nat (2048 - size)))]
    ++ flat_map mapping_entry_writes identity_mapping
    ++ [CmdReadRom 0 size] /\
  signals (events o) =
    [Log port MProdStart; Log port (MRomSize (len rom_data));
     Log port MProdWriting;
     Log port (MGeometry (cfi_sector_size g) (cfi_buffer_write_bytes g));
     Log port (MErasing 1); Poll true; Progress port 50;
     Log port (MErased 1 1); Log port MEraseDoneWriting; Poll true;
     Log port (MWritten 2048 size (2048 * 100 / size));
     Progress port
       (50 + py_int (PrimFloat.mul (truediv 2048 size) (float_of_Z 50)));
     Poll true; Log port MWriteDoneVerifying; Poll true;
     Log port (MVerified 0 0); Log port MProdDone; Progress port 100;
     Finished port true] /\
  rx (final o) = rest.
Proof.
  intros rom size g Hne Hsz Hss Hbuf Hs
    (acks1 & a0 & h0 & h1 & a1 & acks2 & e0 & e1 & acks3 & acks4 & v0 & v1
     & Hrx & Hl1 & Hlc & Hl2 & Hl3 & Hl4).
  assert (Hpos : 0 < size).
  { subst size rom. unfold len. destruct rom_data; [contradiction|].
    destruct (negb _); rewrite ?length_app; cbn [List.length]; lia. }
  assert (Hb0 : 0 <= cfi_buffer_write_bytes g).
  { subst g. unfold geometry. cbn [cfi_buffer_write_bytes].
    destruct (negb (cfi_word cfi 3 =? 0)); [apply Z.pow_nonneg|]; lia. }
  set (r1 := a0 :: h0 :: h1 :: cfi ++ a1 ::
             acks2 ++ e0 :: e1 :: 0xff :: 0xff ::
             acks3 ++ 0xaa :: acks4 ++ v0 :: v1 :: rom ++ rest) in *.
  set (r2 := acks2 ++ e0 :: e1 :: 0xff :: 0xff ::
             acks3 ++ 0xaa :: acks4 ++ v0 :: v1 :: rom ++ rest) in *.
  set (r4 := acks4 ++ v0 :: v1 :: rom ++ rest) in *.
  cbv zeta. unfold ProductionWorker_run.
  match goal with
  | |- context [try_except ?b ?h] => set (body := b)
  end.
  assert (Hbody : exists t,
    body w = Out (Val tt) t (set_rx (after 4 w) rest) /\
    sent t =
      prelude_frames 1 ++ cfi_frames
      ++ (erase_sector_frames 0 ++ [frame 0xf6 (Z.shiftl 0 1) (le16 2)])
      ++ prelude_frames 1
      ++ [frame 0xf4 0 (le16 (cfi_buffer_write_bytes g) ++ rom
                        ++ repeat 0xff (Z.to_nat (2048 - size)))]
      ++ flat_map mapping_entry_frames identity_mapping
      ++ [frame 0xf6 (Z.shiftl 0 1) (le16 size)] /\
    signals t =
      [Log port MProdStart; Log port (MRomSize (len rom_data));
       Log port MProdWriting;
       Log port (MGeometry (cfi_sector_size g) (cfi_buffer_write_bytes g));
       Log port (MErasing 1); Poll true; Progress port 50;
       Log port (MErased 1 1); Log port MEraseDoneWriting; Poll true;
       Log port (MWritten 2048 size (2048 * 100 / size));
       Progress port
         (50 + py_int (PrimFloat.mul (truediv 2048 size) (float_of_Z 50)));
       Poll true; Log port MWriteDoneVerifying; Poll true;
       Log port (MVerified 0 0); Log port MProdDone; Progress port 100;
       Finished port true]).
  { subst body. cbv zeta. fold rom. fold size.
    do 2 plan_step.
    rewrite (prelude_answered 1 _ w acks1 r1 ltac:(lia) Hrx Hl1).
    do 2 plan_step.
    rewrite (bind_val _ _ _ _ _ _
               (getRomCFI_answered (set_rx w r1) a0 h0 h1 cfi a1 r2
                  (rx_set_rx _ _) Hlc)).
    fold (geometry cfi). fold g. cbv beta. rewrite set_rx_set_rx. plan_step.
    assert (NZ : cfi_sector_size g <> 0) by lia.
    rewrite (bind_pure _ _ _ _ (floordiv_run _ _ _ NZ)). cbv beta.
    replace ((size - 1) / cfi_sector_size g + 1) with 1
      by (rewrite Z.div_small by lia; reflexivity).
    rewrite (bind_val _ _ _ _ _ _
               (production_write_small port rom size (cfi_sector_size g)
                  (cfi_buffer_write_bytes g) (set_rx w r2)
                  acks2 e0 e1 acks3 r4 (runs_less 4 3 w ltac:(lia) Hs)
                  (rx_set_rx _ _) Hl2 Hl3
                  eq_refl (conj Hpos Hsz) (conj Hb0 Hbuf))).
    world_norm.
    rewrite (production_verify_small port rom size (set_rx (after 3 w) r4)
               acks4 v0 v1 rest (runs_after 3 1 _ Hs) (rx_set_rx _ _) Hl4
               eq_refl (conj Hpos Hsz)).
    world_norm.
    rewrite !prepend_prepend, prepend_out.
    eexists. split; [reflexivity|]. split.
    - rewrite !sent_app, !sent_acked, sent_cfi_traffic,
        sent_erase_blank_trace.
      cbn [sent flat_map app]. rewrite sent_app, sent_acked.
      cbn [sent flat_map app]. rewrite <- !app_assoc. reflexivity.
    - rewrite !signals_app, !signals_acked, signals_cfi_traffic,
        signals_erase_blank_trace.
      cbn [signals filter is_io negb app].
      rewrite signals_app, signals_acked. reflexivity. }
  destruct Hbody as (t & Hb & Hsent & Hsig).
  unfold try_except. rewrite Hb. cbn [result events final].
  split; [|split; [exact Hsig | apply rx_set_rx]].
  unfold commands. rewrite Hsent, !map_app.
  rewrite commands_mapping_frames. cbn [map].
  rewrite (decode_program_frame 0 _ _ ltac:(unfold u32; lia)).
  rewrite (decode_read_frame 0 size ltac:(unfold u32; cbn; lia)).
  reflexivity.
Qed.

Lemma production_of_a_small_image_witness :
  let cfi := [27; 0; 0; 0; 0; 0; 9; 0; 0; 0; 0; 0; 255; 0; 3; 0; 0; 0; 2; 0] in
  let w := World (repeat 0xaa 36 ++ 0xaa :: 0 :: 0 :: cfi ++ 0xaa ::
                  repeat 0xaa 6 ++ 0 :: 0 :: 0xff :: 0xff ::
                  repeat 0xaa 36 ++ 0xaa ::
                  repeat 0xaa 32 ++ 0 :: 0 :: [1; 2; 3; 0] ++ [])
                 None (fun _ => 0) 0 in
  let o := ProductionWorker_run "COM3" [1; 2; 3] w in
  commands (events o) =
    prelude_commands 0x84 ++ cfi_commands
    ++ [word_write 0x555 0xAA; word_write 0x2AA 0x55; word_write 0x555 0x80;
        word_write 0x555 0xAA; word_write 0x2AA 0x55; word_write 0 0x30;
        CmdReadRom 0 2]
    ++ prelude_commands 0x84
    ++ [CmdProgramRom 0 512 ([1; 2; 3; 0] ++ repeat 0xFF 2044)]
    ++ flat_map mapping_entry_writes identity_mapping
    ++ [CmdReadRom 0 4] /\
  signals (events o) =
    [Log "COM3" MProdStart; Log "COM3" (MRomSize 3);
     Log "COM3" MProdWriting; Log "COM3" (MGeometry 131072 512);
     Log "COM3" (MErasing 1); Poll true; Progress "COM3" 50;
     Log "COM3" (MErased 1 1); Log "COM3" MEraseDoneWriting; Poll true;
     Log "COM3" (MWritten 2048 4 51200); Progress "COM3" 25650;
     Poll true; Log "COM3" MWriteDoneVerifying; Poll true;
     Log "COM3" (MVerified 0 0); Log "COM3" MProdDone; Progress "COM3" 100;
     Finished "COM3" true] /\
  rx (final o) = [].
Proof.
  intros cfi w.
  apply (production_of_a_small_image "COM3" [1; 2; 3] w cfi []).
  - discriminate.
  - vm_compute. discriminate.
  - vm_compute. discriminate.
  - reflexivity.
  - exact I.
  - exists (repeat 0xaa 36), 0xaa, 0, 0, 0xaa, (repeat 0xaa 6), 0, 0,
      (repeat 0xaa 36), (repeat 0xaa 32), 0, 0.
    repeat split; reflexivity.
Defined.

Lemma production_verify_cancelled port rom file_size w acks4 r :
  stop_in w = Some 0%nat -> 0 < file_size ->
  rx w = acks4 ++ r -> List.length acks4 = 32%nat ->
  production_verify port rom file_size w =
  Out (Val tt)
      (Log port MWriteDoneVerifying
       :: acked (flat_map mapping_entry_frames identity_mapping) (rx w)
       ++ [Poll false; Log port MProdDone; Progress port 100;
           Finished port true])
      (set_rx w r).
Proof.
  intros Hs Hfs Hrx Hl4. unfold production_verify.
  plan_step.
  rewrite (bind_val _ _ _ _ _ _ (mapping_answered w acks4 _ Hrx Hl4)).
  assert (Hloop : forall fuel,
    while_loop (S fuel) (verify_cond file_size)
      (verify_body port rom file_size) (0, 0) (set_rx w r) =
    Out (Val (0, 0)) [Poll false] (set_rx w r)).
  { intros fuel. cbn [while_loop]. unfold verify_cond, and_running.
    replace (0 <? file_size) with true by (symmetry; apply Z.ltb_lt; lia).
    rewrite (bind_val _ _ _ _ _ _ (running_stopped (set_rx w r) Hs)).
    reflexivity. }
  rewrite (bind_val _ _ _ _ _ _ (Hloop _)). do 2 plan_step.
  unfold prepend, finished, emit. cbn [result events final].
  f_equal; cbn [app]; rewrite <- ?app_assoc; reflexivity.
Qed.

(** The same production run when a cancel request takes effect at the
    fourth read of the flag, after the program command: the read-back
    loop is left at once, nothing is read back or compared, and the run
    still ends with the completion log, progress 100 and
    [finished(True)]. *)
Theorem production_cancelled_before_read_back_reports_success
  (port : string) (rom_data : list Z) (w : world) (cfi rest : list Z) :
  let rom :=
    if negb (len rom_data mod 2 =? 0) then rom_data ++ [0x00] else rom_data in
  let size := len rom in
  let g := geometry cfi in
  rom_data <> [] -> size <= 2048 -> size <= cfi_sector_size g ->
  cfi_buffer_write_bytes g < 65536 ->
  stop_in w = Some 3%nat ->
  answers_small_image cfi rom rest (rx w) ->
  let o := ProductionWorker_run port rom_data w in
  commands (events o) =
    prelude_commands 0x84 ++ cfi_commands
    ++ [word_write 0x555 0xAA; word_write 0x2AA 0x55; word_write 0x555 0x80;
        word_write 0x555 0xAA; word_write 0x2AA 0x55; word_write 0 0x30;
        CmdReadRom 0 2]
    ++ prelude_commands 0x84
    ++ [CmdProgramRom 0 (cfi_buffer_write_bytes g)
          (rom ++ repeat 0xFF (Z.to_nat (2048 - size)))]
    ++ flat_map mapping_entry_writes identity_mapping /\
  signals (events o) =
    [Log port MProdStart; Log port (MRomSize (len rom_data));
     Log port MProdWriting;
     Log port (MGeometry (cfi_sector_size g) (cfi_buffer_write_bytes g));
     Log port (MErasing 1); Poll true; Progress port 50;
     Log port (MErased 1 1); Log port MEraseDoneWriting; Poll true;
     Log port (MWritten 2048 size (2048 * 100 / size));
     Progress port
       (50 + py_int (PrimFloat.mul (truediv 2048 size) (float_of_Z 50)));
     Poll true; Log port MWriteDoneVerifying; Poll false;
     Log port MProdDone; Progress port 100; Finished port true].
Proof.
  intros rom size g Hne Hsz Hss Hbuf Hstop
    (acks1 & a0 & h0 & h1 & a1 & acks2 & e0 & e1 & acks3 & acks4 & v0 & v1
     & Hrx & Hl1 & Hlc & Hl2 & Hl3 & Hl4).
  assert (Hs : runs 3 w) by (unfold runs; rewrite Hstop; lia).
  assert (Hs0 : stop_in (after 3 w) = Some 0%nat)
    by (unfold after; cbn; now rewrite Hstop).
  assert (Hpos : 0 < size).
  { subst size rom. unfold len. destruct rom_data; [contradiction|].
    destruct (negb _); rewrite ?length_app; cbn [List.length]; lia. }
  assert (Hb0 : 0 <= cfi_buffer_write_bytes g).
  { subst g. unfold geometry. cbn [cfi_buffer_write_bytes].
    destruct (negb (cfi_word cfi 3 =? 0)); [apply Z.pow_nonneg|]; lia. }
  set (r1 := a0 :: h0 :: h1 :: cfi ++ a1 ::
             acks2 ++ e0 :: e1 :: 0xff :: 0xff ::
             acks3 ++ 0xaa :: acks4 ++ v0 :: v1 :: rom ++ rest) in *.
  set (r2 := acks2 ++ e0 :: e1 :: 0xff :: 0xff ::
             acks3 ++ 0xaa :: acks4 ++ v0 :: v1 :: rom ++ rest) in *.
  set (r4 := acks4 ++ v0 :: v1 :: rom ++ rest) in *.
  cbv zeta. unfold ProductionWorker_run.
  match goal with
  | |- context [try_except ?b ?h] => set (body := b)
  end.
  assert (Hbody : exists t w',
    body w = Out (Val tt) t w' /\
    sent t =
      prelude_frames 1 ++ cfi_frames
      ++ (erase_sector_frames 0 ++ [frame 0xf6 (Z.shiftl 0 1) (le16 2)])
      ++ prelude_frames 1
      ++ [frame 0xf4 0 (le16 (cfi_buffer_write_bytes g) ++ rom
                        ++ repeat 0xff (Z.to_nat (2048 - size)))]
      ++ flat_map mapping_entry_frames identity_mapping /\
    signals t =
      [Log port MProdStart; Log port (MRomSize (len rom_data));
       Log port MProdWriting;
       Log port (MGeometry (cfi_sector_size g) (cfi_buffer_write_bytes g));
       Log port (MErasing 1); Poll true; Progress port 50;
       Log port (MErased 1 1); Log port MEraseDoneWriting; Poll true;
       Log port (MWritten 2048 size (2048 * 100 / size));
       Progress port
         (50 + py_int (PrimFloat.mul (truediv 2048 size) (float_of_Z 50)));
       Poll true; Log port MWriteDoneVerifying; Poll false;
       Log port MProdDone; Progress port 100; Finished port true]).
  { subst body. cbv zeta. fold rom. fold size.
    do 2 plan_step.
    rewrite (prelude_answered 1 _ w acks1 r1 ltac:(lia) Hrx Hl1).
    do 2 plan_step.
    rewrite (bind_val _ _ _ _ _ _
               (getRomCFI_answered (set_rx w r1) a0 h0 h1 cfi a1 r2
                  (rx_set_rx _ _) Hlc)).
    fold (geometry cfi). fold g. cbv beta. rewrite set_rx_set_rx. plan_step.
    assert (NZ : cfi_sector_size g <> 0) by lia.
    rewrite (bind_pure _ _ _ _ (floordiv_run _ _ _ NZ)). cbv beta.
    replace ((size - 1) / cfi_sector_size g + 1) with 1
      by (rewrite Z.div_small by lia; reflexivity).
    rewrite (bind_val _ _ _ _ _ _
               (production_write_small port rom size (cfi_sector_size g)
                  (cfi_buffer_write_bytes g) (set_rx w r2)
                  acks2 e0 e1 acks3 r4 Hs
                  (rx_set_rx _ _) Hl2 Hl3
                  eq_refl (conj Hpos Hsz) (conj Hb0 Hbuf))).
    world_norm.
    rewrite (production_verify_cancelled port rom size (set_rx (after 3 w) r4)
               acks4 (v0 :: v1 :: rom ++ rest) Hs0 Hpos (rx_set_rx _ _) Hl4).
    world_norm.
    rewrite !prepend_prepend, prepend_out.
    do 2 eexists. split; [reflexivity|]. split.
    - rewrite !sent_app, !sent_acked, sent_cfi_traffic,
        sent_erase_blank_trace.
      cbn [sent flat_map app]. rewrite sent_app, sent_acked.
      cbn [sent flat_map app]. rewrite <- !app_assoc, app_nil_r.
      reflexivity.
    - rewrite !signals_app, !signals_acked, signals_cfi_traffic,
        signals_erase_blank_trace.
      cbn [signals filter is_io negb app].
      rewrite signals_app, signals_acked. reflexivity. }
  destruct Hbody as (t & w' & Hb & Hsent & Hsig).
  unfold try_except. rewrite Hb. cbn [result events final].
  split; [|exact Hsig].
  unfold commands. rewrite Hsent, !map_app.
  rewrite commands_mapping_frames. cbn [map].
  rewrite (decode_program_frame 0 _ _ ltac:(unfold u32; lia)).
  reflexivity.
Qed.

Lemma production_cancelled_before_read_back_reports_success_witness :
  let cfi := [27; 0; 0; 0; 0; 0; 9; 0; 0; 0; 0; 0; 255; 0; 3; 0; 0; 0; 2; 0] in
  let w := World (repeat 0xaa 36 ++ 0xaa :: 0 :: 0 :: cfi ++ 0xaa ::
                  repeat 0xaa 6 ++ 0 :: 0 :: 0xff :: 0xff ::
                  repeat 0xaa 36 ++ 0xaa ::
                  repeat 0xaa 32 ++ 0 :: 0 :: [1; 2; 3; 0] ++ [])
                 (Some 3%nat) (fun _ => 0) 0 in
  let o := ProductionWorker_run "COM3" [1; 2; 3] w in
  commands (events o) =
    prelude_commands 0x84 ++ cfi_commands
    ++ [word_write 0x555 0xAA; word_write 0x2AA 0x55; word_write 0x555 0x80;
        word_write 0x555 0xAA; word_write 0x2AA 0x55; word_write 0 0x30;
        CmdReadRom 0 2]
    ++ prelude_commands 0x84
    ++ [CmdProgramRom 0 512 ([1; 2; 3; 0] ++ repeat 0xFF 2044)]
    ++ flat_map mapping_entry_writes identity_mapping /\
  signals (events o) =
    [Log "COM3" MProdStart; Log "COM3" (MRomSize 3);
     Log "COM3" MProdWriting; Log "COM3" (MGeometry 131072 512);
     Log "COM3" (MErasing 1); Poll true; Progress "COM3" 50;
     Log "COM3" (MErased 1 1); Log "COM3" MEraseDoneWriting; Poll true;
     Log "COM3" (MWritten 2048 4 51200); Progress "COM3" 25650;
     Poll true; Log "COM3" MWriteDoneVerifying; Poll false;
     Log "COM3" MProdDone; Progress "COM3" 100; Finished "COM3" true].
Proof.
  intros cfi w.
  apply (production_cancelled_before_read_back_reports_success
           "COM3" [1; 2; 3] w cfi []).
  - discriminate.
  - vm_compute. discriminate.
  - vm_compute. discriminate.
  - reflexivity.
  - reflexivity.
  - exists (repeat 0xaa 36), 0xaa, 0, 0, 0xaa, (repeat 0xaa 6), 0, 0,
      (repeat 0xaa 36), (repeat 0xaa 32), 0, 0.
    repeat split; reflexivity.
Defined.

(* ================================================================= *)
(** ** A backup takes what it gets *)
















Lemma verify_first_chunk_mismatch port rom file_size w v0 v1 back r :
  rx w = v0 :: v1 :: back ++ r ->
  len rom = file_size -> len back = file_size -> back <> rom ->
  0 < file_size <= 2048 ->
  verify_body port rom file_size (0, 0) w =
  Out (Raise (PlanException (FVerify 0)))
      [Tx (frame 0xf6 (Z.shiftl 0 1) (le16 file_size));
       Rx (file_size + 2) (v0 :: v1 :: back)]
      (set_rx w r).
Proof.
  intros Hrx Hlen Hlb Hne Hfs.
  unfold verify_body. cbv zeta. unfold switch_segment. cbv zeta.
  change (negb (0 / segment_size =? 0)) with false. cbv iota.
  rewrite bind_ret_l. change (Z.shiftr (0 mod segment_size) 1) with 0.
  replace (Z.min 4096 (file_size - 0)) with file_size by lia.
  assert (Hslice : slice rom 0 (0 + file_size) = rom).
  { unfold slice. change (Z.to_nat 0) with 0%nat. cbn [skipn].
    apply firstn_all2. unfold len in Hlen. lia. }
  rewrite Hslice.
  rewrite (bind_val _ _ _ _ _ _
             (readRom_answered 0 file_size w v0 v1 back r ltac:(cbn; lia)
                ltac:(lia) Hlb Hrx)).
  assert (Hneq : bytes_eqb back rom = false).
  { destruct (bytes_eqb back rom) eqn:E; [|reflexivity].
    apply bytes_eqb_eq in E. contradiction. }
  rewrite Hneq. cbn [negb].
  unfold prepend, bind, raise. cbn [result events final]. reflexivity.
Qed.

Lemma production_verify_mismatch port rom file_size w acks4 v0 v1 back r :
  runs 1 w ->
  rx w = acks4 ++ v0 :: v1 :: back ++ r -> List.length acks4 = 32%nat ->
  len rom = file_size -> len back = file_size -> back <> rom ->
  0 < file_size <= 2048 ->
  production_verify port rom file_size w =
  Out (Raise (PlanException (FVerify 0)))
      (Log port MWriteDoneVerifying
       :: acked (flat_map mapping_entry_frames identity_mapping) (rx w)
       ++ [Poll true; Tx (frame 0xf6 (Z.shiftl 0 1) (le16 file_size));
           Rx (file_size + 2) (v0 :: v1 :: back)])
      (set_rx (after 1 w) r).
Proof.
  intros Hs Hrx Hl4 Hlen Hlb Hne Hfs. unfold production_verify.
  plan_step.
  rewrite (bind_val _ _ _ _ _ _ (mapping_answered w acks4 _ Hrx Hl4)).
  assert (Hloop : forall fuel,
    while_loop (S fuel) (verify_cond file_size)
      (verify_body port rom file_size) (0, 0)
      (set_rx w (v0 :: v1 :: back ++ r)) =
    Out (Raise (PlanException (FVerify 0)))
        [Poll true; Tx (frame 0xf6 (Z.shiftl 0 1) (le16 file_size));
         Rx (file_size + 2) (v0 :: v1 :: back)]
        (set_rx (after 1 w) r)).
  { intros fuel. cbn [while_loop]. unfold verify_cond, and_running.
    replace (0 <? file_size) with true by (symmetry; apply Z.ltb_lt; lia).
    rewrite (bind_val _ _ _ _ _ _ (running_on 0 (set_rx w _) Hs)). cbv iota.
    rewrite (bind_raise _ _ _ _ _ _
               (verify_first_chunk_mismatch port rom file_size
                  (after 1 (set_rx w (v0 :: v1 :: back ++ r)))
                  v0 v1 back r (rx_set_rx _ _) Hlen Hlb Hne Hfs)).
    world_norm. reflexivity. }
  rewrite (bind_raise _ _ _ _ _ _ (Hloop _)).
  unfold prepend. cbn [result events final].
  f_equal; cbn [app]; rewrite <- ?app_assoc; reflexivity.
Qed.

(** The same production run when the bytes read back differ from the
    padded image: the run sends the same commands, raises at the
    comparison, logs the failure with the offset 0 and ends with
    [finished(False)]; with the theorem on the small image, a
    production run that is not cancelled reports success exactly when
    the read back returns the image. *)
Theorem production_detects_a_bad_read_back
  (port : string) (rom_data : list Z) (w : world) (cfi back rest : list Z) :
  let rom :=
    if negb (len rom_data mod 2 =? 0) then rom_data ++ [0x00] else rom_data in
  let size := len rom in
  let g := geometry cfi in
  rom_data <> [] -> size <= 2048 -> size <= cfi_sector_size g ->
  cfi_buffer_write_bytes g < 65536 ->
  runs 4 w ->
  answers_small_image cfi back rest (rx w) ->
  len back = size -> back <> rom ->
  let o := ProductionWorker_run port rom_data w in
  commands (events o) =
    prelude_commands 0x84 ++ cfi_commands
    ++ [word_write 0x555 0xAA; word_write 0x2AA 0x55; word_write 0x555 0x80;
        word_write 0x555 0xAA; word_write 0x2AA 0x55; word_write 0 0x30;
        CmdReadRom 0 2]
    ++ prelude_commands 0x84
    ++ [CmdProgramRom 0 (cfi_buffer_write_bytes g)
          (rom ++ repeat 0xFF (Z.to_nat (2048 - size)))]
    ++ flat_map mapping_entry_writes identity_mapping
    ++ [CmdReadRom 0 size] /\
  signals (events o) =
    [Log port MProdStart; Log port (MRomSize (len rom_data));
     Log port MProdWriting;
     Log port (MGeometry (cfi_sector_size g) (cfi_buffer_write_bytes g));
     Log port (MErasing 1); Poll true; Progress port 50;
     Log port (MErased 1 1); Log port MEraseDoneWriting; Poll true;
     Log port (MWritten 2048 size (2048 * 100 / size));
     Progress port
       (50 + py_int (PrimFloat.mul (truediv 2048 size) (float_of_Z 50)));
     Poll true; Log port MWriteDoneVerifying; Poll true;
     Log port (MProdFailed (PlanException (FVerify 0)));
     Finished port false].
Proof.
  intros rom size g Hne Hsz Hss Hbuf Hs
    (acks1 & a0 & h0 & h1 & a1 & acks2 & e0 & e1 & acks3 & acks4 & v0 & v1
     & Hrx & Hl1 & Hlc & Hl2 & Hl3 & Hl4) Hlb Hbad.
  assert (Hpos : 0 < size).
  { subst size rom. unfold len. destruct rom_data; [contradiction|].
    destruct (negb _); rewrite ?length_app; cbn [List.length]; lia. }
  assert (Hb0 : 0 <= cfi_buffer_write_bytes g).
  { subst g. unfold geometry. cbn [cfi_buffer_write_bytes].
    destruct (negb (cfi_word cfi 3 =? 0)); [apply Z.pow_nonneg|]; lia. }
  set (r1 := a0 :: h0 :: h1 :: cfi ++ a1 ::
             acks2 ++ e0 :: e1 :: 0xff :: 0xff ::
             acks3 ++ 0xaa :: acks4 ++ v0 :: v1 :: back ++ rest) in *.
  set (r2 := acks2 ++ e0 :: e1 :: 0xff :: 0xff ::
             acks3 ++ 0xaa :: acks4 ++ v0 :: v1 :: back ++ rest) in *.
  set (r4 := acks4 ++ v0 :: v1 :: back ++ rest) in *.
  cbv zeta. unfold ProductionWorker_run.
  match goal with
  | |- context [try_except ?b ?h] => set (body := b)
  end.
  assert (Hbody : exists t w',
    body w = Out (Raise (PlanException (FVerify 0))) t w' /\
    sent t =
      prelude_frames 1 ++ cfi_frames
      ++ (erase_sector_frames 0 ++ [frame 0xf6 (Z.shiftl 0 1) (le16 2)])
      ++ prelude_frames 1
      ++ [frame 0xf4 0 (le16 (cfi_buffer_write_bytes g) ++ rom
                        ++ repeat 0xff (Z.to_nat (2048 - size)))]
      ++ flat_map mapping_entry_frames identity_mapping
      ++ [frame 0xf6 (Z.shiftl 0 1) (le16 size)] /\
    signals t =
      [Log port MProdStart; Log port (MRomSize (len rom_data));
       Log port MProdWriting;
       Log port (MGeometry (cfi_sector_size g) (cfi_buffer_write_bytes g));
       Log port (MErasing 1); Poll true; Progress port 50;
       Log port (MErased 1 1); Log port MEraseDoneWriting; Poll true;
       Log port (MWritten 2048 size (2048 * 100 / size));
       Progress port
         (50 + py_int (PrimFloat.mul (truediv 2048 size) (float_of_Z 50)));
       Poll true; Log port MWriteDoneVerifying; Poll true]).
  { subst body. cbv zeta. fold rom. fold size.
    do 2 plan_step.
    rewrite (prelude_answered 1 _ w acks1 r1 ltac:(lia) Hrx Hl1).
    do 2 plan_step.
    rewrite (bind_val _ _ _ _ _ _
               (getRomCFI_answered (set_rx w r1) a0 h0 h1 cfi a1 r2
                  (rx_set_rx _ _) Hlc)).
    fold (geometry cfi). fold g. cbv beta. rewrite set_rx_set_rx. plan_step.
    assert (NZ : cfi_sector_size g <> 0) by lia.
    rewrite (bind_pure _ _ _ _ (floordiv_run _ _ _ NZ)). cbv beta.
    replace ((size - 1) / cfi_sector_size g + 1) with 1
      by (rewrite Z.div_small by lia; reflexivity).
    rewrite (bind_val _ _ _ _ _ _
               (production_write_small port rom size (cfi_sector_size g)
                  (cfi_buffer_write_bytes g) (set_rx w r2)
                  acks2 e0 e1 acks3 r4 (runs_less 4 3 w ltac:(lia) Hs)
                  (rx_set_rx _ _) Hl2 Hl3
                  eq_refl (conj Hpos Hsz) (conj Hb0 Hbuf))).
    world_norm.
    rewrite (production_verify_mismatch port rom size (set_rx (after 3 w) r4)
               acks4 v0 v1 back rest (runs_after 3 1 _ Hs) (rx_set_rx _ _)
               Hl4 eq_refl Hlb Hbad (conj Hpos Hsz)).
    world_norm.
    rewrite !prepend_prepend, prepend_out.
    do 2 eexists. split; [reflexivity|]. split.
    - rewrite !sent_app, !sent_acked, sent_cfi_traffic,
        sent_erase_blank_trace.
      cbn [sent flat_map app]. rewrite sent_app, sent_acked.
      cbn [sent flat_map app]. rewrite <- !app_assoc. reflexivity.
    - rewrite !signals_app, !signals_acked, signals_cfi_traffic,
        signals_erase_blank_trace.
      cbn [signals filter is_io negb app].
      rewrite signals_app, signals_acked. reflexivity. }
  destruct Hbody as (t & w' & Hb & Hsent & Hsig).
  unfold try_except. rewrite Hb.
  cbn [result events final log finished bind emit].
  split.
  - unfold commands. rewrite sent_app, Hsent, app_nil_r, !map_app.
    rewrite commands_mapping_frames. cbn [map].
    rewrite (decode_program_frame 0 _ _ ltac:(unfold u32; lia)).
    rewrite (decode_read_frame 0 size ltac:(unfold u32; cbn; lia)).
    reflexivity.
  - rewrite signals_app, Hsig. reflexivity.
Qed.

Lemma production_detects_a_bad_read_back_witness :
  let cfi := [27; 0; 0; 0; 0; 0; 9; 0; 0; 0; 0; 0; 255; 0; 3; 0; 0; 0; 2; 0] in
  let w := World (repeat 0xaa 36 ++ 0xaa :: 0 :: 0 :: cfi ++ 0xaa ::
                  repeat 0xaa 6 ++ 0 :: 0 :: 0xff :: 0xff ::
                  repeat 0xaa 36 ++ 0xaa ::
                  repeat 0xaa 32 ++ 0 :: 0 :: [1; 2; 3; 0xff] ++ [])
                 None (fun _ => 0) 0 in
  let o := ProductionWorker_run "COM3" [1; 2; 3] w in
  commands (events o) =
    prelude_commands 0x84 ++ cfi_commands
    ++ [word_write 0x555 0xAA; word_write 0x2AA 0x55; word_write 0x555 0x80;
        word_write 0x555 0xAA; word_write 0x2AA 0x55; word_write 0 0x30;
        CmdReadRom 0 2]
    ++ prelude_commands 0x84
    ++ [CmdProgramRom 0 512 ([1; 2; 3; 0] ++ repeat 0xFF 2044)]
    ++ flat_map mapping_entry_writes identity_mapping
    ++ [CmdReadRom 0 4] /\
  signals (events o) =
    [Log "COM3" MProdStart; Log "COM3" (MRomSize 3);
     Log "COM3" MProdWriting; Log "COM3" (MGeometry 131072 512);
     Log "COM3" (MErasing 1); Poll true; Progress "COM3" 50;
     Log "COM3" (MErased 1 1); Log "COM3" MEraseDoneWriting; Poll true;
     Log "COM3" (MWritten 2048 4 51200); Progress "COM3" 25650;
     Poll true; Log "COM3" MWriteDoneVerifying; Poll true;
     Log "COM3" (MProdFailed (PlanException (FVerify 0)));
     Finished "COM3" false].
Proof.
  intros cfi w.
  apply (production_detects_a_bad_read_back "COM3" [1; 2; 3] w cfi
           [1; 2; 3; 0xff] []).
  - discriminate.
  - vm_compute. discriminate.
  - vm_compute. discriminate.
  - reflexivity.
  - exact I.
  - exists (repeat 0xaa 36), 0xaa, 0, 0, 0xaa, (repeat 0xaa 6), 0, 0,
      (repeat 0xaa 36), (repeat 0xaa 32), 0, 0.
    repeat split; reflexivity.
  - reflexivity.
  - discriminate.
Defined.
